(** * Veetaa price discovery: a shallow embedding of the scraper pipeline

    The development follows the three Python sources of [veetaa-proto]:
    - [fallback_service.py]  (class [FallbackScraper]),
    - [scraper_service.py]   (class [ScraperService]),
    - [main_simple.py]       (the [/api/search] handler).

    Conventions of the embedding.
    - A Python [str] is a list of Unicode code points ([list N]).
    - A Python [float] is the exact rational it was read from ([Q], kept in
      lowest terms so that Leibniz equality is value equality).  The
      constants the code compares against (0, 49, 50, 2023..2025, 10^7) are
      exact doubles and reading a decimal literal is monotone, so the
      comparisons with them agree with Python's.  A literal at or above
      [float_overflow] reads as [inf] in Python: a price of the model at or
      above that bound stands for [inf], and the one comparison of the code
      that tells [inf] from such a value, [p < float('inf')], is modelled
      accordingly ([main_simple.below]).
    - [datetime.utcnow()] is read from the world's clock, once per loop:
      the records of one loop carry the same time here, where the code
      reads the clock for each record.  No statement below depends on the
      time a record carries.
    - [re], [float], [str.lower], the HTML parsers and the network are not
      part of the repository: the first three are embedded for the ASCII
      repertoire plus the code points the patterns name (the rupee sign,
      the no-break space, the Unicode white space, the two case folding
      exceptions of sre); pages and network answers are inputs ([World]).
    - Exceptions are values ([Raise]); [try]/[except] is written out. *)

From Stdlib Require Import List NArith ZArith QArith Bool Lia String Ascii.
From stdpp Require Import base gmap sets list.
Import ListNotations.

Open Scope N_scope.

(** ** Python strings *)

Abbreviation str := (list N).

(** Decoding of a UTF-8 literal of this file into code points, so that
    inputs can be written as they are in the Python source. *)
Fixpoint utf8_decode (bs : list N) : str :=
  match bs with
  | [] => []
  | b0 :: r0 =>
    if b0 <? 0x80 then b0 :: utf8_decode r0
    else match r0 with
    | b1 :: r1 =>
      if b0 <? 0xE0 then ((b0 - 0xC0) * 64 + (b1 - 0x80)) :: utf8_decode r1
      else match r1 with
      | b2 :: r2 =>
        if b0 <? 0xF0
        then ((b0 - 0xE0) * 4096 + (b1 - 0x80) * 64 + (b2 - 0x80)) :: utf8_decode r2
        else match r2 with
        | b3 :: r3 =>
          ((b0 - 0xF0) * 262144 + (b1 - 0x80) * 4096 + (b2 - 0x80) * 64 + (b3 - 0x80))
            :: utf8_decode r3
        | [] => [b0; b1; b2]
        end
      | [] => [b0; b1]
      end
    | [] => [b0]
    end
  end.

Definition py (s : string) : str :=
  utf8_decode (List.map N_of_ascii (list_ascii_of_string s)).

(** [sub in s] *)
Fixpoint starts_with (sub s : str) : bool :=
  match sub, s with
  | [], _ => true
  | _ :: _, [] => false
  | a :: sub', b :: s' => (a =? b) && starts_with sub' s'
  end.

Fixpoint contains (sub s : str) : bool :=
  starts_with sub s ||
  match s with
  | [] => false
  | _ :: s' => contains sub s'
  end.

(** [str.lower()]: the ASCII letters are folded, the other code points are
    left as they are (Python also folds the cased letters beyond ASCII). *)
Definition lower_char (c : N) : N :=
  if (0x41 <=? c) && (c <=? 0x5A) then c + 32 else c.

Definition lower (s : str) : str := List.map lower_char s.

(** [str.isspace()] per code point: what [\s] and [str.strip()] use. *)
Definition is_space (c : N) : bool :=
  ((0x09 <=? c) && (c <=? 0x0D)) || ((0x1C <=? c) && (c <=? 0x20))
  || (c =? 0x85) || (c =? 0xA0) || (c =? 0x1680)
  || ((0x2000 <=? c) && (c <=? 0x200A))
  || (c =? 0x2028) || (c =? 0x2029) || (c =? 0x202F) || (c =? 0x205F)
  || (c =? 0x3000).

Fixpoint lstrip (s : str) : str :=
  match s with
  | c :: s' => if is_space c then lstrip s' else s
  | [] => []
  end.

Definition strip (s : str) : str := rev (lstrip (rev (lstrip s))).

(** [s.replace(a, b)] for single characters. *)
Definition replace_char (a b : N) (s : str) : str :=
  List.map (fun c => if c =? a then b else c) s.

Definition nbsp : N := 0xA0.
Definition space : N := 0x20.
Definition rupee : N := 0x20B9.

(** ** The fragment of [re] the two extractors use *)

(** [\d] on the ASCII digits (Python also accepts the decimal digits of
    the other scripts, and [float] reads them). *)
Definition is_digit (c : N) : bool := (0x30 <=? c) && (c <=? 0x39).
Definition is_digit_or_comma (c : N) : bool := is_digit c || (c =? 0x2C).

(** A literal under [re.IGNORECASE]: both ASCII cases, and the two
    equivalences sre adds for [i] (dotted and dotless I) and [s] (long s). *)
Definition ci_eqb (c x : N) : bool :=
  let l := lower_char c in
  (lower_char x =? l)
  || ((l =? 0x69) && ((x =? 0x130) || (x =? 0x131)))
  || ((l =? 0x73) && (x =? 0x17F)).

Inductive regex : Type :=
| Eps                                           (* the empty pattern *)
| Lit (c : N)                                   (* a literal, re.IGNORECASE *)
| Cat (r1 r2 : regex)                           (* r1 r2 *)
| Alt (r1 r2 : regex)                           (* r1|r2, ordered *)
| Opt (r : regex)                               (* r?, greedy *)
| Rep (p : N -> bool) (lo : nat) (hi : option nat)  (* [class]{lo,hi}, greedy *)
| Grp (r : regex).                              (* ( r ), group 1 *)

Definition room (hi : option nat) : bool :=
  match hi with Some O => false | _ => true end.

Definition less (hi : option nat) : option nat :=
  match hi with Some n => Some (Nat.pred n) | None => None end.

Section Matcher.
Context {R : Type}.

(** Greedy bounded repetition of a character class: take one more
    character when allowed, give it back when the rest fails. *)
Fixpoint rep (p : N -> bool) (lo : nat) (hi : option nat) (s : str)
         (k : str -> option R) : option R :=
  let stop := match lo with O => k s | S _ => None end in
  match s with
  | c :: s' =>
    if p c && room hi then
      match rep p (Nat.pred lo) (less hi) s' k with
      | Some r => Some r
      | None => stop
      end
    else stop
  | [] => stop
  end.

(** Backtracking matcher in continuation style; [g] is group 1. *)
Fixpoint mt (r : regex) (s : str) (g : option str)
         (k : str -> option str -> option R) : option R :=
  match r with
  | Eps => k s g
  | Lit c =>
    match s with
    | x :: s' => if ci_eqb c x then k s' g else None
    | [] => None
    end
  | Cat r1 r2 => mt r1 s g (fun s1 g1 => mt r2 s1 g1 k)
  | Alt r1 r2 =>
    match mt r1 s g k with
    | Some x => Some x
    | None => mt r2 s g k
    end
  | Opt r1 =>
    match mt r1 s g k with
    | Some x => Some x
    | None => k s g
    end
  | Rep p lo hi => rep p lo hi s (fun s' => k s' g)
  | Grp r1 =>
    mt r1 s g (fun s' _ => k s' (Some (firstn (length s - length s') s)))
  end.
End Matcher.

(** [pattern.match(s)]: the rest of the input and group 1. *)
Definition match_at (r : regex) (s : str) : option (str * option str) :=
  mt r s None (fun s' g => Some (s', g)).

Definition group1 (g : option str) : str :=
  match g with Some c => c | None => [] end.

(** [re.findall] for a pattern with one group: scan from the left, a match
    hides the positions it covers ([skip] counts those still to pass).
    The three patterns below consume at least one character, so the
    treatment of empty matches by [re] plays no part. *)
Fixpoint findall_from (r : regex) (skip : nat) (s : str) : list str :=
  match skip with
  | S n => match s with
           | _ :: s' => findall_from r n s'
           | [] => []
           end
  | O =>
    match match_at r s with
    | Some (rest, g) =>
      group1 g ::
      match s with
      | _ :: s' => findall_from r (Nat.pred (length s - length rest)) s'
      | [] => []
      end
    | None =>
      match s with
      | _ :: s' => findall_from r O s'
      | [] => []
      end
    end
  end.

Definition findall (r : regex) (s : str) : list str := findall_from r O s.

Fixpoint lits (cs : str) : regex :=
  match cs with
  | [] => Eps
  | c :: cs' => Cat (Lit c) (lits cs')
  end.

(** [(?:₹|Rs\.?|INR)] *)
Definition currency_marker : regex :=
  Alt (Lit rupee)
      (Alt (Cat (lits (py "Rs")) (Opt (Lit 0x2E)))
           (lits (py "INR"))).

(** [(?:Rs\.?|INR)] *)
Definition currency_word : regex :=
  Alt (Cat (lits (py "Rs")) (Opt (Lit 0x2E)))
      (lits (py "INR")).

(** [r'(?:₹|Rs\.?|INR)\s*([\d,]+(?:\.\d{1,2})?)'] *)
Definition pat_prefix : regex :=
  Cat currency_marker
      (Cat (Rep is_space 0 None)
           (Grp (Cat (Rep is_digit_or_comma 1 None)
                     (Opt (Cat (Lit 0x2E) (Rep is_digit 1 (Some 2%nat))))))).

(** [r'([\d,]+)\s*(?:Rs\.?|INR)'] *)
Definition pat_suffix : regex :=
  Cat (Grp (Rep is_digit_or_comma 1 None))
      (Cat (Rep is_space 0 None) currency_word).

(** [r'Price:\s*([\d,]+)'] *)
Definition pat_label : regex :=
  Cat (lits (py "Price:"))
      (Cat (Rep is_space 0 None)
           (Grp (Rep is_digit_or_comma 1 None))).

(** ** [float(s)] on plain decimal literals

    [None] is [ValueError].  White space around the literal is dropped, as
    [float] does.  Signs, exponents, underscores and the words [inf]/[nan]
    are not read: group 1 of the patterns above holds digits, commas and
    at most one dot, and the commas are removed before. *)

Fixpoint digits_value (acc : N) (s : str) : N :=
  match s with
  | [] => acc
  | c :: s' => digits_value (10 * acc + (c - 0x30)) s'
  end.

Fixpoint span_digits (s : str) : str * str :=
  match s with
  | c :: s' =>
    if is_digit c then let '(ds, rest) := span_digits s' in (c :: ds, rest)
    else ([], s)
  | [] => ([], [])
  end.

Definition decimal (ip fp : str) : Q :=
  Qred (Z.of_N (digits_value 0 (ip ++ fp))
        # Pos.of_nat (Nat.pow 10 (length fp))).

Definition float_of (s : str) : option Q :=
  let '(ip, rest) := span_digits (strip s) in
  match rest with
  | [] => match ip with [] => None | _ => Some (decimal ip []) end
  | c :: fs =>
    if (c =? 0x2E) && forallb is_digit fs then
      match ip, fs with
      | [], [] => None
      | _, _ => Some (decimal ip fs)
      end
    else None
  end.

(** A double holds no value from 2^1024 - 2^970 on: [float] rounds to the
    nearest double, the largest one is 2^1024 - 2^971, and from the middle
    between it and 2^1024 on the result is [inf].  No exception is raised. *)
Definition float_overflow : Q := inject_Z (2 ^ 1024 - 2 ^ 970).

Definition remove_char (a : N) (s : str) : str :=
  List.filter (fun c => negb (c =? a)) s.

Definition Qltb (x y : Q) : bool := negb (Qle_bool y x).
Definition Qneqb (x y : Q) : bool := negb (Qeq_bool x y).



Definition truthy (o : option str) : bool :=
  match o with Some (_ :: _) => true | _ => false end.

(** ** Exceptions, effects and the outside world *)

Inductive Exn : Type :=
| ConnectionError | Timeout | KeyError | TypeError | IndexError | ParserError.

Inductive Res (A : Type) : Type :=
| Ok (a : A)
| Raise (e : Exn).
Arguments Ok {A} a.
Arguments Raise {A} e.

(** What a request leaves behind: the calls it made, in order. *)
Inductive Event : Type :=
| FirecrawlSearch (query : str)
| HttpPost (url q : str)
| HttpGet (url key value : str)
| Sleep.

Definition Log := list Event.

(** A computation reads and extends the log; the log survives a raise. *)
Definition M (A : Type) : Type := Log -> Log * Res A.

Definition ret {A} (a : A) : M A := fun log => (log, Ok a).
Definition raise {A} (e : Exn) : M A := fun log => (log, Raise e).
Definition bind {A B} (m : M A) (f : A -> M B) : M B :=
  fun log => match m log with
             | (log', Ok a) => f a log'
             | (log', Raise e) => (log', Raise e)
             end.
Definition try_except {A} (m : M A) (handler : Exn -> M A) : M A :=
  fun log => match m log with
             | (log', Ok a) => (log', Ok a)
             | (log', Raise e) => handler e log'
             end.
Definition emit (e : Event) : M unit := fun log => (log ++ [e], Ok tt).
Definition lift {A} (r : Res A) : M A := fun log => (log, r).

Notation "'let*' x ':=' m 'in' k" := (bind m (fun x => k))
  (at level 10, x name, m at level 100, k at level 200).

Definition Time := Z.

(** An HTTP answer: the status and what the HTML parser and the selectors
    make of the body (the parser may raise on it). *)
Record Response (Page : Type) : Type := {
  status_code : Z;
  parsed : Res Page
}.
Arguments status_code {Page} _.
Arguments parsed {Page} _.

(** One [.result] of the search engine page: its [.result__a] anchor (text
    and [href], if any) and the text of its [.result__snippet]. *)
Record TitleTag : Type := { get_text : str; href : option str }.
Record ResultTag : Type := {
  title_tag : option TitleTag;
  snippet_tag : option str
}.

(** One [div.s-search-result]: what [.get()] gives for each selector. *)
Record AmazonItem : Type := {
  amz_title : option str;        (* h2 span::text *)
  amz_price_text : option str;   (* .a-price .a-offscreen::text *)
  amz_link : option str;         (* h2 a::attr(href) *)
  amz_img : option str           (* .s-image::attr(src) *)
}.

(** One [div._1AtVbE] card. *)
Record FlipkartCard : Type := {
  fk_price_text : option str;         (* div._30jeq3::text *)
  fk_link_tag : option (option str);  (* first matching anchor, its href *)
  fk_img : option str                 (* first of the two image selectors *)
}.

(** One item of the hosted search: the keys of the dict. *)
Record FirecrawlItem : Type := {
  fc_url : option str;
  fc_title : option str;
  fc_description : option str;
  fc_og_image : option str            (* item['metadata']['og:image'] *)
}.

Inductive FirecrawlResult : Type :=
| FcDict (data : option (list (Res FirecrawlItem)))  (* a dict, with 'data' or not *)
| FcList (items : list (Res FirecrawlItem))
| FcOther.

Record World : Type := {
  app : bool;                                    (* self.app is not None *)
  app_search : str -> Res FirecrawlResult;
  post_search_engine : str -> Res (Response (list ResultTag));
  get_amazon : str -> Res (Response (list (Res AmazonItem)));
  get_flipkart : str -> Res (Response (list (Res FlipkartCard)));
  clock : nat -> Time;                           (* utcnow, by progress *)
  sha256_hex : str -> str
}.

Definition utcnow (w : World) (log : Log) : Time := clock w (length log).

(** *** Single page inspection: its own answers and its own log *)

(** [a or b] on values that are [None] or a string. *)
Definition py_or (a b : option str) : option str :=
  if truthy a then a else b.

Inductive PageEvent : Type :=
| FirecrawlScrape (url : str)
| PageGet (url : str).

Definition PageLog := list PageEvent.

(** What [.get()] gives on a fetched page for each selector of
    [parse_page]. *)
Record PageSelectors : Type := {
  sel_h1 : option str;                (* h1::text *)
  sel_title : option str;             (* title::text *)
  sel_meta_description : option str;  (* meta[name="description"]::attr(content) *)
  sel_price_amazon : option str;      (* .a-price .a-offscreen::text *)
  sel_price_flipkart : option str;    (* div._30jeq3._16Jk6d::text *)
  sel_price_class : option str;       (* .price::text *)
  sel_price_itemprop : option str     (* [itemprop="price"]::text *)
}.

Record PageResponse : Type := {
  page_status : Z;
  page_text : str;                    (* resp.text *)
  page_selector : Res PageSelectors   (* Selector(text=resp.text) and its css *)
}.

(** The dict of the hosted scrape call: a key that is absent is [None]. *)
Record ScrapeData : Type := {
  sd_markdown : option str;
  sd_content : option str;
  sd_title : option str;              (* data['metadata']['title'] *)
  sd_description : option str         (* data['metadata']['description'] *)
}.

(** The answers are indexed by the number of calls made before, so that a
    page fetched twice may answer differently. *)
Record PageWorld : Type := {
  app_scrape_url : nat -> str -> Res (option ScrapeData);  (* None: falsy data *)
  get_page : nat -> str -> Res PageResponse
}.

(** The dict that [parse_page] and [scrape_page] return. *)
Record PageInfo : Type := {
  pi_price : Q;
  pi_title : str;
  pi_description : str;
  pi_url : str;
  pi_currency : str
}.

(** ** The candidate record: the dict the scrapers build.
    A key some producers leave out is an [option]. *)
Record PriceRecord : Type := {
  marketplace : str;
  price : Q;
  currency : str;
  url : str;
  description : option str;
  images : option (list str);
  last_updated : Time;
  in_stock : bool;
  original_price : option Q;
  discount_percentage : option Q
}.

(** How a [try] block that fills [products] can end. *)
Definition Block : Type := list PriceRecord * Res (option (list PriceRecord)).

(** [except Exception: pass] followed by [return products]. *)
Definition except_return_products (b : Block) : Res (list PriceRecord) :=
  match b with
  | (_, Ok (Some l)) => Ok l
  | (products, Ok None) => Ok products
  | (products, Raise _) => Ok products
  end.

(** ** fallback_service.py *)

Module FallbackScraper.

(** The table of [_identify_marketplace], in its order. *)
Definition marketplace_table : list (str * str) :=
  [ (py "amazon.in", py "Amazon");
    (py "flipkart.com", py "Flipkart");
    (py "croma.com", py "Croma");
    (py "reliancedigital", py "Reliance Digital");
    (py "jiomart", py "JioMart");
    (py "tatacliq", py "Tata Cliq") ].

Fixpoint first_fragment (table : list (str * str)) (u : str) : option str :=
  match table with
  | [] => None
  | (fragment, name) :: table' =>
    if contains fragment u then Some name else first_fragment table' u
  end.

Definition _identify_marketplace (url : str) : option str :=
  let u := lower url in
  first_fragment marketplace_table u.

(** The inner [for m in matches] of [_parse_price]: [Some val] is
    [return val], [None] is the end of the loop. *)
Fixpoint parse_matches (matches : list str) : option Q :=
  match matches with
  | [] => None
  | m :: rest =>
    let clean := remove_char 0x2C m in
    match float_of clean with
    | Some val =>
      if Qltb 49 val && Qltb val 10000000 then Some val
      else parse_matches rest
    | None => parse_matches rest          (* except: continue *)
    end
  end.

(** The outer [for pat in patterns]. *)
Fixpoint parse_patterns (patterns : list regex) (text : str) : option Q :=
  match patterns with
  | [] => None
  | pat :: rest =>
    match parse_matches (findall pat text) with
    | Some val => Some val
    | None => parse_patterns rest text
    end
  end.

Definition patterns : list regex := [pat_prefix; pat_suffix].

Definition _parse_price (text : option str) : Q :=
  if negb (truthy text) then 0%Q
  else
    let text := strip (replace_char nbsp space (default [] text)) in
    match parse_patterns patterns text with
    | Some val => val
    | None => 0%Q
    end.

Definition search_engine_url : str := py "https://html.duckduckgo.com/html/".
Definition amazon_base_url : str := py "https://www.amazon.in/s".
Definition flipkart_base_url : str := py "https://www.flipkart.com/search".

(** [for res in results[:12]] of [scrape_search_engine]: the products so
    far and the exception that ended the loop, if one did. *)
Fixpoint search_engine_loop (now : Time) (results : list ResultTag)
         (products : list PriceRecord) : list PriceRecord * option Exn :=
  match results with
  | [] => (products, None)
  | res :: rest =>
    match title_tag res with
    | None => search_engine_loop now rest products
    | Some tag =>
      let title := get_text tag in
      match href tag with
      | None => (products, Some KeyError)
      | Some link =>
        let snippet := default [] (snippet_tag res) in
        let full_text := title ++ [space] ++ snippet in
        let marketplace := _identify_marketplace link in
        let price := _parse_price (Some full_text) in
        if truthy marketplace || Qltb 0 price then
          search_engine_loop now rest
            (products ++
             [ {| marketplace := if truthy marketplace
                                 then default [] marketplace
                                 else py "Online Store";
                  price := price;
                  currency := py "INR";
                  url := link;
                  description := None;
                  images := None;
                  last_updated := now;
                  in_stock := true;
                  original_price := None;
                  discount_percentage := None |} ])
        else search_engine_loop now rest products
      end
    end
  end.

Definition loop_end (r : list PriceRecord * option Exn) : Block :=
  match r with
  | (products, None) => (products, Ok None)
  | (products, Some e) => (products, Raise e)
  end.

Definition scrape_search_engine (w : World) (query : str)
  : M (list PriceRecord) :=
  fun log =>
    let q := query ++ py " price india buy online" in
    let log := log ++ [HttpPost search_engine_url q] in
    (log,
     except_return_products
       match post_search_engine w q with
       | Raise e => ([], Raise e)
       | Ok resp =>
         if negb (status_code resp =? 200)%Z then ([], Ok (Some []))
         else
           match parsed resp with
           | Raise e => ([], Raise e)
           | Ok results =>
             loop_end (search_engine_loop (utcnow w log) (firstn 12 results) [])
           end
       end).

(** [for item in sel.css('div.s-search-result')[:4]] *)
Fixpoint amazon_loop (now : Time) (items : list (Res AmazonItem))
         (products : list PriceRecord) : list PriceRecord * option Exn :=
  match items with
  | [] => (products, None)
  | Raise e :: _ => (products, Some e)
  | Ok item :: rest =>
    if negb (truthy (amz_title item)) then amazon_loop now rest products
    else
      let price := _parse_price (amz_price_text item) in
      let full_link :=
        if truthy (amz_link item)
        then py "https://www.amazon.in" ++ default [] (amz_link item)
        else [] in
      let images :=
        if truthy (amz_img item) then [default [] (amz_img item)] else [] in
      if Qltb 0 price then
        amazon_loop now rest
          (products ++
           [ {| marketplace := py "Amazon";
                price := price;
                currency := py "INR";
                url := full_link;
                description := None;
                images := Some images;
                last_updated := now;
                in_stock := true;
                original_price := None;
                discount_percentage := None |} ])
      else amazon_loop now rest products
  end.

Definition scrape_amazon (w : World) (query : str) : M (list PriceRecord) :=
  fun log =>
    let log := log ++ [HttpGet amazon_base_url (py "k") query] in
    (log,
     except_return_products
       match get_amazon w query with
       | Raise e => ([], Raise e)
       | Ok response =>
         if negb (status_code response =? 200)%Z then ([], Ok (Some []))
         else
           match parsed response with
           | Raise e => ([], Raise e)
           | Ok items =>
             loop_end (amazon_loop (utcnow w log) (firstn 4 items) [])
           end
       end).

(** [for card in cards], with its [count] of kept listings. *)
Fixpoint flipkart_loop (now : Time) (cards : list (Res FlipkartCard))
         (count : nat) (products : list PriceRecord)
  : list PriceRecord * option Exn :=
  match cards with
  | [] => (products, None)
  | card :: rest =>
    if (4 <=? count)%nat then (products, None)           (* break *)
    else
      match card with
      | Raise e => (products, Some e)
      | Ok card =>
        if negb (truthy (fk_price_text card))
        then flipkart_loop now rest count products
        else
          match fk_link_tag card with
          | None => flipkart_loop now rest count products
          | Some attrib_href =>
            let link := default [] attrib_href in
            let full_link :=
              match link with
              | [] => []
              | _ => py "https://www.flipkart.com" ++ link
              end in
            let images :=
              if truthy (fk_img card) then [default [] (fk_img card)] else [] in
            let price := _parse_price (fk_price_text card) in
            if Qltb 0 price then
              flipkart_loop now rest (S count)
                (products ++
                 [ {| marketplace := py "Flipkart";
                      price := price;
                      currency := py "INR";
                      url := full_link;
                      description := None;
                      images := Some images;
                      last_updated := now;
                      in_stock := true;
                      original_price := None;
                      discount_percentage := None |} ])
            else flipkart_loop now rest count products
          end
      end
  end.

Definition scrape_flipkart (w : World) (query : str) : M (list PriceRecord) :=
  fun log =>
    let log := log ++ [HttpGet flipkart_base_url (py "q") query] in
    (log,
     except_return_products
       match get_flipkart w query with
       | Raise e => ([], Raise e)
       | Ok response =>
         if negb (status_code response =? 200)%Z then ([], Ok (Some []))
         else
           match parsed response with
           | Raise e => ([], Raise e)
           | Ok cards =>
             loop_end (flipkart_loop (utcnow w log) cards 0 [])
           end
       end).

(** The deduplication pass of [search]: [unique_results] and [seen_urls]. *)
Fixpoint dedup_loop (results unique_results : list PriceRecord)
         (seen_urls : gset (list N)) : list PriceRecord :=
  match results with
  | [] => unique_results
  | r :: rest =>
    if decide (url r ∈ seen_urls)
    then dedup_loop rest unique_results seen_urls
    else dedup_loop rest (unique_results ++ [r]) (seen_urls ∪ {[ url r ]})
  end.

Definition deduplicate (results : list PriceRecord) : list PriceRecord :=
  dedup_loop results [] ∅.

(** [time.sleep(random.uniform(1, 2))] followed by one direct scraper and
    [results.extend], the whole in [try ... except Exception]. *)
Definition try_direct (scraper : M (list PriceRecord))
           (results : list PriceRecord) : M (list PriceRecord) :=
  try_except
    (let* _ := emit Sleep in
     let* more := scraper in
     ret (results ++ more))
    (fun _ => ret results).

Definition search (w : World) (product_name : str) : M (list PriceRecord) :=
  let results := [] in
  let* search_results := scrape_search_engine w product_name in
  let results := results ++ search_results in
  let* results :=
    if (length results <? 2)%nat then
      let* results := try_direct (scrape_amazon w product_name) results in
      try_direct (scrape_flipkart w product_name) results
    else ret results in
  ret (deduplicate results).

(** [parse_page]: [Ok None] is [return None]; the whole body is in
    [try ... except Exception: return None]. *)
Definition parse_page (pw : PageWorld) (url : str) (log : PageLog)
  : PageLog * Res (option PageInfo) :=
  let calls := length log in
  let log := log ++ [PageGet url] in
  (log,
   match
     match get_page pw calls url with
     | Raise e => Raise e
     | Ok resp =>
       if negb (page_status resp =? 200)%Z then Ok None
       else
         match page_selector resp with
         | Raise e => Raise e
         | Ok sel =>
           let title :=
             default [] (py_or (py_or (sel_h1 sel) (sel_title sel)) (Some [])) in
           let title := strip title in
           let desc := default [] (py_or (sel_meta_description sel) (Some [])) in
           let price_text :=
             py_or (py_or (py_or (sel_price_amazon sel) (sel_price_flipkart sel))
                          (sel_price_class sel))
                   (sel_price_itemprop sel) in
           let price := _parse_price price_text in
           let price :=
             if Qeq_bool price 0
             then _parse_price (Some (firstn 5000 (page_text resp)))
             else price in
           Ok (Some {| pi_price := price;
                       pi_title := title;
                       pi_description := desc;
                       pi_url := url;
                       pi_currency := py "INR" |})
         end
     end
   with
   | Ok r => Ok r
   | Raise _ => Ok None
   end).

End FallbackScraper.

(** ** scraper_service.py *)

Module ScraperService.

(** The inner [for match in matches] of [_extract_price]. *)
Fixpoint extract_matches (matches : list str) : option Q :=
  match matches with
  | [] => None
  | m :: rest =>
    let clean_val := strip (remove_char 0x2C m) in
    match float_of clean_val with
    | Some val =>
      if Qltb 50 val && Qneqb val 2023 && Qneqb val 2024 && Qneqb val 2025
      then Some val
      else extract_matches rest
    | None => extract_matches rest        (* except: continue *)
    end
  end.

Fixpoint extract_patterns (patterns : list regex) (text : str) : option Q :=
  match patterns with
  | [] => None
  | pat :: rest =>
    match extract_matches (findall pat text) with
    | Some val => Some val
    | None => extract_patterns rest text
    end
  end.

Definition patterns : list regex := [pat_prefix; pat_label].

Definition _extract_price (text : str) : Q :=
  match text with
  | [] => 0%Q
  | _ =>
    let text := replace_char nbsp space text in
    match extract_patterns patterns text with
    | Some val => val
    | None => 0%Q
    end
  end.

(** The [if]/[elif] chain of [_parse_results] on the url as it comes. *)
Definition identify (url : str) : str :=
  if contains (py "amazon.in") url then py "Amazon"
  else if contains (py "flipkart.com") url then py "Flipkart"
  else if contains (py "jiomart") url then py "JioMart"
  else if contains (py "croma") url then py "Croma"
  else py "Online Store".

Fixpoint _parse_results (now : Time) (items : list (Res FirecrawlItem))
  : Res (list PriceRecord) :=
  match items with
  | [] => Ok []
  | Raise e :: _ => Raise e
  | Ok item :: rest =>
    let url := default [] (fc_url item) in
    let title := default [] (fc_title item) in
    let description := default [] (fc_description item) in
    let content := title ++ [space] ++ description in
    let marketplace := identify url in
    let price := _extract_price content in
    let images :=
      match fc_og_image item with Some i => [i] | None => [] end in
    let snapshot :=
      {| marketplace := marketplace;
         price := price;
         currency := py "INR";
         url := url;
         description :=
           Some (match description with [] => title | _ => description end);
         images := Some images;
         last_updated := now;
         in_stock := Qltb 0 price;
         original_price := None;
         discount_percentage := None |} in
    match _parse_results now rest with
    | Ok snapshots => Ok (snapshot :: snapshots)
    | Raise e => Raise e
    end
  end.

(** Strategy 1 of [search_products]: what [results] holds after it. *)
Definition strategy_firecrawl (w : World) (product_name : str)
  : M (list PriceRecord) :=
  if app w then
    try_except
      (let query := product_name ++ py " price buy online amazon.in flipkart.com" in
       let* _ := emit (FirecrawlSearch query) in
       let* fc_results := lift (app_search w query) in
       let items :=
         match fc_results with
         | FcDict (Some data) => data
         | FcList l => l
         | _ => []
         end in
       match items with
       | [] => ret []
       | _ => fun log => lift (_parse_results (utcnow w log) items) log
       end)
      (fun _ => ret [])
  else ret [].

Definition search_products (w : World) (product_name : str)
  : M (list PriceRecord) :=
  let* results := strategy_firecrawl w product_name in
  match results with
  | [] =>
    try_except
      (let* fallback_results := FallbackScraper.search w product_name in
       ret (results ++ fallback_results))
      (fun _ => ret results)
  | _ => ret results
  end.

(** [scrape_page]: the hosted scrape when the client is configured, then
    the local parser. *)
Definition scrape_page (w : World) (pw : PageWorld) (url : str) (log : PageLog)
  : PageLog * Res (option PageInfo) :=
  if app w then
    let calls := length log in
    let log := log ++ [FirecrawlScrape url] in
    match app_scrape_url pw calls url with
    | Ok (Some data) =>
      let content :=
        default [] (py_or (Some (default [] (sd_markdown data)))
                          (Some (default [] (sd_content data)))) in
      let price := _extract_price (firstn 2000 content) in
      (log,
       Ok (Some {| pi_price := price;
                   pi_title := default [] (sd_title data);
                   pi_description :=
                     default [] (py_or (Some (default [] (sd_description data)))
                                       (Some (firstn 500 content)));
                   pi_url := url;
                   pi_currency := py "INR" |}))
    | Ok None => FallbackScraper.parse_page pw url log
    | Raise _ => FallbackScraper.parse_page pw url log
    end
  else FallbackScraper.parse_page pw url log.

End ScraperService.

(** ** main_simple.py *)

Module main_simple.

Record PriceSnapshot : Type := {
  snap_marketplace : str;
  snap_price : Q;
  snap_currency : str;
  snap_url : str;
  snap_description : option str;
  snap_images : list str;
  snap_last_updated : Time;
  snap_in_stock : bool;
  snap_original_price : option Q;
  snap_discount_percentage : option Q
}.

Record ProductInfo : Type := {
  flash_pid : str;
  brand : str;
  product_name : str;
  normalized_title : str;
  category : option str;
  confidence_score : Q
}.

Record SearchResponse : Type := {
  product : ProductInfo;
  prices : list PriceSnapshot;
  best_price : option PriceSnapshot;
  note : str                           (* metadata["note"] *)
}.

(** [PriceSnapshot(marketplace=..., price=..., currency=..., url=...,
    last_updated=...)]: the other fields take the model's defaults. *)
Definition make_snapshot (p : PriceRecord) : PriceSnapshot :=
  {| snap_marketplace := marketplace p;
     snap_price := price p;
     snap_currency := currency p;
     snap_url := url p;
     snap_description := None;
     snap_images := [];
     snap_last_updated := last_updated p;
     snap_in_stock := true;
     snap_original_price := None;
     snap_discount_percentage := None |}.

(** [p < min_price], where [None] is [float('inf')]: every double is
    below it except [inf] itself, the value of a price that overflowed. *)
Definition below (p : Q) (min_price : option Q) : bool :=
  match min_price with
  | None => Qltb p float_overflow
  | Some m => Qltb p m
  end.

(** [for p in real_prices] with its three variables. *)
Fixpoint adapt (real_prices : list PriceRecord)
         (price_snapshots : list PriceSnapshot)
         (best_price_snapshot : option PriceSnapshot)
         (min_price : option Q)
  : list PriceSnapshot * option PriceSnapshot :=
  match real_prices with
  | [] => (price_snapshots, best_price_snapshot)
  | p :: rest =>
    let snapshot := make_snapshot p in
    let price_snapshots := price_snapshots ++ [snapshot] in
    if Qltb 0 (price p) && below (price p) min_price
    then adapt rest price_snapshots (Some snapshot) (Some (price p))
    else adapt rest price_snapshots best_price_snapshot min_price
  end.

(** [str.split()[0]] *)
Fixpoint take_word (s : str) : str :=
  match s with
  | c :: s' => if is_space c then [] else c :: take_word s'
  | [] => []
  end.

Definition first_word (s : str) : Res str :=
  match lstrip s with
  | [] => Raise IndexError
  | t => Ok (take_word t)
  end.

Definition generate_flash_pid (w : World) (product_name brand : str) : str :=
  let content := lower brand ++ py ":" ++ lower product_name in
  firstn 16 (sha256_hex w content).

(** Lines 92-127 of the handler: the response built from [real_prices]. *)
Definition respond (w : World) (name brand : str)
           (real_prices : list PriceRecord) : SearchResponse :=
  let '(price_snapshots, best_price_snapshot) := adapt real_prices [] None None in
  let confidence :=
    match price_snapshots with [] => 0.1%Q | _ => 0.8%Q end in
  {| product :=
       {| flash_pid := generate_flash_pid w name brand;
          brand := brand;
          product_name := name;
          normalized_title := name;
          category := Some (py "Electronics");
          confidence_score := confidence |};
     prices := price_snapshots;
     best_price := best_price_snapshot;
     note := match price_snapshots with
             | [] => py "No results found or Scraper inactive"
             | _ => py "Live Scraping via Firecrawl"
             end |}.

Definition search (w : World) (req_product_name : str) : M SearchResponse :=
  let* brand := lift (first_word req_product_name) in
  let* real_prices := ScraperService.search_products w req_product_name in
  ret (respond w req_product_name brand real_prices).

(** What [/api/inspect] answers: the dict, JSON null, or the error dict. *)
Inductive InspectResult : Type :=
| Data (d : PageInfo)
| Null
| CouldNotScrape.

Definition inspect_url (w : World) (pw : PageWorld) (req_url : str) (log : PageLog)
  : PageLog * Res InspectResult :=
  match ScraperService.scrape_page w pw req_url log with
  | (log, Ok (Some data)) => (log, Ok (Data data))
  | (log, _) =>
    match FallbackScraper.parse_page pw req_url log with
    | (log, Ok (Some data)) => (log, Ok (Data data))
    | (log, Ok None) => (log, Ok Null)
    | (log, Raise _) => (log, Ok CouldNotScrape)
    end
  end.

End main_simple.

(** * Vocabulary of the statements *)

Definition plausible (v : Q) : Prop := (49 < v)%Q /\ (v < 10000000)%Q.

(** The pass without its set: a record is kept when its url is not among
    the urls met before it. *)
Fixpoint keep_first (earlier : list (list N)) (l : list PriceRecord)
  : list PriceRecord :=
  match l with
  | [] => []
  | r :: l' =>
    if bool_decide (url r ∈ earlier) then keep_first earlier l'
    else r :: keep_first (url r :: earlier) l'
  end.

Definition has_url (u : list N) (r : PriceRecord) : bool :=
  bool_decide (url r = u).

Definition post_event (q : list N) : Event :=
  HttpPost FallbackScraper.search_engine_url (q ++ py " price india buy online").
Definition amazon_event (q : list N) : Event :=
  HttpGet FallbackScraper.amazon_base_url (py "k") q.
Definition flipkart_event (q : list N) : Event :=
  HttpGet FallbackScraper.flipkart_base_url (py "q") q.

(** A direct scraper's record: a positive price, in stock. *)
Definition direct_ok (r : PriceRecord) : Prop :=
  (0 < price r)%Q /\ in_stock r = true.

(** An aggregator record: in stock; without a price only when the link
    resolved to a marketplace of the table. *)
Definition engine_ok (r : PriceRecord) : Prop :=
  in_stock r = true /\
  ((0 < price r)%Q \/
   (price r = 0%Q /\
    FallbackScraper._identify_marketplace (url r) = Some (marketplace r))).

(** A primary adapter record: whatever the price, in stock when positive. *)
Definition primary_ok (r : PriceRecord) : Prop :=
  in_stock r = Qltb 0 (price r) /\ (price r = 0%Q \/ (50 < price r)%Q).

Definition firecrawl_event (q : list N) : Event :=
  FirecrawlSearch (q ++ py " price buy online amazon.in flipkart.com").

(** What the top-level search may return: a positive price, or no price on
    a primary adapter record (then out of stock) or on an aggregator
    record whose link resolved to a marketplace of the table. *)
Definition surfaced_ok (r : PriceRecord) : Prop :=
  (0 < price r)%Q \/
  (price r = 0%Q /\
   (in_stock r = false \/
    FallbackScraper._identify_marketplace (url r) = Some (marketplace r))).

(** * Worlds used as examples *)

(** No credential, and every request fails. *)
Definition offline : World :=
  {| app := false;
     app_search := fun _ => Raise ConnectionError;
     post_search_engine := fun _ => Raise ConnectionError;
     get_amazon := fun _ => Raise ConnectionError;
     get_flipkart := fun _ => Raise Timeout;
     clock := fun n => Z.of_nat n;
     sha256_hex := fun s => s |}.

Definition result_tag (title link : string) : ResultTag :=
  {| title_tag := Some {| get_text := py title; href := Some (py link) |};
     snippet_tag := None |}.

(** The search engine finds one Amazon link whose text has no price. *)
Definition world_unpriced_link : World :=
  {| app := false;
     app_search := fun _ => Raise ConnectionError;
     post_search_engine := fun _ =>
       Ok {| status_code := 200;
             parsed := Ok [result_tag "Sony Bravia TV" "https://www.amazon.in/dp/x"] |};
     get_amazon := fun _ => Raise ConnectionError;
     get_flipkart := fun _ => Raise Timeout;
     clock := fun n => Z.of_nat n;
     sha256_hex := fun s => s |}.

(** The end-to-end example of the specification: no primary result, one
    Amazon listing and one unrelated page without a price. *)
Definition world_end_to_end : World :=
  {| app := false;
     app_search := fun _ => Raise ConnectionError;
     post_search_engine := fun _ =>
       Ok {| status_code := 200;
             parsed := Ok [result_tag "Sony Bravia TV ₹45,990" "https://www.amazon.in/dp/x";
                           result_tag "Television - an encyclopedia" "https://example.org/tv"] |};
     get_amazon := fun _ => Raise ConnectionError;
     get_flipkart := fun _ => Ok {| status_code := 503; parsed := Ok [] |};
     clock := fun n => Z.of_nat n;
     sha256_hex := fun s => s |}.

Definition firecrawl_item (link title : string) : FirecrawlItem :=
  {| fc_url := Some (py link);
     fc_title := Some (py title);
     fc_description := None;
     fc_og_image := None |}.

(** The hosted search answers twice with the same page. *)
Definition world_primary_twice : World :=
  {| app := true;
     app_search := fun _ =>
       Ok (FcList [Ok (firecrawl_item "https://www.amazon.in/dp/x" "Sony Bravia ₹45,990");
                   Ok (firecrawl_item "https://www.amazon.in/dp/x" "Sony Bravia ₹45,990")]);
     post_search_engine := fun _ => Raise ConnectionError;
     get_amazon := fun _ => Raise ConnectionError;
     get_flipkart := fun _ => Raise Timeout;
     clock := fun n => Z.of_nat n;
     sha256_hex := fun s => s |}.

(** The hosted search answers with an upper-case host. *)
Definition world_primary_upper : World :=
  {| app := true;
     app_search := fun _ =>
       Ok (FcDict (Some [Ok (firecrawl_item "https://WWW.AMAZON.IN/dp/x" "Sony Bravia ₹45,990")]));
     post_search_engine := fun _ => Raise ConnectionError;
     get_amazon := fun _ => Raise ConnectionError;
     get_flipkart := fun _ => Raise Timeout;
     clock := fun n => Z.of_nat n;
     sha256_hex := fun s => s |}.

(** Three search engine results, the direct scrapers would answer too. *)
Definition world_three_links : World :=
  {| app := false;
     app_search := fun _ => Raise ConnectionError;
     post_search_engine := fun _ =>
       Ok {| status_code := 200;
             parsed := Ok [result_tag "TV ₹45,990" "https://www.amazon.in/dp/x";
                           result_tag "TV Rs. 44,000" "https://www.flipkart.com/tv";
                           result_tag "TV again ₹45,990" "https://www.amazon.in/dp/x"] |};
     get_amazon := fun _ =>
       Ok {| status_code := 200;
             parsed := Ok [Ok {| amz_title := Some (py "TV");
                                 amz_price_text := Some (py "₹43,000");
                                 amz_link := Some (py "/dp/y");
                                 amz_img := None |}] |};
     get_flipkart := fun _ => Raise Timeout;
     clock := fun n => Z.of_nat n;
     sha256_hex := fun s => s |}.

(** The events a run of the fallback orchestrator adds to the log. *)
Definition issued (w : World) (q : list N) (log : Log) : list Event :=
  drop (length log) (fst (FallbackScraper.search w q log)).

(** A fetch that yields no listing: the request raised, the status was not
    200, the parser raised on the body, or the body held no listing. *)
Definition no_listing {P : Type} (r : Res (Response (list P))) : Prop :=
  match r with
  | Raise _ => True
  | Ok response =>
    status_code response <> 200%Z \/
    match parsed response with
    | Raise _ => True
    | Ok items => items = []
    end
  end.

(** A price the handler can choose: positive, and a double (not [inf]). *)
Definition priced (s : main_simple.PriceSnapshot) : Prop :=
  (0 < main_simple.snap_price s)%Q /\
  (main_simple.snap_price s < float_overflow)%Q.

(** The best price among snapshots: one of them, priced, its price not
    above any other positive price; none when no snapshot is priced. *)
Definition best_among (snaps : list main_simple.PriceSnapshot)
           (best : option main_simple.PriceSnapshot) : Prop :=
  match best with
  | Some b =>
    b ∈ snaps /\ priced b /\
    forall s, s ∈ snaps -> (0 < main_simple.snap_price s)%Q ->
              (main_simple.snap_price b <= main_simple.snap_price s)%Q
  | None => forall s, s ∈ snaps -> ~ priced s
  end.

(** The best price in the words of the interface: the least price among
    the records whose price is not 0. *)
Definition best_of_nonzero (snaps : list main_simple.PriceSnapshot)
           (best : option main_simple.PriceSnapshot) : Prop :=
  match best with
  | Some b =>
    b ∈ snaps /\ ~ (main_simple.snap_price b == 0)%Q /\
    forall s, s ∈ snaps -> ~ (main_simple.snap_price s == 0)%Q ->
              (main_simple.snap_price b <= main_simple.snap_price s)%Q
  | None => forall s, s ∈ snaps -> (main_simple.snap_price s == 0)%Q
  end.

(** * Vocabulary for the matcher *)

(** The code points [is_space] accepts. *)
Definition space_points : list N :=
  [ 0x09; 0x0A; 0x0B; 0x0C; 0x0D; 0x1C; 0x1D; 0x1E; 0x1F; 0x20; 0x85; 0xA0;
    0x1680; 0x2000; 0x2001; 0x2002; 0x2003; 0x2004; 0x2005; 0x2006; 0x2007;
    0x2008; 0x2009; 0x200A; 0x2028; 0x2029; 0x202F; 0x205F; 0x3000 ].

Definition all_space (ws : list N) : Prop := Forall (fun c => is_space c = true) ws.

(** The input is at its end or at white space. *)
Definition blank_start (s : list N) : Prop :=
  match s with
  | [] => True
  | c :: _ => is_space c = true
  end.

Definition clean_start (s : list N) : Prop :=
  match s with
  | [] => True
  | c :: _ => is_space c = false
  end.

(** A pattern whose every match begins with a character that is not white
    space. *)
Fixpoint rejects_space (r : regex) : Prop :=
  match r with
  | Eps => False
  | Lit c => forall x, is_space x = true -> ci_eqb c x = false
  | Cat a _ => rejects_space a
  | Alt a b => rejects_space a /\ rejects_space b
  | Opt _ => False
  | Rep p lo _ => lo <> O /\ forall x, is_space x = true -> p x = false
  | Grp a => rejects_space a
  end.

(** A pattern that white space added at the end of the text cannot
    change: its literals and classes are not white space, except for a
    repetition in front of a pattern that rejects white space. *)
Inductive trail_safe : regex -> Prop :=
| ts_eps : trail_safe Eps
| ts_lit c :
    (forall x, is_space x = true -> ci_eqb c x = false) -> trail_safe (Lit c)
| ts_cat a b : trail_safe a -> trail_safe b -> trail_safe (Cat a b)
| ts_alt a b : trail_safe a -> trail_safe b -> trail_safe (Alt a b)
| ts_opt a : trail_safe a -> trail_safe (Opt a)
| ts_rep p lo hi :
    (forall x, is_space x = true -> p x = false) -> trail_safe (Rep p lo hi)
| ts_grp a : trail_safe a -> trail_safe (Grp a)
| ts_gap p lo hi b :
    trail_safe b -> rejects_space b -> trail_safe (Cat (Rep p lo hi) b).

(** A match result on a text with [ws] added at its end. *)
Definition ext (ws : list N) (o : option (list N * option (list N)))
  : option (list N * option (list N)) :=
  match o with
  | Some (rest, g) => Some (rest ++ ws, g)
  | None => None
  end.

(** * Vocabulary for the two extractors *)

Definition normal (text : list N) : list N := replace_char nbsp space text.

(** The value read from a match: commas removed, then [float]. *)
Definition match_value (m : list N) : option Q := float_of (remove_char 0x2C m).

(** The values the patterns yield on a text, in the order of scanning:
    patterns by priority, matches by position. *)
Definition candidate_values (patterns : list regex) (text : list N) : list Q :=
  flat_map (fun pat => omap match_value (findall pat text)) patterns.

Definition is_year (v : Q) : Prop := (v == 2023 \/ v == 2024 \/ v == 2025)%Q.

Definition is_yearb (v : Q) : bool :=
  Qeq_bool v 2023 || Qeq_bool v 2024 || Qeq_bool v 2025.

(** The acceptance tests of the two scans, as the two loops write them. *)
Definition generic_accepts (v : Q) : bool := Qltb 49 v && Qltb v 10000000.

Definition variant_accepts (v : Q) : bool :=
  Qltb 50 v && Qneqb v 2023 && Qneqb v 2024 && Qneqb v 2025.

(** The values a pattern yields on a text, by position. *)
Definition values_of (pat : regex) (text : list N) : list Q :=
  omap match_value (findall pat (normal text)).

(** The values a scan reads: those before the first one its test accepts,
    and that one; the scan returns there, and reads all of them when it
    accepts none. *)
Fixpoint examined (accept : Q -> bool) (l : list Q) : list Q :=
  match l with
  | [] => []
  | v :: l' => v :: (if accept v then [] else examined accept l')
  end.

(** The year rule fires on a text: one of the values the variant reads is
    2023, 2024 or 2025, which its test then excludes. *)
Definition year_rule_fires (text : list N) : Prop :=
  Exists is_year
         (examined variant_accepts
                   (values_of pat_prefix text ++ values_of pat_label text)).

(** The two scans decide alike: the first value of the first pattern that
    the generic test accepts is above 50, the lower bound of the variant;
    or the first pattern gives no such value and the two second patterns
    give the same first accepted value, or none both. *)
Definition decide_alike (text : list N) : Prop :=
  match find generic_accepts (values_of pat_prefix text) with
  | Some v => (50 < v)%Q
  | None =>
    find generic_accepts (values_of pat_suffix text)
    = find variant_accepts (values_of pat_label text)
  end.

(** The core algorithm in the words of the specification (section 4.1):
    trim, two ordered patterns, the open range (49, 10^7), the first
    surviving value or 0; the exclusion of years is a switch. *)
Definition core_accepts (exclude_years : bool) (v : Q) : bool :=
  Qltb 49 v && Qltb v 10000000 &&
  (negb exclude_years || (Qneqb v 2023 && Qneqb v 2024 && Qneqb v 2025)).

Definition extractPrice (exclude_years : bool) (text : list N) : Q :=
  let text := strip (replace_char nbsp space text) in
  match List.filter (core_accepts exclude_years)
                    (candidate_values [pat_prefix; pat_suffix] text) with
  | v :: _ => v
  | [] => 0%Q
  end.

(** * Vocabulary for the further properties *)

(** A record as a direct scraper builds it, for the marketplace [name]
    whose links are completed with [base]. *)
Definition direct_record (name base : list N) (r : PriceRecord) : Prop :=
  marketplace r = name /\
  currency r = py "INR" /\
  in_stock r = true /\
  plausible (price r) /\
  description r = None /\
  (exists imgs, images r = Some imgs /\ (length imgs <= 1)%nat) /\
  (url r = [] \/ exists link, link <> [] /\ url r = base ++ link) /\
  original_price r = None /\ discount_percentage r = None.

(** A record as the search engine aggregator builds it. *)
Definition engine_record (r : PriceRecord) : Prop :=
  currency r = py "INR" /\
  in_stock r = true /\
  description r = None /\ images r = None /\
  original_price r = None /\ discount_percentage r = None /\
  (price r = 0%Q \/ plausible (price r)) /\
  ((FallbackScraper._identify_marketplace (url r) = Some (marketplace r) /\
    marketplace r <> []) \/
   (marketplace r = py "Online Store" /\
    FallbackScraper._identify_marketplace (url r) = None /\
    plausible (price r))).

(** The names a record of the pipeline can carry. *)
Definition marketplace_names : list (list N) :=
  [ py "Amazon"; py "Flipkart"; py "Croma"; py "Reliance Digital";
    py "JioMart"; py "Tata Cliq"; py "Online Store" ].

(** What every record of the pipeline has, whatever its tier. *)
Definition common_fields (r : PriceRecord) : Prop :=
  currency r = py "INR" /\
  marketplace r ∈ marketplace_names /\
  original_price r = None /\ discount_percentage r = None.

(** The record [_parse_results] builds for an item, the time it carries
    apart: nothing of the item is a reason to leave it out. *)
Definition record_of_item (item : FirecrawlItem) (r : PriceRecord) : Prop :=
  url r = default [] (fc_url item) /\
  marketplace r = ScraperService.identify (url r) /\
  price r = ScraperService._extract_price
              (default [] (fc_title item) ++ [space] ++ default [] (fc_description item)) /\
  in_stock r = Qltb 0 (price r) /\
  description r = Some (if truthy (fc_description item)
                        then default [] (fc_description item)
                        else default [] (fc_title item)) /\
  images r = Some (match fc_og_image item with Some i => [i] | None => [] end) /\
  original_price r = None /\ discount_percentage r = None.

(** The items of a hosted search answer, as [search_products] reads them. *)
Definition items_of (fc : FirecrawlResult) : list (Res FirecrawlItem) :=
  match fc with
  | FcDict (Some data) => data
  | FcList l => l
  | _ => []
  end.

(** * More example worlds *)

(** The search engine gives the same Amazon page twice. *)
Definition world_same_link : World :=
  {| app := false;
     app_search := fun _ => Raise ConnectionError;
     post_search_engine := fun _ =>
       Ok {| status_code := 200;
             parsed := Ok [result_tag "TV ₹45,990" "https://www.amazon.in/dp/x";
                           result_tag "TV again ₹44,000" "https://www.amazon.in/dp/x"] |};
     get_amazon := fun _ =>
       Ok {| status_code := 200;
             parsed := Ok [Ok {| amz_title := Some (py "TV");
                                 amz_price_text := Some (py "₹43,000");
                                 amz_link := Some (py "/dp/y");
                                 amz_img := None |}] |};
     get_flipkart := fun _ => Raise Timeout;
     clock := fun n => Z.of_nat n;
     sha256_hex := fun s => s |}.

(** The second search engine result has an anchor without href. *)
Definition world_missing_href : World :=
  {| app := false;
     app_search := fun _ => Raise ConnectionError;
     post_search_engine := fun _ =>
       Ok {| status_code := 200;
             parsed := Ok [result_tag "TV ₹45,990" "https://www.amazon.in/dp/x";
                           {| title_tag := Some {| get_text := py "TV Rs. 100";
                                                   href := None |};
                              snippet_tag := None |};
                           result_tag "TV Rs. 44,000" "https://www.flipkart.com/tv"] |};
     get_amazon := fun _ => Raise ConnectionError;
     get_flipkart := fun _ => Raise Timeout;
     clock := fun n => Z.of_nat n;
     sha256_hex := fun s => s |}.

(** The hosted search answers with one page whose text has no price. *)
Definition world_primary_unpriced : World :=
  {| app := true;
     app_search := fun _ =>
       Ok (FcList [Ok (firecrawl_item "https://example.org/tv"
                                      "Television - an encyclopedia")]);
     post_search_engine := fun _ => Raise ConnectionError;
     get_amazon := fun _ => Raise ConnectionError;
     get_flipkart := fun _ => Raise Timeout;
     clock := fun n => Z.of_nat n;
     sha256_hex := fun s => s |}.

(** A title whose price is written with 310 digits: 10^309, which no
    double holds. *)
Definition overflow_title : list N := py "TV ₹1" ++ repeat 0x30 309%nat.

(** The hosted search answers with that title. *)
Definition world_primary_overflow : World :=
  {| app := true;
     app_search := fun _ =>
       Ok (FcList [Ok {| fc_url := Some (py "https://www.amazon.in/dp/x");
                         fc_title := Some overflow_title;
                         fc_description := None;
                         fc_og_image := None |}]);
     post_search_engine := fun _ => Raise ConnectionError;
     get_amazon := fun _ => Raise ConnectionError;
     get_flipkart := fun _ => Raise Timeout;
     clock := fun n => Z.of_nat n;
     sha256_hex := fun s => s |}.

(** The hosted search answers with one good item and one that is not a
    dict. *)
Definition world_primary_malformed : World :=
  {| app := true;
     app_search := fun _ =>
       Ok (FcList [Ok (firecrawl_item "https://www.amazon.in/dp/x" "Sony Bravia ₹45,990");
                   Raise TypeError]);
     post_search_engine := fun _ =>
       Ok {| status_code := 200;
             parsed := Ok [result_tag "TV Rs. 44,000" "https://www.flipkart.com/tv";
                           result_tag "TV ₹45,990" "https://www.croma.com/tv"] |};
     get_amazon := fun _ => Raise ConnectionError;
     get_flipkart := fun _ => Raise Timeout;
     clock := fun n => Z.of_nat n;
     sha256_hex := fun s => s |}.

(** The best price is the earliest of the cheapest priced snapshots: it is
    priced, the snapshots of positive price before it cost more, those
    after it cost as much or more; there is none when no snapshot is
    priced. *)
Definition best_is_first_minimum (snaps : list main_simple.PriceSnapshot)
           (best : option main_simple.PriceSnapshot) : Prop :=
  match best with
  | Some b =>
    priced b /\
    exists before after,
      snaps = before ++ b :: after /\
      (forall s, s ∈ before -> (0 < main_simple.snap_price s)%Q ->
                 (main_simple.snap_price b < main_simple.snap_price s)%Q) /\
      (forall s, s ∈ after -> (0 < main_simple.snap_price s)%Q ->
                 (main_simple.snap_price b <= main_simple.snap_price s)%Q)
  | None => forall s, s ∈ snaps -> ~ priced s
  end.

(** * Vocabulary for page inspection *)

(** A page fetch that gives nothing: the request raised, the status was
    not 200, or the parser raised on the body. *)
Definition page_failed (r : Res PageResponse) : Prop :=
  match r with
  | Raise _ => True
  | Ok resp =>
    page_status resp <> 200%Z \/ exists e, page_selector resp = Raise e
  end.

(** What a page record always has, for the url asked. *)
Definition page_info_ok (url : list N) (info : PageInfo) : Prop :=
  pi_url info = url /\ pi_currency info = py "INR" /\ (0 <= pi_price info)%Q.

(** The text of the first price selector that is not empty. *)
Definition first_price_text (sel : PageSelectors) : option (list N) :=
  py_or (py_or (py_or (sel_price_amazon sel) (sel_price_flipkart sel))
               (sel_price_class sel))
        (sel_price_itemprop sel).

(** Example pages. *)
Definition page_with (amazon_price : option string) (body : string) : PageResponse :=
  {| page_status := 200;
     page_text := py body;
     page_selector :=
       Ok {| sel_h1 := Some (py "  Sony Bravia  ");
             sel_title := None;
             sel_meta_description := None;
             sel_price_amazon := option_map py amazon_price;
             sel_price_flipkart := Some (py "₹44,000");
             sel_price_class := None;
             sel_price_itemprop := None |} |}.

(** The hosted scrape fails; the page answers only from the second fetch. *)
Definition page_world_retry : PageWorld :=
  {| app_scrape_url := fun _ _ => Raise Timeout;
     get_page := fun calls _ =>
       if (calls <? 2)%nat then Raise ConnectionError
       else Ok (page_with (Some "Currently unavailable"%string) "now only Rs. 41,000") |}.

(** Nothing answers. *)
Definition page_world_down : PageWorld :=
  {| app_scrape_url := fun _ _ => Raise Timeout;
     get_page := fun _ _ => Raise ConnectionError |}.

(** The hosted scrape answers with a text without price. *)
Definition page_world_hosted : PageWorld :=
  {| app_scrape_url := fun _ _ =>
       Ok (Some {| sd_markdown := Some (py "Sony Bravia, released 2024, see Rs. 2024");
                   sd_content := None;
                   sd_title := Some (py "Sony Bravia");
                   sd_description := None |});
     get_page := fun _ _ => Ok (page_with (Some "₹45,990"%string) "") |}.

(** * Properties *)

(** ** Comparisons on prices *)

Lemma Qltb_lt (x y : Q) : Qltb x y = true <-> (x < y)%Q.
Proof.
  unfold Qltb. rewrite negb_true_iff, <- not_true_iff_false, Qle_bool_iff.
  split; [apply Qnot_le_lt | apply Qlt_not_le].
Qed.

Lemma Qltb_ge (x y : Q) : Qltb x y = false <-> (y <= x)%Q.
Proof.
  unfold Qltb. rewrite negb_false_iff. apply Qle_bool_iff.
Qed.

(** ** The plausibility range of the generic extractor *)

Lemma parse_matches_plausible (ms : list (list N)) (v : Q) :
  FallbackScraper.parse_matches ms = Some v -> plausible v.
Proof.
  induction ms as [|m ms IH]; simpl; [discriminate|].
  destruct (float_of _) as [val|]; [|exact IH].
  destruct (Qltb 49 val && Qltb val 10000000) eqn:E; [|exact IH].
  intros [= <-]. apply andb_true_iff in E as [E1 E2].
  split; apply Qltb_lt; assumption.
Qed.

Lemma parse_patterns_plausible (ps : list regex) (t : list N) (v : Q) :
  FallbackScraper.parse_patterns ps t = Some v -> plausible v.
Proof.
  induction ps as [|p ps IH]; simpl; [discriminate|].
  destruct (FallbackScraper.parse_matches _) as [val|] eqn:E; [|exact IH].
  intros [= <-]. eapply parse_matches_plausible, E.
Qed.

Lemma parse_price_zero_or_plausible (text : option (list N)) :
  FallbackScraper._parse_price text = 0%Q \/
  plausible (FallbackScraper._parse_price text).
Proof.
  unfold FallbackScraper._parse_price.
  destruct (negb (truthy text)); [now left|].
  destruct (FallbackScraper.parse_patterns _ _) as [v|] eqn:E; [right|now left].
  eapply parse_patterns_plausible, E.
Qed.

Lemma extract_matches_above (ms : list (list N)) (v : Q) :
  ScraperService.extract_matches ms = Some v -> (50 < v)%Q.
Proof.
  induction ms as [|m ms IH]; simpl; [discriminate|].
  destruct (float_of _) as [val|]; [|exact IH].
  destruct (Qltb 50 val) eqn:E; simpl; [|exact IH].
  destruct (Qneqb val 2023 && Qneqb val 2024 && Qneqb val 2025); [|exact IH].
  intros [= <-]. now apply Qltb_lt.
Qed.

Lemma extract_patterns_above (ps : list regex) (t : list N) (v : Q) :
  ScraperService.extract_patterns ps t = Some v -> (50 < v)%Q.
Proof.
  induction ps as [|p ps IH]; simpl; [discriminate|].
  destruct (ScraperService.extract_matches _) as [val|] eqn:E; [|exact IH].
  intros [= <-]. eapply extract_matches_above, E.
Qed.

Lemma extract_price_zero_or_above (text : list N) :
  ScraperService._extract_price text = 0%Q \/
  (50 < ScraperService._extract_price text)%Q.
Proof.
  unfold ScraperService._extract_price.
  destruct text as [|c text]; [now left|].
  destruct (ScraperService.extract_patterns _ _) as [v|] eqn:E; [right|now left].
  eapply extract_patterns_above, E.
Qed.

(** The examples of the specification, on the generic extractor. *)
Example parse_price_examples :
  FallbackScraper._parse_price (Some (py "₹1,200")) = 1200%Q /\
  FallbackScraper._parse_price (Some (py "Rs. 999.50")) = (1999 # 2)%Q /\
  FallbackScraper._parse_price (Some (py "2024")) = 0%Q /\
  FallbackScraper._parse_price (Some (py "₹10")) = 0%Q /\
  FallbackScraper._parse_price (Some (py "₹99999999")) = 0%Q.
Proof. vm_compute. tauto. Qed.

(** C2 (upper bound missing in the page-inspection variant): on the text
    "₹99999999" the generic extractor answers 0, as specified, and
    [ScraperService._extract_price] answers 99999999, above the ceiling of
    10^7 that the specification gives to both. *)
Theorem extract_price_above_ceiling :
  FallbackScraper._parse_price (Some (py "₹99999999")) = 0%Q /\
  ScraperService._extract_price (py "₹99999999") = 99999999%Q /\
  ~ plausible (ScraperService._extract_price (py "₹99999999")).
Proof.
  split; [reflexivity|]. split; [reflexivity|].
  intros [_ H]. vm_compute in H. discriminate.
Qed.

(** ** Deduplication: first seen wins *)

Lemma dedup_loop_keep_first (results acc : list PriceRecord)
      (seen : gset (list N)) (earlier : list (list N)) :
  (forall u, u ∈ seen <-> u ∈ earlier) ->
  FallbackScraper.dedup_loop results acc seen = acc ++ keep_first earlier results.
Proof.
  revert acc seen earlier.
  induction results as [|r rest IH]; intros acc seen earlier Hseen; simpl.
  - now rewrite app_nil_r.
  - destruct (decide (url r ∈ seen)) as [Hin|Hout].
    + rewrite bool_decide_eq_true_2 by now apply Hseen.
      now apply IH.
    + rewrite bool_decide_eq_false_2 by (intros H; now apply Hout, Hseen).
      rewrite (IH _ _ (url r :: earlier)).
      * now rewrite <- app_assoc.
      * intros u. rewrite elem_of_union, elem_of_singleton, elem_of_cons, Hseen.
        tauto.
Qed.

Lemma deduplicate_keep_first (results : list PriceRecord) :
  FallbackScraper.deduplicate results = keep_first [] results.
Proof.
  unfold FallbackScraper.deduplicate.
  apply (dedup_loop_keep_first results [] ∅ []).
  intros u. rewrite elem_of_nil. set_solver.
Qed.

Lemma keep_first_fresh (earlier : list (list N)) (l : list PriceRecord) r :
  r ∈ keep_first earlier l -> url r ∉ earlier.
Proof.
  revert earlier. induction l as [|x l IH]; intros earlier; simpl.
  - now rewrite elem_of_nil.
  - case_bool_decide as Hx; [apply IH|].
    rewrite elem_of_cons. intros [->|Hr]; [assumption|].
    apply IH in Hr. rewrite not_elem_of_cons in Hr. tauto.
Qed.

Lemma keep_first_NoDup (earlier : list (list N)) (l : list PriceRecord) :
  NoDup (url <$> keep_first earlier l).
Proof.
  revert earlier. induction l as [|x l IH]; intros earlier; simpl.
  - constructor.
  - case_bool_decide as Hx; [apply IH|].
    rewrite fmap_cons. apply NoDup_cons. split; [|apply IH].
    rewrite list_elem_of_fmap. intros (r & Hu & Hr).
    apply keep_first_fresh in Hr. apply Hr. rewrite <- Hu. now left.
Qed.

Lemma keep_first_sublist (earlier : list (list N)) (l : list PriceRecord) :
  keep_first earlier l `sublist_of` l.
Proof.
  revert earlier. induction l as [|x l IH]; intros earlier; simpl.
  - constructor.
  - case_bool_decide; [apply sublist_cons, IH | apply sublist_skip, IH].
Qed.

Lemma keep_first_find (earlier : list (list N)) (l : list PriceRecord) u :
  find (has_url u) (keep_first earlier l) =
  if bool_decide (u ∈ earlier) then None else find (has_url u) l.
Proof.
  revert earlier. induction l as [|x l IH]; intros earlier; simpl.
  - now case_bool_decide.
  - unfold has_url at 2. case_bool_decide as Hx.
    + rewrite IH. case_bool_decide as Hu; [reflexivity|].
      rewrite bool_decide_eq_false_2; [reflexivity|]. congruence.
    + simpl. unfold has_url at 1. case_bool_decide as Hxu.
      * subst u. now rewrite bool_decide_eq_false_2.
      * rewrite IH. rewrite (bool_decide_ext (u ∈ url x :: earlier) (u ∈ earlier));
          [reflexivity|].
        rewrite elem_of_cons. split; [intros [?|?]; congruence | tauto].
Qed.

Lemma deduplicate_elem_of (results : list PriceRecord) r :
  r ∈ FallbackScraper.deduplicate results -> r ∈ results.
Proof.
  rewrite deduplicate_keep_first. intros H.
  eapply elem_of_sublist; [exact H | apply keep_first_sublist].
Qed.

(** ** The scrapers always return *)

Lemma except_return_products_ok (b : Block) :
  exists products, except_return_products b = Ok products.
Proof.
  destruct b as [products [[l|]|e]]; simpl; eauto.
Qed.

Lemma scrape_search_engine_returns (w : World) (q : list N) (log : Log) :
  exists products,
    FallbackScraper.scrape_search_engine w q log = (log ++ [post_event q], Ok products).
Proof.
  unfold FallbackScraper.scrape_search_engine, post_event.
  match goal with |- context [except_return_products ?b] =>
    destruct (except_return_products_ok b) as [l ->] end.
  now exists l.
Qed.

Lemma scrape_amazon_returns (w : World) (q : list N) (log : Log) :
  exists products,
    FallbackScraper.scrape_amazon w q log = (log ++ [amazon_event q], Ok products).
Proof.
  unfold FallbackScraper.scrape_amazon, amazon_event.
  match goal with |- context [except_return_products ?b] =>
    destruct (except_return_products_ok b) as [l ->] end.
  now exists l.
Qed.

Lemma scrape_flipkart_returns (w : World) (q : list N) (log : Log) :
  exists products,
    FallbackScraper.scrape_flipkart w q log = (log ++ [flipkart_event q], Ok products).
Proof.
  unfold FallbackScraper.scrape_flipkart, flipkart_event.
  match goal with |- context [except_return_products ?b] =>
    destruct (except_return_products_ok b) as [l ->] end.
  now exists l.
Qed.

(** A direct scraper that raises leaves [results] as they were. *)
Lemma try_direct_returns (scraper : M (list PriceRecord))
      (results : list PriceRecord) (log : Log) :
  exists log' out,
    FallbackScraper.try_direct scraper results log = (log', Ok out) /\
    (forall e, snd (scraper (log ++ [Sleep])) = Raise e -> out = results) /\
    (forall more, snd (scraper (log ++ [Sleep])) = Ok more -> out = results ++ more).
Proof.
  unfold FallbackScraper.try_direct, try_except, bind, emit, ret.
  destruct (scraper (log ++ [Sleep])) as [log' [more|e]]; simpl;
    do 2 eexists; (split; [reflexivity|]); split; intros ? [=]; subst; reflexivity.
Qed.

(** The run of the fallback orchestrator, step by step. *)
Lemma fallback_search_run (w : World) (q : list N) (log : Log) :
  exists agg amz fk,
    FallbackScraper.scrape_search_engine w q log = (log ++ [post_event q], Ok agg) /\
    FallbackScraper.scrape_amazon w q (log ++ [post_event q; Sleep])
    = (log ++ [post_event q; Sleep; amazon_event q], Ok amz) /\
    FallbackScraper.scrape_flipkart w q
      (log ++ [post_event q; Sleep; amazon_event q; Sleep])
    = (log ++ [post_event q; Sleep; amazon_event q; Sleep; flipkart_event q], Ok fk) /\
    FallbackScraper.search w q log =
    if (length agg <? 2)%nat
    then (log ++ [post_event q; Sleep; amazon_event q; Sleep; flipkart_event q],
          Ok (FallbackScraper.deduplicate ((agg ++ amz) ++ fk)))
    else (log ++ [post_event q], Ok (FallbackScraper.deduplicate agg)).
Proof.
  destruct (scrape_search_engine_returns w q log) as [agg Hagg].
  destruct (scrape_amazon_returns w q (log ++ [post_event q; Sleep])) as [amz Hamz].
  destruct (scrape_flipkart_returns w q
              (log ++ [post_event q; Sleep; amazon_event q; Sleep])) as [fk Hfk].
  rewrite <- app_assoc in Hamz, Hfk.
  change ([post_event q; Sleep] ++ [amazon_event q])
    with [post_event q; Sleep; amazon_event q] in Hamz.
  change ([post_event q; Sleep; amazon_event q; Sleep] ++ [flipkart_event q])
    with [post_event q; Sleep; amazon_event q; Sleep; flipkart_event q] in Hfk.
  exists agg, amz, fk. repeat split; try assumption.
  unfold FallbackScraper.search, bind. rewrite Hagg.
  change ([] ++ agg) with agg.
  destruct (length agg <? 2)%nat; [|reflexivity].
  unfold FallbackScraper.try_direct, try_except, bind, emit, ret.
  rewrite <- app_assoc.
  change ([post_event q] ++ [Sleep]) with [post_event q; Sleep].
  rewrite Hamz. cbv beta iota. rewrite <- app_assoc.
  change ([post_event q; Sleep; amazon_event q] ++ [Sleep])
    with [post_event q; Sleep; amazon_event q; Sleep].
  rewrite Hfk. reflexivity.
Qed.

(** ** What each producer puts in its records *)

Lemma loop_end_products (x : list PriceRecord * option Exn) :
  except_return_products (FallbackScraper.loop_end x) = Ok (fst x).
Proof. destruct x as [products [e|]]; reflexivity. Qed.

Lemma amazon_loop_ok now items products :
  Forall direct_ok products ->
  Forall direct_ok (fst (FallbackScraper.amazon_loop now items products)).
Proof.
  revert products. induction items as [|[item|e] items IH]; intros products Hp;
    simpl; try assumption.
  destruct (negb (truthy (amz_title item))); [now apply IH|].
  destruct (Qltb 0 _) eqn:E; [|now apply IH].
  apply IH, Forall_app. split; [assumption|].
  repeat constructor. now apply Qltb_lt.
Qed.

Lemma flipkart_loop_ok now cards count products :
  Forall direct_ok products ->
  Forall direct_ok (fst (FallbackScraper.flipkart_loop now cards count products)).
Proof.
  revert count products.
  induction cards as [|[card|e] cards IH]; intros count products Hp;
    cbn [FallbackScraper.flipkart_loop]; try assumption;
    destruct (4 <=? count)%nat; try assumption.
  destruct (negb (truthy (fk_price_text card))); [now apply IH|].
  destruct (fk_link_tag card) as [attrib_href|]; [|now apply IH].
  destruct (Qltb 0 _) eqn:E; [|now apply IH].
  apply IH, Forall_app. split; [assumption|].
  repeat constructor. now apply Qltb_lt.
Qed.

Lemma truthy_some (o : option (list N)) :
  truthy o = true -> o = Some (default [] o).
Proof. destruct o as [[|c s]|]; simpl; congruence. Qed.

Lemma search_engine_loop_ok now results products :
  Forall engine_ok products ->
  Forall engine_ok (fst (FallbackScraper.search_engine_loop now results products)).
Proof.
  revert products. induction results as [|res results IH]; intros products Hp;
    cbn [FallbackScraper.search_engine_loop]; try assumption.
  destruct (title_tag res) as [tag|]; [|now apply IH].
  destruct (href tag) as [link|]; [|assumption].
  set (p := FallbackScraper._parse_price _).
  set (mk := FallbackScraper._identify_marketplace link).
  destruct (truthy mk || Qltb 0 p) eqn:E; [|now apply IH].
  apply IH, Forall_app. split; [assumption|].
  constructor; [|constructor]. split; [reflexivity|].
  cbn [price url marketplace].
  destruct (Qltb 0 p) eqn:Ep.
  - left. now apply Qltb_lt.
  - right. rewrite orb_false_r in E. rewrite E. split.
    + destruct (parse_price_zero_or_plausible
                  (Some (get_text tag ++ [space] ++ default [] (snippet_tag res))))
        as [H0|[H49 _]]; [exact H0|].
      apply Qltb_ge in Ep. exfalso.
      apply (Qlt_irrefl 0). eapply Qlt_le_trans; [|exact Ep].
      eapply Qlt_trans; [|exact H49]. reflexivity.
    + now apply truthy_some.
Qed.

Lemma parse_results_ok now items l :
  ScraperService._parse_results now items = Ok l -> Forall primary_ok l.
Proof.
  revert l. induction items as [|[item|e] items IH]; intros l; simpl.
  - intros [= <-]. constructor.
  - destruct (ScraperService._parse_results now items) as [snapshots|e];
      [|discriminate].
    intros [= <-]. constructor; [|now apply IH].
    split; [reflexivity|]. simpl. apply extract_price_zero_or_above.
  - discriminate.
Qed.

Lemma scrape_amazon_ok w q log products :
  snd (FallbackScraper.scrape_amazon w q log) = Ok products ->
  Forall direct_ok products.
Proof.
  unfold FallbackScraper.scrape_amazon. simpl snd.
  destruct (get_amazon w q) as [response|e]; simpl.
  2: { intros [= <-]. constructor. }
  destruct (negb (status_code response =? 200)%Z); simpl.
  1: { intros [= <-]. constructor. }
  destruct (parsed response) as [items|e]; simpl.
  2: { intros [= <-]. constructor. }
  rewrite loop_end_products. intros [= <-].
  apply amazon_loop_ok. constructor.
Qed.

Lemma scrape_flipkart_ok w q log products :
  snd (FallbackScraper.scrape_flipkart w q log) = Ok products ->
  Forall direct_ok products.
Proof.
  unfold FallbackScraper.scrape_flipkart. simpl snd.
  destruct (get_flipkart w q) as [response|e]; simpl.
  2: { intros [= <-]. constructor. }
  destruct (negb (status_code response =? 200)%Z); simpl.
  1: { intros [= <-]. constructor. }
  destruct (parsed response) as [cards|e]; simpl.
  2: { intros [= <-]. constructor. }
  rewrite loop_end_products. intros [= <-].
  apply flipkart_loop_ok. constructor.
Qed.

Lemma scrape_search_engine_ok w q log products :
  snd (FallbackScraper.scrape_search_engine w q log) = Ok products ->
  Forall engine_ok products.
Proof.
  unfold FallbackScraper.scrape_search_engine. simpl snd.
  destruct (post_search_engine w _) as [resp|e]; simpl.
  2: { intros [= <-]. constructor. }
  destruct (negb (status_code resp =? 200)%Z); simpl.
  1: { intros [= <-]. constructor. }
  destruct (parsed resp) as [results|e]; simpl.
  2: { intros [= <-]. constructor. }
  rewrite loop_end_products. intros [= <-].
  apply search_engine_loop_ok. constructor.
Qed.

(** Strategy 1 never raises; it leaves one call in the log when the client
    is configured, none otherwise. *)
Lemma strategy_firecrawl_returns (w : World) (q : list N) (log : Log) :
  exists primary,
    ScraperService.strategy_firecrawl w q log
    = (if app w then log ++ [firecrawl_event q] else log, Ok primary) /\
    Forall primary_ok primary /\
    (app w = false -> primary = []).
Proof.
  unfold ScraperService.strategy_firecrawl, firecrawl_event.
  destruct (app w); [|exists []; repeat split; constructor].
  unfold try_except, bind, emit, lift, ret.
  destruct (app_search w _) as [fc|e];
    [|exists []; repeat split; (constructor || discriminate)].
  set (items := match fc with
                | FcDict (Some data) => data
                | FcList l => l
                | _ => []
                end).
  destruct items as [|i items'] eqn:Ei;
    [exists []; repeat split; (constructor || discriminate)|].
  destruct (ScraperService._parse_results _ (i :: items')) as [l|e] eqn:Ep.
  - exists l. repeat split; [eapply parse_results_ok, Ep | discriminate].
  - exists []. repeat split; (constructor || discriminate).
Qed.

Lemma search_products_run (w : World) (q : list N) (log : Log) :
  exists primary log1,
    ScraperService.strategy_firecrawl w q log = (log1, Ok primary) /\
    log1 = (if app w then log ++ [firecrawl_event q] else log) /\
    Forall primary_ok primary /\
    (app w = false -> primary = []) /\
    ScraperService.search_products w q log =
    match primary with
    | [] => FallbackScraper.search w q log1
    | _ => (log1, Ok primary)
    end.
Proof.
  destruct (strategy_firecrawl_returns w q log) as (primary & Hs & Hok & Hoff).
  remember (if app w then log ++ [firecrawl_event q] else log) as log1 eqn:Hlog1.
  exists primary, log1. repeat split; try assumption.
  unfold ScraperService.search_products, bind. rewrite Hs.
  destruct primary as [|r primary]; [|reflexivity].
  unfold try_except, bind, ret.
  destruct (fallback_search_run w q log1) as (agg & amz & fk & _ & _ & _ & ->).
  destruct (length agg <? 2)%nat; reflexivity.
Qed.

(** ** White space and trimming *)

Lemma is_space_points (x : N) :
  is_space x = true -> existsb (N.eqb x) space_points = true.
Proof.
  unfold is_space, space_points. cbn [existsb].
  rewrite !orb_true_iff, !andb_true_iff, !N.leb_le, !N.eqb_eq. lia.
Qed.

Lemma space_forall (f : N -> bool) :
  forallb (fun x => negb (f x)) space_points = true ->
  forall x, is_space x = true -> f x = false.
Proof.
  intros Hall x Hx. apply is_space_points in Hx.
  apply existsb_exists in Hx as (y & Hy & Heq). apply N.eqb_eq in Heq. subst y.
  rewrite forallb_forall in Hall. apply Hall in Hy. now apply negb_true_iff in Hy.
Qed.

Lemma lstrip_split (s : list N) :
  exists ws, s = ws ++ lstrip s /\ all_space ws.
Proof.
  induction s as [|c s (ws & Hs & Hws)]; [exists []; split; [reflexivity|constructor]|].
  cbn [lstrip]. destruct (is_space c) eqn:Hc.
  - exists (c :: ws). split; [cbn; congruence | now constructor].
  - exists []. split; [reflexivity|constructor].
Qed.

Lemma lstrip_clean (s : list N) : clean_start (lstrip s).
Proof.
  induction s as [|c s IH]; [exact I|]. cbn [lstrip].
  destruct (is_space c) eqn:Hc; [exact IH | exact Hc].
Qed.

Lemma clean_lstrip (s : list N) : clean_start s -> lstrip s = s.
Proof. destruct s as [|c s]; cbn; [reflexivity | now intros ->]. Qed.

Lemma clean_start_app (u v : list N) : clean_start (u ++ v) -> clean_start u.
Proof. destruct u; [intros; exact I | exact id]. Qed.

Lemma all_space_rev (ws : list N) : all_space ws -> all_space (rev ws).
Proof.
  unfold all_space. rewrite !Forall_forall. intros H x Hx. apply H.
  apply list_elem_of_In, in_rev. now apply list_elem_of_In.
Qed.

Lemma strip_split (s : list N) :
  exists ws1 ws2, s = ws1 ++ strip s ++ ws2 /\ all_space ws1 /\ all_space ws2.
Proof.
  destruct (lstrip_split s) as (ws1 & Hs & H1).
  destruct (lstrip_split (rev (lstrip s))) as (ws2 & Hr & H2).
  exists ws1, (rev ws2). split; [|split; [exact H1 | now apply all_space_rev]].
  unfold strip. rewrite <- rev_app_distr, <- Hr, rev_involutive. exact Hs.
Qed.

Lemma strip_idempotent (s : list N) : strip (strip s) = strip s.
Proof.
  unfold strip. set (a := lstrip s). set (b := lstrip (rev a)).
  assert (Hb : clean_start (rev b)).
  { destruct (lstrip_split (rev a)) as (ws & Hr & _). fold b in Hr.
    apply (f_equal (@rev N)) in Hr. rewrite rev_involutive, rev_app_distr in Hr.
    apply (clean_start_app _ (rev ws)). rewrite <- Hr. apply lstrip_clean. }
  rewrite (clean_lstrip (rev b) Hb), rev_involutive.
  now rewrite (clean_lstrip b (lstrip_clean _)).
Qed.

Lemma float_of_strip (s : list N) : float_of (strip s) = float_of s.
Proof. unfold float_of. now rewrite strip_idempotent. Qed.

(** ** Matches never start at white space *)

Lemma rep_rejects {R} p lo hi s (k : list N -> option R) :
  lo <> O -> (forall x, is_space x = true -> p x = false) ->
  blank_start s -> rep p lo hi s k = None.
Proof.
  intros Hlo Hp Hs. destruct lo as [|lo]; [congruence|].
  destruct s as [|c s]; cbn; [reflexivity|]. now rewrite (Hp c Hs).
Qed.

Lemma mt_rejects {R} (r : regex) :
  rejects_space r ->
  forall s g (k : list N -> option (list N) -> option R),
    blank_start s -> mt r s g k = None.
Proof.
  induction r as [|c|a IHa b IHb|a IHa b IHb|a IHa|p lo hi|a IHa];
    cbn [rejects_space mt]; intros Hr s g k Hs; try contradiction.
  - destruct s as [|x s]; [reflexivity|]. now rewrite (Hr x Hs).
  - now apply IHa.
  - destruct Hr as [Ha Hb]. now rewrite IHa, IHb.
  - destruct Hr as [Hlo Hp]. now apply rep_rejects.
  - now apply IHa.
Qed.

(** ** White space at the end of the text *)

Lemma rep_trailing p lo hi ws s (k k' : list N -> option (list N * option (list N))) :
  (forall x, is_space x = true -> p x = false) ->
  all_space ws ->
  (forall x, k' (x ++ ws) = ext ws (k x)) ->
  rep p lo hi (s ++ ws) k' = ext ws (rep p lo hi s k).
Proof.
  intros Hp Hws Hk. revert lo hi.
  induction s as [|c s IH]; intros lo hi.
  - rewrite app_nil_l. destruct ws as [|c ws]; cbn [rep].
    + destruct lo; [apply (Hk [])|reflexivity].
    + apply Forall_cons in Hws as [Hc _]. rewrite (Hp c Hc). cbn.
      destruct lo; [apply (Hk [])|reflexivity].
  - rewrite <- app_comm_cons. cbn [rep].
    rewrite app_comm_cons, IH.
    destruct (p c && room hi); [|destruct lo; [apply Hk|reflexivity]].
    destruct (rep p (Nat.pred lo) (less hi) s k) as [[rest g]|]; [reflexivity|].
    cbn [ext]. destruct lo; [apply Hk|reflexivity].
Qed.

Lemma rep_blank p lo hi ws (k : list N -> option (list N * option (list N))) :
  all_space ws -> (forall x, blank_start x -> k x = None) ->
  rep p lo hi ws k = None.
Proof.
  intros Hws Hk. revert lo hi.
  induction ws as [|c ws IH]; intros lo hi; cbn [rep].
  - destruct lo; [now apply Hk|reflexivity].
  - apply Forall_cons in Hws as [Hc Hws]. rewrite (IH Hws).
    assert (Hstop : match lo with O => k (c :: ws) | S _ => None end = None)
      by (destruct lo; [now apply Hk|reflexivity]).
    rewrite Hstop. now destruct (p c && room hi).
Qed.

Lemma rep_gap p lo hi ws s (k k' : list N -> option (list N * option (list N))) :
  all_space ws ->
  (forall x, k' (x ++ ws) = ext ws (k x)) ->
  (forall x, blank_start x -> k' x = None) ->
  rep p lo hi (s ++ ws) k' = ext ws (rep p lo hi s k).
Proof.
  intros Hws Hk Hblank.
  assert (Hnil : k [] = None).
  { specialize (Hk []). rewrite app_nil_l, Hblank in Hk.
    - destruct (k []) as [[rest g]|]; [discriminate|reflexivity].
    - destruct ws as [|c ws]; [exact I|]. now apply Forall_cons in Hws as [Hc _]. }
  revert lo hi. induction s as [|c s IH]; intros lo hi.
  - rewrite app_nil_l, (rep_blank p lo hi ws k' Hws Hblank). cbn [rep].
    destruct lo; [now rewrite Hnil|reflexivity].
  - rewrite <- app_comm_cons. cbn [rep].
    rewrite app_comm_cons, IH.
    destruct (p c && room hi); [|destruct lo; [apply Hk|reflexivity]].
    destruct (rep p (Nat.pred lo) (less hi) s k) as [[rest g]|]; [reflexivity|].
    cbn [ext]. destruct lo; [apply Hk|reflexivity].
Qed.

Lemma mt_trailing (r : regex) :
  trail_safe r ->
  forall ws, all_space ws ->
  forall s g (k k' : list N -> option (list N) -> option (list N * option (list N))),
    (forall x g, k' (x ++ ws) g = ext ws (k x g)) ->
    mt r (s ++ ws) g k' = ext ws (mt r s g k).
Proof.
  induction 1 as [|c Hc|a b _ IHa _ IHb|a b _ IHa _ IHb|a _ IHa|p lo hi Hp
                  |a _ IHa|p lo hi b _ IHb Hb];
    intros ws Hws s g k k' Hk; cbn [mt].
  - apply Hk.
  - destruct s as [|x s].
    + rewrite app_nil_l. destruct ws as [|x ws]; [reflexivity|].
      apply Forall_cons in Hws as [Hx _]. now rewrite (Hc x Hx).
    + rewrite <- app_comm_cons. destruct (ci_eqb c x); [apply Hk|reflexivity].
  - apply IHa; [exact Hws|]. intros x g1. now apply IHb.
  - rewrite (IHa ws Hws s g k k' Hk), (IHb ws Hws s g k k' Hk).
    now destruct (mt a s g k) as [[rest g1]|].
  - rewrite (IHa ws Hws s g k k' Hk), Hk.
    now destruct (mt a s g k) as [[rest g1]|].
  - apply rep_trailing; [exact Hp | exact Hws |]. intros x. apply Hk.
  - apply IHa; [exact Hws|]. intros x _.
    rewrite Hk. do 3 f_equal. rewrite !length_app.
    replace (length s + length ws - (length x + length ws))%nat
      with (length s - length x)%nat by lia.
    apply take_app_le. lia.
  - apply rep_gap; [exact Hws | |].
    + intros x. now apply IHb.
    + intros x Hx. now apply mt_rejects.
Qed.

Lemma match_at_trailing (r : regex) (ws s : list N) :
  trail_safe r -> all_space ws ->
  match_at r (s ++ ws) = ext ws (match_at r s).
Proof.
  intros Hr Hws. unfold match_at. now apply mt_trailing.
Qed.

Lemma findall_blank (r : regex) (ws : list N) (skip : nat) :
  rejects_space r -> all_space ws -> findall_from r skip ws = [].
Proof.
  intros Hr Hws. revert skip. induction ws as [|c ws IH]; intros skip.
  - destruct skip; [|reflexivity]. cbn [findall_from]. unfold match_at.
    now rewrite mt_rejects.
  - apply Forall_cons in Hws as [Hc Hws]. destruct skip; cbn [findall_from];
      [|now apply IH].
    unfold match_at. rewrite mt_rejects; [now apply IH | exact Hr | exact Hc].
Qed.

Lemma findall_trailing (r : regex) (ws s : list N) (skip : nat) :
  trail_safe r -> rejects_space r -> all_space ws ->
  findall_from r skip (s ++ ws) = findall_from r skip s.
Proof.
  intros Ht Hr Hws. revert skip. induction s as [|c s IH]; intros skip.
  - rewrite app_nil_l, findall_blank by assumption.
    destruct skip; [|reflexivity]. cbn [findall_from]. unfold match_at.
    now rewrite mt_rejects.
  - rewrite <- app_comm_cons. destruct skip; cbn [findall_from]; [|apply IH].
    rewrite app_comm_cons, match_at_trailing by assumption.
    destruct (match_at r (c :: s)) as [[rest g]|]; cbn [ext]; [|apply IH].
    rewrite IH. do 3 f_equal. rewrite <- app_comm_cons. cbn [length].
    rewrite !length_app. lia.
Qed.

Lemma findall_leading (r : regex) (ws s : list N) :
  rejects_space r -> all_space ws -> findall r (ws ++ s) = findall r s.
Proof.
  intros Hr Hws. induction ws as [|c ws IH]; [reflexivity|].
  apply Forall_cons in Hws as [Hc Hws]. rewrite <- app_comm_cons.
  unfold findall in *. cbn [findall_from]. unfold match_at.
  rewrite mt_rejects; [now apply IH | exact Hr | exact Hc].
Qed.

(** Trimming the text does not change what the pattern finds. *)
Lemma findall_strip (r : regex) (s : list N) :
  trail_safe r -> rejects_space r -> findall r (strip s) = findall r s.
Proof.
  intros Ht Hr. destruct (strip_split s) as (ws1 & ws2 & Hs & H1 & H2).
  transitivity (findall r (ws1 ++ strip s ++ ws2)); [|now rewrite <- Hs].
  rewrite findall_leading by assumption. unfold findall.
  now rewrite findall_trailing.
Qed.

(** * The properties of the specification *)

(** ** Prices of the returned records *)

Lemma primary_ok_surfaced (r : PriceRecord) : primary_ok r -> surfaced_ok r.
Proof.
  intros [Hstock [H0|H50]].
  - right. split; [assumption|]. left. now rewrite Hstock, H0.
  - left. eapply Qlt_trans; [|exact H50]. reflexivity.
Qed.

Lemma engine_ok_surfaced (r : PriceRecord) : engine_ok r -> surfaced_ok r.
Proof. intros [_ [Hp|[H0 Hm]]]; [now left | right; tauto]. Qed.

Lemma direct_ok_surfaced (r : PriceRecord) : direct_ok r -> surfaced_ok r.
Proof. intros [Hp _]. now left. Qed.

Lemma fallback_search_surfaced (w : World) (q : list N) (log : Log) :
  exists out, snd (FallbackScraper.search w q log) = Ok out /\
              Forall surfaced_ok out.
Proof.
  destruct (fallback_search_run w q log) as (agg & amz & fk & Ha & Hz & Hf & ->).
  apply (f_equal snd), scrape_search_engine_ok in Ha.
  apply (f_equal snd), scrape_amazon_ok in Hz.
  apply (f_equal snd), scrape_flipkart_ok in Hf.
  assert (Hagg : Forall surfaced_ok agg)
    by (eapply Forall_impl; [exact Ha | apply engine_ok_surfaced]).
  assert (Hamz : Forall surfaced_ok amz)
    by (eapply Forall_impl; [exact Hz | apply direct_ok_surfaced]).
  assert (Hfk : Forall surfaced_ok fk)
    by (eapply Forall_impl; [exact Hf | apply direct_ok_surfaced]).
  destruct (length agg <? 2)%nat; eexists; (split; [reflexivity|]);
    apply Forall_forall; intros r Hr%deduplicate_elem_of.
  - rewrite !elem_of_app in Hr. destruct Hr as [[Hr|Hr]|Hr];
      eapply Forall_forall in Hr; eauto.
  - eapply Forall_forall in Hr; eauto.
Qed.

Lemma search_products_surfaced (w : World) (q : list N) (log : Log) :
  exists out, snd (ScraperService.search_products w q log) = Ok out /\
              Forall surfaced_ok out.
Proof.
  destruct (search_products_run w q log)
    as (primary & log1 & _ & _ & Hok & _ & ->).
  destruct primary as [|r primary].
  - apply fallback_search_surfaced.
  - eexists. split; [reflexivity|].
    eapply Forall_impl; [exact Hok | apply primary_ok_surfaced].
Qed.

(** C1, as the code has it, tier by tier.  The top-level search always
    returns, and each record it returns has a positive price, or has price
    0 and is marked out of stock or carries the marketplace name that the
    table gives to its link.  Of the records each producer returns: a
    record of the primary adapter has price 0 or a price above 50, and is
    marked in stock exactly when its price is positive; a record of the
    aggregator is in stock and has a positive price, or price 0 and the
    name the table gives to its link, so that a result without price whose
    link resolves to no marketplace is never returned; a record of a
    direct scraper is in stock and has a positive price. *)
Theorem search_prices_by_tier (w : World) (q : list N) (log : Log) :
  (exists out, snd (ScraperService.search_products w q log) = Ok out /\
               Forall surfaced_ok out) /\
  (exists primary, snd (ScraperService.strategy_firecrawl w q log) = Ok primary /\
                   Forall primary_ok primary) /\
  (exists agg, snd (FallbackScraper.scrape_search_engine w q log) = Ok agg /\
               Forall engine_ok agg) /\
  (exists amz, snd (FallbackScraper.scrape_amazon w q log) = Ok amz /\
               Forall direct_ok amz) /\
  (exists fk, snd (FallbackScraper.scrape_flipkart w q log) = Ok fk /\
              Forall direct_ok fk).
Proof.
  split; [|split; [|split; [|split]]].
  - apply search_products_surfaced.
  - destruct (strategy_firecrawl_returns w q log) as (primary & H & Hok & _).
    exists primary. rewrite H. split; [reflexivity | exact Hok].
  - destruct (scrape_search_engine_returns w q log) as [agg H]. exists agg.
    rewrite H. split; [reflexivity|].
    now apply (f_equal snd), scrape_search_engine_ok in H.
  - destruct (scrape_amazon_returns w q log) as [amz H]. exists amz.
    rewrite H. split; [reflexivity|].
    now apply (f_equal snd), scrape_amazon_ok in H.
  - destruct (scrape_flipkart_returns w q log) as [fk H]. exists fk.
    rewrite H. split; [reflexivity|].
    now apply (f_equal snd), scrape_flipkart_ok in H.
Qed.

(** C1 as stated fails on two tiers: the search engine finds an Amazon
    link whose text carries no price, and the record is returned with
    price 0; the hosted search answers with a page whose text carries no
    price, and the record is returned with price 0, out of stock. *)
Lemma zero_price_is_surfaced :
  (exists r,
      snd (ScraperService.search_products world_unpriced_link (py "Sony Bravia TV") [])
      = Ok [r] /\
      marketplace r = py "Amazon" /\ price r = 0%Q /\ ~ (0 < price r)%Q) /\
  (exists r,
      snd (ScraperService.search_products world_primary_unpriced (py "Sony Bravia TV") [])
      = Ok [r] /\
      marketplace r = py "Online Store" /\ in_stock r = false /\
      price r = 0%Q /\ ~ (0 < price r)%Q).
Proof.
  split; eexists; (split; [vm_compute; reflexivity|]); simpl;
    repeat split; intros H; vm_compute in H; discriminate.
Qed.

(** ** Uniqueness of urls *)

(** C4, as the code has it: the fallback orchestrator always returns, its
    sequence is [deduplicate] of the candidates, and [deduplicate] keeps
    for each url its first record only, in the order of the candidates;
    this is what the top-level search returns when the primary adapter has
    nothing.  Candidates A, B, A give A, B. *)
Theorem fallback_urls_unique (w : World) (q : list N) (log : Log) :
  (forall results : list PriceRecord,
      NoDup (url <$> FallbackScraper.deduplicate results) /\
      FallbackScraper.deduplicate results `sublist_of` results /\
      (forall u, find (has_url u) (FallbackScraper.deduplicate results)
                 = find (has_url u) results)) /\
  (forall a b a' : PriceRecord,
      url a' = url a -> url b <> url a ->
      FallbackScraper.deduplicate [a; b; a'] = [a; b]) /\
  (exists out, snd (FallbackScraper.search w q log) = Ok out /\
               NoDup (url <$> out)) /\
  (forall log1, ScraperService.strategy_firecrawl w q log = (log1, Ok []) ->
      exists out, snd (ScraperService.search_products w q log) = Ok out /\
                  NoDup (url <$> out)).
Proof.
  assert (Hfb : forall l, exists out,
               snd (FallbackScraper.search w q l) = Ok out /\ NoDup (url <$> out)).
  { intros l. destruct (fallback_search_run w q l) as (agg & amz & fk & _ & _ & _ & ->).
    destruct (length agg <? 2)%nat; eexists; (split; [reflexivity|]);
      rewrite deduplicate_keep_first; apply keep_first_NoDup. }
  split; [|split; [|split]].
  - intros results. rewrite deduplicate_keep_first.
    split; [apply keep_first_NoDup|]. split; [apply keep_first_sublist|].
    intros u. rewrite keep_first_find. now rewrite bool_decide_eq_false_2 by apply not_elem_of_nil.
  - intros a b a' Ha Hb. rewrite deduplicate_keep_first.
    cbn [keep_first].
    rewrite (bool_decide_eq_false_2 (url a ∈ [])) by apply not_elem_of_nil.
    rewrite (bool_decide_eq_false_2 (url b ∈ [url a]))
      by (rewrite list_elem_of_singleton; exact Hb).
    rewrite (bool_decide_eq_true_2 (url a' ∈ [url b; url a])); [reflexivity|].
    rewrite Ha. right. left.
  - apply Hfb.
  - intros log1 Hs.
    destruct (search_products_run w q log)
      as (primary & log1' & Hs' & _ & _ & _ & ->).
    rewrite Hs in Hs'. injection Hs' as <- <-. apply Hfb.
Qed.

Lemma fallback_urls_unique_witness :
  FallbackScraper.deduplicate
    [ {| marketplace := py "Amazon"; price := 100; currency := py "INR";
         url := py "A"; description := None; images := None;
         last_updated := 0%Z; in_stock := true;
         original_price := None; discount_percentage := None |};
      {| marketplace := py "Flipkart"; price := 90; currency := py "INR";
         url := py "B"; description := None; images := None;
         last_updated := 0%Z; in_stock := true;
         original_price := None; discount_percentage := None |};
      {| marketplace := py "Amazon"; price := 80; currency := py "INR";
         url := py "A"; description := None; images := Some [];
         last_updated := 1%Z; in_stock := true;
         original_price := None; discount_percentage := None |} ]
  = [ {| marketplace := py "Amazon"; price := 100; currency := py "INR";
         url := py "A"; description := None; images := None;
         last_updated := 0%Z; in_stock := true;
         original_price := None; discount_percentage := None |};
      {| marketplace := py "Flipkart"; price := 90; currency := py "INR";
         url := py "B"; description := None; images := None;
         last_updated := 0%Z; in_stock := true;
         original_price := None; discount_percentage := None |} ].
Proof.
  apply (proj1 (proj2 (fallback_urls_unique offline [] []))).
  - reflexivity.
  - vm_compute. discriminate.
Defined.

(** C4 as stated fails on the primary tier: the hosted search answers twice
    with the same page and both records are returned. *)
Lemma primary_tier_repeats_url :
  exists r1 r2,
    snd (ScraperService.search_products world_primary_twice (py "Sony Bravia TV") [])
    = Ok [r1; r2] /\
    url r1 = url r2 /\ ~ NoDup (url <$> [r1; r2]).
Proof.
  do 2 eexists. split; [vm_compute; reflexivity|].
  split; [reflexivity|].
  intros H. apply NoDup_cons in H as [H _]. apply H. left.
Qed.

(** ** Tiers and escalation *)

(** C5: the primary strategy always yields a sequence; when it is not empty
    the top-level search returns it as it is and the log holds the hosted
    search call only (no request of the fallback tier); when it is empty
    the top-level search is the run of the fallback orchestrator, which
    returns too. *)
Theorem tier_precedence (w : World) (q : list N) (log : Log) :
  exists primary log1,
    ScraperService.strategy_firecrawl w q log = (log1, Ok primary) /\
    (primary <> [] ->
     ScraperService.search_products w q log = (log ++ [firecrawl_event q], Ok primary)) /\
    (primary = [] ->
     ScraperService.search_products w q log = FallbackScraper.search w q log1 /\
     exists out, snd (FallbackScraper.search w q log1) = Ok out).
Proof.
  destruct (search_products_run w q log)
    as (primary & log1 & Hs & Hlog & _ & Hoff & Hrun).
  exists primary, log1. split; [exact Hs|]. split.
  - intros Hne. rewrite Hrun.
    destruct primary as [|r primary]; [congruence|].
    destruct (app w); [now subst log1|].
    discriminate (Hoff eq_refl).
  - intros ->. split; [exact Hrun|].
    destruct (fallback_search_surfaced w q log1) as (out & Hout & _). eauto.
Qed.

Lemma tier_precedence_witness :
  exists primary,
    primary <> [] /\
    ScraperService.search_products world_primary_upper (py "tv") []
    = ([firecrawl_event (py "tv")], Ok primary).
Proof.
  destruct (tier_precedence world_primary_upper (py "tv") [])
    as (primary & log1 & Hs & Hne & _).
  exists primary.
  assert (H : primary <> []).
  { intros ->. vm_compute in Hs. discriminate. }
  split; [exact H | exact (Hne H)].
Defined.

Lemma issued_events (w : World) (q : list N) (log : Log) (evs : list Event) :
  fst (FallbackScraper.search w q log) = log ++ evs -> issued w q log = evs.
Proof.
  unfold issued. intros ->. now rewrite drop_app_length.
Qed.

(** C6: the orchestrator always queries the search engine; it goes on to
    the direct scrapers exactly when the aggregator gave fewer than 2
    results, and then to both, Amazon first, whatever Amazon's outcome; a
    direct scraper that raises is caught and the results kept. *)
Theorem escalation_trigger (w : World) (q : list N) (log : Log) :
  exists agg,
    FallbackScraper.scrape_search_engine w q log = (log ++ [post_event q], Ok agg) /\
    issued w q log =
      (if (length agg <? 2)%nat
       then [post_event q; Sleep; amazon_event q; Sleep; flipkart_event q]
       else [post_event q]) /\
    (amazon_event q ∈ issued w q log <-> (length agg < 2)%nat) /\
    (flipkart_event q ∈ issued w q log <-> (length agg < 2)%nat) /\
    (forall (scraper : M (list PriceRecord)) results l,
        exists l' out,
          FallbackScraper.try_direct scraper results l = (l', Ok out) /\
          (forall e, snd (scraper (l ++ [Sleep])) = Raise e -> out = results)).
Proof.
  destruct (fallback_search_run w q log) as (agg & amz & fk & Ha & _ & _ & Hrun).
  exists agg. split; [exact Ha|].
  assert (Hev : issued w q log =
                if (length agg <? 2)%nat
                then [post_event q; Sleep; amazon_event q; Sleep; flipkart_event q]
                else [post_event q]).
  { apply issued_events. rewrite Hrun. now destruct (length agg <? 2)%nat. }
  split; [exact Hev|]. rewrite Hev.
  destruct (Nat.ltb_spec (length agg) 2) as [Hlt|Hge].
  - split; [|split].
    + split; [intros _; exact Hlt | intros _; do 2 right; left].
    + split; [intros _; exact Hlt | intros _; do 4 right; left].
    + intros scraper results l.
      destruct (try_direct_returns scraper results l) as (l' & out & H1 & H2 & _).
      eauto.
  - split; [|split].
    + split; [|lia]. rewrite list_elem_of_singleton. discriminate.
    + split; [|lia]. rewrite list_elem_of_singleton. discriminate.
    + intros scraper results l.
      destruct (try_direct_returns scraper results l) as (l' & out & H1 & H2 & _).
      eauto.
Qed.

Lemma escalation_trigger_witness :
  issued world_unpriced_link (py "tv") []
  = [post_event (py "tv"); Sleep; amazon_event (py "tv"); Sleep;
     flipkart_event (py "tv")] /\
  issued world_three_links (py "tv") [] = [post_event (py "tv")].
Proof.
  split.
  - destruct (escalation_trigger world_unpriced_link (py "tv") [])
      as (agg & Ha & -> & _).
    vm_compute in Ha. injection Ha as <-. reflexivity.
  - destruct (escalation_trigger world_three_links (py "tv") [])
      as (agg & Ha & -> & _).
    vm_compute in Ha. injection Ha as <-. reflexivity.
Defined.

(** ** Failures *)

Lemma amazon_loop_raise now pre e post products :
  fst (FallbackScraper.amazon_loop now (pre ++ Raise e :: post) products)
  = fst (FallbackScraper.amazon_loop now pre products).
Proof.
  revert products. induction pre as [|[item|e'] pre IH]; intros products;
    rewrite <- ?app_comm_cons, ?app_nil_l;
    cbn [FallbackScraper.amazon_loop]; try reflexivity.
  destruct (negb (truthy (amz_title item))); [apply IH|].
  destruct (Qltb 0 _); apply IH.
Qed.

Lemma flipkart_loop_raise now pre e post count products :
  fst (FallbackScraper.flipkart_loop now (pre ++ Raise e :: post) count products)
  = fst (FallbackScraper.flipkart_loop now pre count products).
Proof.
  revert count products.
  induction pre as [|[card|e'] pre IH]; intros count products;
    rewrite <- ?app_comm_cons, ?app_nil_l;
    cbn [FallbackScraper.flipkart_loop];
    destruct (4 <=? count)%nat; try reflexivity.
  destruct (negb (truthy (fk_price_text card))); [apply IH|].
  destruct (fk_link_tag card); [|apply IH].
  destruct (Qltb 0 _); apply IH.
Qed.

Lemma scrape_amazon_no_listing (w : World) (q : list N) (log : Log) :
  no_listing (get_amazon w q) ->
  snd (FallbackScraper.scrape_amazon w q log) = Ok [].
Proof.
  unfold FallbackScraper.scrape_amazon, no_listing. cbn [snd].
  destruct (get_amazon w q) as [response|e]; [|reflexivity].
  intros [Hs|Hp].
  - apply Z.eqb_neq in Hs. now rewrite Hs.
  - destruct (negb _); [reflexivity|].
    destruct (parsed response) as [items|e]; [|reflexivity]. now subst items.
Qed.

Lemma scrape_flipkart_no_listing (w : World) (q : list N) (log : Log) :
  no_listing (get_flipkart w q) ->
  snd (FallbackScraper.scrape_flipkart w q log) = Ok [].
Proof.
  unfold FallbackScraper.scrape_flipkart, no_listing. cbn [snd].
  destruct (get_flipkart w q) as [response|e]; [|reflexivity].
  intros [Hs|Hp].
  - apply Z.eqb_neq in Hs. now rewrite Hs.
  - destruct (negb _); [reflexivity|].
    destruct (parsed response) as [cards|e]; [|reflexivity]. now subst cards.
Qed.

(** C8: each direct scraper returns a sequence on every world: the empty
    one when the request raises, the status is not 200, the parser raises
    or the body has no listing, and what it had accumulated when a listing
    raises; the fallback orchestrator and the top-level search return a
    sequence as well, so no exception reaches their caller. *)
Theorem scrapers_never_raise (w : World) (q : list N) (log : Log) :
  (exists amz, FallbackScraper.scrape_amazon w q log = (log ++ [amazon_event q], Ok amz) /\
               (no_listing (get_amazon w q) -> amz = [])) /\
  (exists fk, FallbackScraper.scrape_flipkart w q log = (log ++ [flipkart_event q], Ok fk) /\
              (no_listing (get_flipkart w q) -> fk = [])) /\
  (forall now pre e post products,
      fst (FallbackScraper.amazon_loop now (pre ++ Raise e :: post) products)
      = fst (FallbackScraper.amazon_loop now pre products)) /\
  (forall now pre e post count products,
      fst (FallbackScraper.flipkart_loop now (pre ++ Raise e :: post) count products)
      = fst (FallbackScraper.flipkart_loop now pre count products)) /\
  (exists out, snd (FallbackScraper.search w q log) = Ok out) /\
  (exists out, snd (ScraperService.search_products w q log) = Ok out).
Proof.
  repeat split.
  - destruct (scrape_amazon_returns w q log) as [amz H]. exists amz.
    split; [exact H|]. intros Hn.
    apply (scrape_amazon_no_listing w q log) in Hn. rewrite H in Hn.
    now injection Hn.
  - destruct (scrape_flipkart_returns w q log) as [fk H]. exists fk.
    split; [exact H|]. intros Hn.
    apply (scrape_flipkart_no_listing w q log) in Hn. rewrite H in Hn.
    now injection Hn.
  - apply amazon_loop_raise.
  - apply flipkart_loop_raise.
  - destruct (fallback_search_surfaced w q log) as (out & H & _). eauto.
  - destruct (search_products_surfaced w q log) as (out & H & _). eauto.
Qed.

(** ** The search handler *)

Lemma adapt_spec (real_prices : list PriceRecord)
      (snaps : list main_simple.PriceSnapshot)
      (best : option main_simple.PriceSnapshot) (min_price : option Q) :
  best_among snaps best ->
  min_price = main_simple.snap_price <$> best ->
  fst (main_simple.adapt real_prices snaps best min_price)
  = snaps ++ (main_simple.make_snapshot <$> real_prices) /\
  best_among (fst (main_simple.adapt real_prices snaps best min_price))
             (snd (main_simple.adapt real_prices snaps best min_price)).
Proof.
  revert snaps best min_price.
  induction real_prices as [|p rest IH]; intros snaps best min_price Hb Hm.
  - cbn [main_simple.adapt fst snd fmap list_fmap]. now rewrite app_nil_r.
  - cbn [main_simple.adapt].
    set (snapshot := main_simple.make_snapshot p).
    assert (Hprice : main_simple.snap_price snapshot = price p) by reflexivity.
    destruct (Qltb 0 (price p) && main_simple.below (price p) min_price) eqn:E.
    + apply andb_true_iff in E as [Hpos Hlow]. apply Qltb_lt in Hpos.
      destruct (IH (snaps ++ [snapshot]) (Some snapshot) (Some (price p)))
        as [H1 H2]; [|reflexivity|].
      * split; [apply elem_of_app; right; left|].
        destruct best as [b|]; subst min_price;
          cbn [fmap option_fmap option_map main_simple.below] in Hlow;
          apply Qltb_lt in Hlow.
        -- destruct Hb as (_ & [_ Hfin] & Hmin).
           split; [split; rewrite Hprice;
                   [exact Hpos | eapply Qlt_trans; [exact Hlow | exact Hfin]]|].
           intros s Hs Hs0. rewrite Hprice.
           apply elem_of_app in Hs as [Hs|Hs%list_elem_of_singleton].
           ++ apply Qlt_le_weak. eapply Qlt_le_trans; [exact Hlow|]. now apply Hmin.
           ++ subst s. rewrite Hprice. apply Qle_refl.
        -- split; [split; rewrite Hprice; assumption|].
           intros s Hs Hs0. rewrite Hprice.
           apply elem_of_app in Hs as [Hs|Hs%list_elem_of_singleton].
           ++ destruct (Qlt_le_dec (main_simple.snap_price s) float_overflow)
                as [Hfin|Hinf]; [now destruct (Hb s Hs)|].
              apply Qlt_le_weak. eapply Qlt_le_trans; [exact Hlow | exact Hinf].
           ++ subst s. rewrite Hprice. apply Qle_refl.
      * split; [|exact H2]. rewrite H1, <- app_assoc. reflexivity.
    + destruct (IH (snaps ++ [snapshot]) best min_price) as [H1 H2];
        [|exact Hm|].
      * destruct best as [b|].
        -- destruct Hb as (Hin & Hpos & Hmin).
           split; [apply elem_of_app; now left|]. split; [exact Hpos|].
           intros s Hs Hs0.
           apply elem_of_app in Hs as [Hs|Hs%list_elem_of_singleton];
             [now apply Hmin|].
           subst s min_price. rewrite Hprice in *.
           apply Qltb_lt in Hs0. rewrite Hs0 in E.
           cbn [fmap option_fmap option_map main_simple.below andb] in E.
           now apply Qltb_ge in E.
        -- intros s Hs.
           apply elem_of_app in Hs as [Hs|Hs%list_elem_of_singleton];
             [now apply Hb|].
           subst s min_price. unfold priced. rewrite Hprice.
           cbn [fmap option_fmap option_map main_simple.below] in E.
           intros [H0%Qltb_lt Hfin%Qltb_lt]. rewrite H0, Hfin in E. discriminate.
      * split; [|exact H2]. rewrite H1, <- app_assoc. reflexivity.
Qed.

Lemma respond_spec (w : World) (name brand : list N) (real_prices : list PriceRecord) :
  let resp := main_simple.respond w name brand real_prices in
  main_simple.prices resp = main_simple.make_snapshot <$> real_prices /\
  best_among (main_simple.prices resp) (main_simple.best_price resp) /\
  main_simple.confidence_score (main_simple.product resp)
  = match real_prices with [] => 0.1%Q | _ => 0.8%Q end.
Proof.
  unfold main_simple.respond.
  destruct (adapt_spec real_prices [] None None) as [H1 H2];
    [intros s Hs; now apply elem_of_nil in Hs | reflexivity |].
  destruct (main_simple.adapt real_prices [] None None) as [snaps best].
  cbn [fst snd] in H1, H2. rewrite app_nil_l in H1. subst snaps.
  cbn. repeat split; try assumption.
  now destruct real_prices.
Qed.

(** Where no price is negative and none has overflowed, the priced
    snapshots are those whose price is not 0. *)
Lemma best_among_nonzero (snaps : list main_simple.PriceSnapshot) best :
  (forall s, s ∈ snaps -> (0 <= main_simple.snap_price s)%Q) ->
  (forall s, s ∈ snaps -> (main_simple.snap_price s < float_overflow)%Q) ->
  best_among snaps best -> best_of_nonzero snaps best.
Proof.
  intros Hnn Hfin. destruct best as [b|]; cbn.
  - intros (Hin & [Hpos _] & Hmin). split; [exact Hin|]. split.
    + intros H0. rewrite H0 in Hpos. now apply Qlt_irrefl in Hpos.
    + intros s Hs Hs0. apply Hmin; [exact Hs|].
      destruct (Qle_lt_or_eq _ _ (Hnn s Hs)) as [H|H]; [exact H|].
      now destruct Hs0.
  - intros Hnone s Hs.
    destruct (Qle_lt_or_eq _ _ (Hnn s Hs)) as [H|H]; [|now symmetry].
    destruct (Hnone s Hs). split; [exact H | now apply Hfin].
Qed.

Lemma surfaced_nonneg (r : PriceRecord) : surfaced_ok r -> (0 <= price r)%Q.
Proof.
  intros [H|[H _]]; [now apply Qlt_le_weak | rewrite H; apply Qle_refl].
Qed.

(** C9 (a price that overflowed is never the best price): for a product
    name that has a first word the handler answers; its prices are the
    records of the top-level search, one snapshot each, in order, and the
    confidence score is 0.8 when there is a snapshot and 0.1 when there is
    none; where every price is below the bound from which [float] gives
    [inf], best_price is as specified: one of the snapshots, its price not
    0 and not above the price of any snapshot whose price is not 0, absent
    when every price is 0.  On a hosted answer whose title carries a price
    of 310 digits the only snapshot has a price that is not 0, the score is
    0.8, and best_price is absent, against the specification; the generic
    extractor, with its ceiling, reads 0 from the same title. *)
Theorem best_price_and_confidence :
  (forall (w : World) (name brand : list N) (log : Log),
      main_simple.first_word name = Ok brand ->
      exists log' real_prices resp,
        ScraperService.search_products w name log = (log', Ok real_prices) /\
        main_simple.search w name log = (log', Ok resp) /\
        main_simple.prices resp = main_simple.make_snapshot <$> real_prices /\
        main_simple.confidence_score (main_simple.product resp)
        = match main_simple.prices resp with [] => 0.1%Q | _ => 0.8%Q end /\
        (Forall (fun p => (price p < float_overflow)%Q) real_prices ->
         best_of_nonzero (main_simple.prices resp) (main_simple.best_price resp))) /\
  (exists log' resp s,
      main_simple.search world_primary_overflow (py "TV") [] = (log', Ok resp) /\
      main_simple.prices resp = [s] /\
      ~ (main_simple.snap_price s == 0)%Q /\
      (float_overflow <= main_simple.snap_price s)%Q /\
      main_simple.confidence_score (main_simple.product resp) = 0.8%Q /\
      main_simple.best_price resp = None /\
      ~ best_of_nonzero (main_simple.prices resp) (main_simple.best_price resp)) /\
  FallbackScraper._parse_price (Some overflow_title) = 0%Q.
Proof.
  split; [|split].
  - intros w name brand log Hbrand.
    destruct (search_products_surfaced w name log) as (real_prices & Hrun & Hok).
    destruct (ScraperService.search_products w name log) as [log' r] eqn:Hsp.
    cbn [snd] in Hrun. subst r.
    exists log', real_prices, (main_simple.respond w name brand real_prices).
    split; [reflexivity|]. split.
    { unfold main_simple.search, bind, lift, ret. now rewrite Hbrand, Hsp. }
    destruct (respond_spec w name brand real_prices) as (Hp & Hb & Hc).
    split; [exact Hp|]. split.
    + rewrite Hc, Hp. now destruct real_prices.
    + intros Hfin. apply best_among_nonzero; [| |exact Hb]; rewrite Hp;
        intros s (r & -> & Hr)%list_elem_of_fmap.
      * apply surfaced_nonneg. eapply Forall_forall in Hok; eauto.
      * eapply Forall_forall in Hfin; [exact Hfin | exact Hr].
  - do 3 eexists. split; [vm_compute; reflexivity|].
    split; [reflexivity|].
    assert (Hnz : ~ (main_simple.snap_price
                       (main_simple.make_snapshot
                          {| marketplace := py "Amazon";
                             price := inject_Z (10 ^ 309);
                             currency := py "INR";
                             url := py "https://www.amazon.in/dp/x";
                             description := Some overflow_title;
                             images := Some [];
                             last_updated := 1%Z;
                             in_stock := true;
                             original_price := None;
                             discount_percentage := None |}) == 0)%Q)
      by (intros H; vm_compute in H; discriminate).
    split; [exact Hnz|]. split; [vm_compute; discriminate|].
    split; [reflexivity|]. split; [reflexivity|].
    intros H. apply Hnz, (H _). left.
  - vm_compute. reflexivity.
Qed.

(** The end-to-end example of the specification. *)
Lemma best_price_and_confidence_witness :
  exists log' resp b,
    main_simple.search world_end_to_end (py "Sony Bravia TV") [] = (log', Ok resp) /\
    main_simple.prices resp = [b] /\
    main_simple.best_price resp = Some b /\
    main_simple.snap_marketplace b = py "Amazon" /\
    main_simple.snap_price b = 45990%Q /\
    best_of_nonzero (main_simple.prices resp) (main_simple.best_price resp) /\
    main_simple.confidence_score (main_simple.product resp) = 0.8%Q.
Proof.
  destruct (proj1 best_price_and_confidence world_end_to_end (py "Sony Bravia TV")
              (py "Sony") [] eq_refl)
    as (log' & real_prices & resp & Hprices & Hsearch & _ & _ & Hb).
  pose proof Hsearch as Hval. vm_compute in Hval.
  injection Hval as Hlog Hresp. subst log' resp.
  vm_compute in Hprices. injection Hprices as Hprices. subst real_prices.
  do 3 eexists. split; [exact Hsearch|].
  split; [reflexivity|]. split; [reflexivity|]. split; [reflexivity|].
  split; [reflexivity|]. split; [|reflexivity].
  apply Hb. repeat constructor.
Defined.

(** C10: when the top-level search returns a non-empty sequence whose
    prices are all 0, the handler keeps every record in prices, reports a
    confidence of 0.8 and has no best_price; such a response is reached on
    a world where the search engine finds a marketplace link without a
    price. *)
Theorem zero_priced_response :
  (forall (w : World) (name brand : list N) (log log' : Log)
          (real_prices : list PriceRecord),
      main_simple.first_word name = Ok brand ->
      ScraperService.search_products w name log = (log', Ok real_prices) ->
      real_prices <> [] ->
      Forall (fun p => price p = 0%Q) real_prices ->
      exists resp,
        main_simple.search w name log = (log', Ok resp) /\
        main_simple.prices resp = main_simple.make_snapshot <$> real_prices /\
        main_simple.prices resp <> [] /\
        main_simple.confidence_score (main_simple.product resp) = 0.8%Q /\
        main_simple.best_price resp = None) /\
  (exists log' resp s,
      main_simple.search world_unpriced_link (py "Sony Bravia TV") [] = (log', Ok resp) /\
      main_simple.prices resp = [s] /\
      main_simple.snap_price s = 0%Q /\
      main_simple.confidence_score (main_simple.product resp) = 0.8%Q /\
      main_simple.best_price resp = None).
Proof.
  split.
  - intros w name brand log log' real_prices Hbrand Hsp Hne Hzero.
    exists (main_simple.respond w name brand real_prices).
    split; [unfold main_simple.search, bind, lift, ret; now rewrite Hbrand, Hsp|].
    destruct (respond_spec w name brand real_prices) as (Hp & Hb & Hc).
    split; [exact Hp|]. split; [|split].
    + rewrite Hp. now destruct real_prices.
    + rewrite Hc. now destruct real_prices.
    + destruct (main_simple.best_price _) as [b|]; [|reflexivity].
      destruct Hb as (Hin & [Hpos _] & _). rewrite Hp in Hin.
      apply list_elem_of_fmap in Hin as (r & -> & Hr).
      eapply Forall_forall in Hzero; [|exact Hr].
      cbn in Hpos. rewrite Hzero in Hpos. now apply Qlt_irrefl in Hpos.
  - do 3 eexists. split; [vm_compute; reflexivity|]. cbn. repeat split.
Qed.

Lemma zero_priced_response_witness :
  exists resp,
    main_simple.search world_unpriced_link (py "Sony Bravia TV") []
    = ([post_event (py "Sony Bravia TV"); Sleep; amazon_event (py "Sony Bravia TV");
        Sleep; flipkart_event (py "Sony Bravia TV")], Ok resp) /\
    main_simple.prices resp <> [] /\
    main_simple.confidence_score (main_simple.product resp) = 0.8%Q /\
    main_simple.best_price resp = None.
Proof.
  destruct (proj1 zero_priced_response world_unpriced_link (py "Sony Bravia TV")
              (py "Sony") [] _ _ eq_refl eq_refl)
    as (resp & Hs & _ & Hne & Hc & Hb).
  - discriminate.
  - repeat constructor.
  - exists resp. repeat split; assumption.
Defined.

(** ** The three patterns *)

Ltac no_space := apply space_forall; vm_compute; reflexivity.

Lemma currency_marker_safe : trail_safe currency_marker /\ rejects_space currency_marker.
Proof.
  unfold currency_marker.
  change (lits (py "Rs")) with (Cat (Lit 0x52) (Cat (Lit 0x73) Eps)).
  change (lits (py "INR")) with (Cat (Lit 0x49) (Cat (Lit 0x4E) (Cat (Lit 0x52) Eps))).
  split.
  - repeat (apply ts_alt || apply ts_cat || apply ts_opt || apply ts_eps);
      apply ts_lit; no_space.
  - cbn [rejects_space]. repeat split; no_space.
Qed.

Lemma currency_word_safe : trail_safe currency_word /\ rejects_space currency_word.
Proof.
  unfold currency_word.
  change (lits (py "Rs")) with (Cat (Lit 0x52) (Cat (Lit 0x73) Eps)).
  change (lits (py "INR")) with (Cat (Lit 0x49) (Cat (Lit 0x4E) (Cat (Lit 0x52) Eps))).
  split.
  - repeat (apply ts_alt || apply ts_cat || apply ts_opt || apply ts_eps);
      apply ts_lit; no_space.
  - cbn [rejects_space]. repeat split; no_space.
Qed.

Lemma pat_prefix_safe : trail_safe pat_prefix /\ rejects_space pat_prefix.
Proof.
  destruct currency_marker_safe as [Ht Hr]. unfold pat_prefix. split; [|exact Hr].
  apply ts_cat; [exact Ht|]. apply ts_gap.
  - apply ts_grp, ts_cat; [apply ts_rep; no_space|].
    apply ts_opt, ts_cat; [apply ts_lit | apply ts_rep]; no_space.
  - cbn [rejects_space]. split; [discriminate | no_space].
Qed.

Lemma pat_suffix_safe : trail_safe pat_suffix /\ rejects_space pat_suffix.
Proof.
  destruct currency_word_safe as [Ht Hr]. unfold pat_suffix. split.
  - apply ts_cat; [apply ts_grp, ts_rep; no_space|]. now apply ts_gap.
  - cbn [rejects_space]. split; [discriminate | no_space].
Qed.

Lemma pat_label_safe : trail_safe pat_label /\ rejects_space pat_label.
Proof.
  unfold pat_label.
  change (lits (py "Price:"))
    with (Cat (Lit 0x50) (Cat (Lit 0x72) (Cat (Lit 0x69) (Cat (Lit 0x63)
           (Cat (Lit 0x65) (Cat (Lit 0x3A) Eps)))))).
  split.
  - apply ts_cat.
    + repeat (apply ts_cat || apply ts_eps); apply ts_lit; no_space.
    + apply ts_gap; [apply ts_grp, ts_rep; no_space|].
      cbn [rejects_space]. split; [discriminate | no_space].
  - cbn [rejects_space]. no_space.
Qed.

(** ** The two extractors over the values of the matches *)

Lemma Qneqb_true (x y : Q) : Qneqb x y = true <-> ~ (x == y)%Q.
Proof.
  unfold Qneqb. rewrite negb_true_iff, <- not_true_iff_false, Qeq_bool_iff.
  reflexivity.
Qed.

(** The generic extractor returns the first value its range accepts. *)
Lemma parse_matches_filter (ms : list (list N)) :
  FallbackScraper.parse_matches ms
  = head (List.filter (core_accepts false) (omap match_value ms)).
Proof.
  induction ms as [|m ms IH]; [reflexivity|].
  cbn [FallbackScraper.parse_matches omap list_omap]. fold (match_value m).
  destruct (match_value m) as [v|]; [|exact IH].
  cbn [List.filter]. unfold core_accepts at 1. cbn [negb orb]. rewrite andb_true_r.
  destruct (Qltb 49 v && Qltb v 10000000); [reflexivity | exact IH].
Qed.

Lemma parse_patterns_filter (ps : list regex) (t : list N) :
  FallbackScraper.parse_patterns ps t
  = head (List.filter (core_accepts false) (candidate_values ps t)).
Proof.
  induction ps as [|p ps IH]; [reflexivity|].
  cbn [FallbackScraper.parse_patterns candidate_values flat_map].
  rewrite List.filter_app, parse_matches_filter, IH.
  now destruct (List.filter _ (omap match_value (findall p t))).
Qed.

(** The generic extractor is the core algorithm of the specification
    without the year rule, on every text. *)
Lemma parse_price_is_core (text : list N) :
  FallbackScraper._parse_price (Some text) = extractPrice false text.
Proof.
  unfold FallbackScraper._parse_price, extractPrice.
  destruct text as [|c text]; [reflexivity|].
  cbn [truthy negb default]. unfold FallbackScraper.patterns.
  rewrite parse_patterns_filter.
  now destruct (List.filter _ _).
Qed.

(** ** The two scans as searches *)

Lemma find_app_first {A} (f : A -> bool) (l l' : list A) :
  find f (l ++ l') = match find f l with Some v => Some v | None => find f l' end.
Proof.
  induction l as [|x l IH]; [reflexivity|].
  rewrite <- app_comm_cons. cbn [find]. now destruct (f x).
Qed.

Lemma find_accepted {A} (f : A -> bool) (l : list A) (v : A) :
  find f l = Some v -> f v = true.
Proof.
  induction l as [|x l IH]; [discriminate|]. cbn [find].
  destruct (f x) eqn:E; [now intros [= <-] | exact IH].
Qed.

Lemma find_refine {A} (f c : A -> bool) (l : list A) :
  (forall x, c x = true -> f x = true) ->
  match find f l with
  | Some v => c v = true -> find c l = Some v
  | None => find c l = None
  end.
Proof.
  intros Hcf. induction l as [|x l IH]; [reflexivity|]. cbn [find].
  destruct (f x) eqn:Ef.
  - now intros ->.
  - destruct (c x) eqn:Ec; [apply Hcf in Ec; congruence | exact IH].
Qed.

Lemma filter_head_find (f : Q -> bool) (l : list Q) :
  match List.filter f l with v :: _ => v | [] => 0%Q end
  = from_option id 0%Q (find f l).
Proof.
  induction l as [|x l IH]; [reflexivity|]. cbn [List.filter find].
  now destruct (f x).
Qed.

Lemma parse_matches_find (ms : list (list N)) :
  FallbackScraper.parse_matches ms = find generic_accepts (omap match_value ms).
Proof.
  induction ms as [|m ms IH]; [reflexivity|].
  cbn [FallbackScraper.parse_matches omap list_omap]. fold (match_value m).
  destruct (match_value m) as [v|]; [|exact IH].
  cbn [find]. unfold generic_accepts at 1.
  destruct (Qltb 49 v && Qltb v 10000000); [reflexivity | exact IH].
Qed.

Lemma extract_matches_find (ms : list (list N)) :
  ScraperService.extract_matches ms = find variant_accepts (omap match_value ms).
Proof.
  induction ms as [|m ms IH]; [reflexivity|].
  cbn [ScraperService.extract_matches omap list_omap].
  rewrite float_of_strip. fold (match_value m).
  destruct (match_value m) as [v|]; [|exact IH].
  cbn [find]. unfold variant_accepts at 1.
  destruct (Qltb 50 v && Qneqb v 2023 && Qneqb v 2024 && Qneqb v 2025);
    [reflexivity | exact IH].
Qed.

(** The generic extractor: the first value its test accepts among those
    of the prefix pattern, then among those of the suffix pattern. *)
Lemma parse_price_find (text : list N) :
  FallbackScraper._parse_price (Some text)
  = from_option id 0%Q
      (find generic_accepts (values_of pat_prefix text ++ values_of pat_suffix text)).
Proof.
  destruct text as [|c text]; [reflexivity|].
  unfold FallbackScraper._parse_price, values_of.
  cbn [truthy negb default from_option id]. unfold FallbackScraper.patterns.
  cbn [FallbackScraper.parse_patterns].
  rewrite !findall_strip by apply pat_prefix_safe || apply pat_suffix_safe.
  fold (normal (c :: text)). rewrite !parse_matches_find, find_app_first.
  destruct (find generic_accepts (omap match_value (findall pat_prefix _)));
    [reflexivity|].
  now destruct (find generic_accepts (omap match_value (findall pat_suffix _))).
Qed.

(** The variant: the first value its test accepts among those of the
    prefix pattern, then among those of the label pattern. *)
Lemma extract_price_find (text : list N) :
  ScraperService._extract_price text
  = from_option id 0%Q
      (find variant_accepts (values_of pat_prefix text ++ values_of pat_label text)).
Proof.
  destruct text as [|c text]; [reflexivity|].
  unfold ScraperService._extract_price, values_of.
  unfold ScraperService.patterns. cbn [ScraperService.extract_patterns].
  fold (normal (c :: text)). rewrite !extract_matches_find, find_app_first.
  destruct (find variant_accepts (omap match_value (findall pat_prefix _)));
    [reflexivity|].
  now destruct (find variant_accepts (omap match_value (findall pat_label _))).
Qed.

(** The core algorithm of the specification, as a search. *)
Lemma extractPrice_find (exclude_years : bool) (text : list N) :
  extractPrice exclude_years text
  = from_option id 0%Q
      (find (core_accepts exclude_years)
            (values_of pat_prefix text ++ values_of pat_suffix text)).
Proof.
  unfold extractPrice, values_of. cbn [candidate_values flat_map].
  rewrite !findall_strip by apply pat_prefix_safe || apply pat_suffix_safe.
  fold (normal text). rewrite app_nil_r. apply filter_head_find.
Qed.

(** ** The two acceptance tests *)

Lemma generic_accepts_spec (v : Q) :
  generic_accepts v = true <-> (49 < v)%Q /\ (v < 10000000)%Q.
Proof. unfold generic_accepts. now rewrite andb_true_iff, !Qltb_lt. Qed.

Lemma variant_accepts_spec (v : Q) :
  variant_accepts v = true <-> (50 < v)%Q /\ ~ is_year v.
Proof.
  unfold variant_accepts, is_year.
  rewrite !andb_true_iff, Qltb_lt, !Qneqb_true. tauto.
Qed.

Lemma is_yearb_spec (v : Q) : is_yearb v = true <-> is_year v.
Proof.
  unfold is_yearb, is_year. rewrite !orb_true_iff, !Qeq_bool_iff. tauto.
Qed.

Lemma core_accepts_spec (v : Q) :
  core_accepts true v = true <->
  generic_accepts v = true /\ ~ is_year v.
Proof.
  unfold core_accepts, generic_accepts, is_year. cbn [negb orb].
  rewrite !andb_true_iff, !Qneqb_true. tauto.
Qed.

(** An accepted value is not 0, the answer of a scan that accepts none. *)
Lemma answers_equal (o1 o2 : option Q) :
  (forall v, o1 = Some v -> (49 < v)%Q) ->
  (forall v, o2 = Some v -> (49 < v)%Q) ->
  from_option id 0%Q o1 = from_option id 0%Q o2 <-> o1 = o2.
Proof.
  intros H1 H2. split; [|now intros ->].
  destruct o1 as [v1|], o2 as [v2|]; cbn [from_option id]; intros H.
  - now subst.
  - specialize (H1 v1 eq_refl). rewrite H in H1. vm_compute in H1. discriminate.
  - specialize (H2 v2 eq_refl). rewrite <- H in H2. vm_compute in H2. discriminate.
  - reflexivity.
Qed.

Lemma generic_accepted_above (l : list Q) (v : Q) :
  find generic_accepts l = Some v -> (49 < v)%Q.
Proof. now intros [H _]%find_accepted%generic_accepts_spec. Qed.

Lemma variant_accepted_above (l : list Q) (v : Q) :
  find variant_accepts l = Some v -> (50 < v)%Q.
Proof. now intros [H _]%find_accepted%variant_accepts_spec. Qed.

(** ** The variant beside the generic scan *)

(** Where the year rule does not fire and the variant stays below the
    ceiling, the variant takes the value of the first pattern that the
    generic test accepts first, if it is above 50. *)
Lemma scan_first_decides (P L : list Q) (v : Q) :
  ~ Exists is_year (examined variant_accepts (P ++ L)) ->
  (forall x, find variant_accepts (P ++ L) = Some x -> (x < 10000000)%Q) ->
  find generic_accepts P = Some v -> (50 < v)%Q ->
  find variant_accepts (P ++ L) = Some v.
Proof.
  induction P as [|x P IH]; intros Hy Hc Hg Hv; [discriminate|].
  rewrite <- app_comm_cons in *. cbn [find examined] in *.
  destruct (generic_accepts x) eqn:Eg.
  - injection Hg as ->.
    assert (Ea : variant_accepts v = true).
    { apply variant_accepts_spec. split; [exact Hv|].
      intros Hyr. apply Hy. now apply Exists_cons_hd. }
    now rewrite Ea.
  - destruct (variant_accepts x) eqn:Ea.
    + exfalso. specialize (Hc x eq_refl).
      apply variant_accepts_spec in Ea as [Ea _].
      assert (generic_accepts x = true); [|congruence].
      apply generic_accepts_spec. split; [|exact Hc].
      eapply Qlt_trans; [|exact Ea]. reflexivity.
    + apply IH; try assumption. intros H. apply Hy. now apply Exists_cons_tl.
Qed.

(** Where the variant stays below the ceiling and the generic test takes
    no value of the first pattern, the variant takes none either. *)
Lemma scan_first_silent (P L : list Q) :
  (forall x, find variant_accepts (P ++ L) = Some x -> (x < 10000000)%Q) ->
  find generic_accepts P = None ->
  find variant_accepts (P ++ L) = find variant_accepts L.
Proof.
  induction P as [|x P IH]; intros Hc Hg; [reflexivity|].
  rewrite <- app_comm_cons in *. cbn [find] in *.
  destruct (generic_accepts x) eqn:Eg; [discriminate|].
  destruct (variant_accepts x) eqn:Ea; [|now apply IH].
  exfalso. specialize (Hc x eq_refl).
  apply variant_accepts_spec in Ea as [Ea _].
  assert (generic_accepts x = true); [|congruence].
  apply generic_accepts_spec. split; [|exact Hc].
  eapply Qlt_trans; [|exact Ea]. reflexivity.
Qed.

Lemma year_rule_quiet (text : list N) :
  existsb is_yearb
          (examined variant_accepts
                    (values_of pat_prefix text ++ values_of pat_label text)) = false ->
  ~ year_rule_fires text.
Proof.
  unfold year_rule_fires. intros H (v & Hv & Hy)%Exists_exists.
  apply is_yearb_spec in Hy.
  assert (existsb is_yearb
            (examined variant_accepts
                      (values_of pat_prefix text ++ values_of pat_label text)) = true);
    [|congruence].
  apply existsb_exists. exists v. split; [now apply list_elem_of_In | exact Hy].
Qed.

(** C3, as the code has it.  Each extractor is a scan for the first value
    its own test accepts: both read the values of the prefix pattern
    first, then the generic extractor those of the suffix pattern and the
    variant those of the label pattern; the generic extractor is the core
    algorithm of the specification without the year rule, on every text.
    On every text on which the year rule does not fire and the variant
    answers below 10^7, the two extractors return the same value exactly
    when they decide alike: the first value of the prefix pattern accepted
    in (49, 10^7) is above 50, or there is none and the two second
    patterns give the same first accepted value, or none both; they then
    return the value of the core algorithm with the year rule. *)
Theorem extractors_agree (text : list N) :
  FallbackScraper._parse_price (Some text)
  = from_option id 0%Q
      (find generic_accepts (values_of pat_prefix text ++ values_of pat_suffix text)) /\
  ScraperService._extract_price text
  = from_option id 0%Q
      (find variant_accepts (values_of pat_prefix text ++ values_of pat_label text)) /\
  FallbackScraper._parse_price (Some text) = extractPrice false text /\
  (~ year_rule_fires text ->
   (ScraperService._extract_price text < 10000000)%Q ->
   (ScraperService._extract_price text = FallbackScraper._parse_price (Some text)
    <-> decide_alike text) /\
   (decide_alike text ->
    ScraperService._extract_price text = extractPrice true text)).
Proof.
  split; [apply parse_price_find|]. split; [apply extract_price_find|].
  split; [apply parse_price_is_core|].
  unfold year_rule_fires, decide_alike.
  rewrite extract_price_find, parse_price_find, extractPrice_find.
  set (P := values_of pat_prefix text). set (S := values_of pat_suffix text).
  set (L := values_of pat_label text). intros Hy Hz.
  assert (Hc : forall x, find variant_accepts (P ++ L) = Some x -> (x < 10000000)%Q)
    by (intros x Hx; now rewrite Hx in Hz).
  assert (Hcore : forall x, core_accepts true x = true -> generic_accepts x = true)
    by (now intros x [H _]%core_accepts_spec).
  rewrite !(find_app_first _ P S).
  pose proof (find_refine generic_accepts (core_accepts true) P Hcore) as HP.
  pose proof (find_refine generic_accepts (core_accepts true) S Hcore) as HS.
  destruct (find generic_accepts P) as [v|] eqn:Eg.
  - assert (Hagree : (50 < v)%Q -> find variant_accepts (P ++ L) = Some v)
      by (now apply scan_first_decides).
    split; [split|].
    + intros Heq. destruct (Qlt_le_dec 50 v) as [Hv|Hv]; [exact Hv|]. exfalso.
      destruct (find variant_accepts (P ++ L)) as [x|] eqn:Ex;
        cbn [from_option id] in Heq.
      * apply variant_accepted_above in Ex. subst x.
        apply (Qlt_irrefl 50). eapply Qlt_le_trans; [exact Ex | exact Hv].
      * apply generic_accepted_above in Eg. rewrite <- Heq in Eg.
        vm_compute in Eg. discriminate.
    + intros Hv. now rewrite (Hagree Hv).
    + intros Hv. specialize (Hagree Hv). rewrite Hagree.
      apply find_accepted, variant_accepts_spec in Hagree as [_ Hny].
      rewrite HP; [reflexivity|].
      apply core_accepts_spec. split; [|exact Hny].
      now apply find_accepted in Eg.
  - rewrite (scan_first_silent P L Hc Eg), HP. split.
    + rewrite answers_equal.
      * split; intros H; now symmetry.
      * intros x Hx%variant_accepted_above.
        eapply Qlt_trans; [|exact Hx]. reflexivity.
      * apply generic_accepted_above.
    + intros Heq. rewrite <- Heq.
      destruct (find generic_accepts S) as [x|] eqn:Es; [|now rewrite HS].
      symmetry in Heq.
      apply find_accepted, variant_accepts_spec in Heq as [_ Hny].
      rewrite HS; [reflexivity|].
      apply core_accepts_spec. split; [|exact Hny].
      now apply find_accepted in Es.
Qed.

(** A text with a year behind the price: the year rule does not fire, the
    first pattern decides, and both extractors answer 1200. *)
Lemma extractors_agree_witness :
  ScraperService._extract_price (py "₹1,200 since ₹2024")
  = FallbackScraper._parse_price (Some (py "₹1,200 since ₹2024")) /\
  ScraperService._extract_price (py "₹1,200 since ₹2024") = 1200%Q.
Proof.
  destruct (proj2 (proj2 (proj2 (extractors_agree (py "₹1,200 since ₹2024")))))
    as [H _].
  - apply year_rule_quiet. vm_compute. reflexivity.
  - vm_compute. reflexivity.
  - split; [|reflexivity]. apply H. vm_compute. reflexivity.
Defined.

(** C3 as stated fails: on these texts the year rule does not fire and the
    two extractors differ, by the lower bound, by the second pattern of
    the one and by that of the other. *)
Lemma extractors_differ :
  (~ year_rule_fires (py "₹50") /\
   FallbackScraper._parse_price (Some (py "₹50")) = 50%Q /\
   ScraperService._extract_price (py "₹50") = 0%Q) /\
  (~ year_rule_fires (py "1200 Rs") /\
   FallbackScraper._parse_price (Some (py "1200 Rs")) = 1200%Q /\
   ScraperService._extract_price (py "1200 Rs") = 0%Q) /\
  (~ year_rule_fires (py "Price: 1200") /\
   FallbackScraper._parse_price (Some (py "Price: 1200")) = 0%Q /\
   ScraperService._extract_price (py "Price: 1200") = 1200%Q).
Proof.
  repeat split; try reflexivity; apply year_rule_quiet; vm_compute; reflexivity.
Qed.

(** ** Marketplace identification *)

Lemma lower_char_idempotent (c : N) : lower_char (lower_char c) = lower_char c.
Proof.
  unfold lower_char.
  destruct ((0x41 <=? c) && (c <=? 0x5A)) eqn:E; [|now rewrite E].
  apply andb_true_iff in E as [H1 H2]. apply N.leb_le in H1, H2.
  destruct ((0x41 <=? c + 32) && (c + 32 <=? 0x5A)) eqn:E'; [|reflexivity].
  apply andb_true_iff in E' as [_ H3]. apply N.leb_le in H3. lia.
Qed.

Lemma lower_idempotent (u : list N) : lower (lower u) = lower u.
Proof.
  unfold lower. rewrite List.map_map. apply List.map_ext, lower_char_idempotent.
Qed.

(** The fallback identifier does not see the case of the url. *)
Lemma identify_marketplace_case (u u' : list N) :
  lower u = lower u' ->
  FallbackScraper._identify_marketplace u = FallbackScraper._identify_marketplace u'.
Proof. unfold FallbackScraper._identify_marketplace. now intros ->. Qed.

Lemma identify_marketplace_lower (u : list N) :
  FallbackScraper._identify_marketplace (lower u)
  = FallbackScraper._identify_marketplace u.
Proof. apply identify_marketplace_case, lower_idempotent. Qed.

(** The first entry of the table whose fragment occurs wins. *)
Lemma first_fragment_some table (u name : list N) :
  FallbackScraper.first_fragment table u = Some name ->
  exists before fragment after,
    table = before ++ (fragment, name) :: after /\
    contains fragment u = true /\
    Forall (fun e => contains (fst e) u = false) before.
Proof.
  induction table as [|[fragment n] table IH]; cbn [FallbackScraper.first_fragment];
    [discriminate|].
  destruct (contains fragment u) eqn:E.
  - intros [= <-]. exists [], fragment, table. repeat split; [exact E|constructor].
  - intros (before & f & after & -> & Hf & Hb)%IH.
    exists ((fragment, n) :: before), f, after.
    repeat split; [exact Hf | now constructor].
Qed.

Lemma first_fragment_none table (u : list N) :
  FallbackScraper.first_fragment table u = None <->
  Forall (fun e => contains (fst e) u = false) table.
Proof.
  induction table as [|[fragment n] table IH]; cbn [FallbackScraper.first_fragment].
  - split; [constructor | reflexivity].
  - rewrite Forall_cons. cbn [fst].
    destruct (contains fragment u); [split; [discriminate | now intros [? _]]|].
    rewrite IH. tauto.
Qed.

(** C7 (the primary adapter compares the url as it comes): on the url
    "https://WWW.AMAZON.IN/dp/x" the fallback identifier answers Amazon, as
    specified, and the chain of [_parse_results] answers the generic
    "Online Store"; the record the top-level search returns for it carries
    that name. *)
Theorem primary_identification_sees_case :
  FallbackScraper._identify_marketplace (py "https://WWW.AMAZON.IN/dp/x")
  = Some (py "Amazon") /\
  ScraperService.identify (py "https://WWW.AMAZON.IN/dp/x") = py "Online Store" /\
  ScraperService.identify (py "https://www.amazon.in/dp/x") = py "Amazon" /\
  exists r,
    snd (ScraperService.search_products world_primary_upper (py "Sony Bravia TV") [])
    = Ok [r] /\
    url r = py "https://WWW.AMAZON.IN/dp/x" /\
    marketplace r = py "Online Store".
Proof.
  split; [reflexivity|]. split; [reflexivity|]. split; [reflexivity|].
  eexists. split; [vm_compute; reflexivity|]. split; reflexivity.
Qed.

(** * Further properties of the code *)

(** ** The extractors and white space *)

Lemma normal_app (a b : list N) : normal (a ++ b) = normal a ++ normal b.
Proof. unfold normal, replace_char. apply List.map_app. Qed.

Lemma normal_all_space (ws : list N) : all_space ws -> all_space (normal ws).
Proof.
  unfold all_space, normal, replace_char. induction 1 as [|c ws Hc _ IH];
    [constructor|].
  cbn [List.map]. constructor; [|exact IH].
  destruct (c =? nbsp) eqn:E; [reflexivity | exact Hc].
Qed.

Lemma findall_padding (r : regex) (ws1 t ws2 : list N) :
  trail_safe r -> rejects_space r -> all_space ws1 -> all_space ws2 ->
  findall r (ws1 ++ t ++ ws2) = findall r t.
Proof.
  intros Ht Hr H1 H2. rewrite findall_leading by assumption.
  unfold findall. now apply findall_trailing.
Qed.

Lemma findall_nil (r : regex) : rejects_space r -> findall r [] = [].
Proof. intros Hr. unfold findall. apply findall_blank; [exact Hr|constructor]. Qed.

(** The generic extractor as a function of the normalised text. *)
Lemma parse_price_normal (t : list N) :
  FallbackScraper._parse_price (Some t)
  = default 0%Q (FallbackScraper.parse_patterns FallbackScraper.patterns (normal t)).
Proof.
  unfold FallbackScraper._parse_price, FallbackScraper.patterns.
  cbn [FallbackScraper.parse_patterns].
  destruct t as [|c t].
  - cbn [truthy negb]. unfold normal, replace_char. cbn [List.map].
    rewrite !findall_nil by apply pat_prefix_safe || apply pat_suffix_safe.
    reflexivity.
  - cbn [truthy negb default from_option id].
    rewrite !findall_strip by apply pat_prefix_safe || apply pat_suffix_safe.
    fold (normal (c :: t)).
    now destruct (FallbackScraper.parse_matches (findall pat_prefix _));
      [|destruct (FallbackScraper.parse_matches (findall pat_suffix _))].
Qed.

Lemma extract_price_normal (t : list N) :
  ScraperService._extract_price t
  = default 0%Q (ScraperService.extract_patterns ScraperService.patterns (normal t)).
Proof.
  unfold ScraperService._extract_price, ScraperService.patterns.
  cbn [ScraperService.extract_patterns].
  destruct t as [|c t].
  - unfold normal, replace_char. cbn [List.map].
    rewrite !findall_nil by apply pat_prefix_safe || apply pat_label_safe.
    reflexivity.
  - fold (normal (c :: t)).
    now destruct (ScraperService.extract_matches (findall pat_prefix _));
      [|destruct (ScraperService.extract_matches (findall pat_label _))].
Qed.

(** X1: white space around the text, no-break spaces included, changes
    the answer of neither extractor; a text of white space only gives 0. *)
Theorem extractors_ignore_padding (ws1 t ws2 : list N) :
  all_space ws1 -> all_space ws2 ->
  FallbackScraper._parse_price (Some (ws1 ++ t ++ ws2))
  = FallbackScraper._parse_price (Some t) /\
  ScraperService._extract_price (ws1 ++ t ++ ws2)
  = ScraperService._extract_price t /\
  FallbackScraper._parse_price (Some (ws1 ++ ws2)) = 0%Q /\
  ScraperService._extract_price (ws1 ++ ws2) = 0%Q.
Proof.
  intros H1 H2.
  apply normal_all_space in H1 as N1. apply normal_all_space in H2 as N2.
  assert (Hpad : forall r, trail_safe r /\ rejects_space r ->
                   findall r (normal (ws1 ++ t ++ ws2)) = findall r (normal t)).
  { intros r [Ht Hr]. rewrite !normal_app. now apply findall_padding. }
  assert (Hblank : forall r, trail_safe r /\ rejects_space r ->
                   findall r (normal (ws1 ++ ws2)) = []).
  { intros r [Ht Hr]. rewrite normal_app.
    rewrite <- (app_nil_l (normal ws2)), findall_padding by assumption.
    now apply findall_nil. }
  rewrite !parse_price_normal, !extract_price_normal.
  unfold FallbackScraper.patterns, ScraperService.patterns.
  cbn [FallbackScraper.parse_patterns ScraperService.extract_patterns].
  rewrite !Hpad, !Hblank by apply pat_prefix_safe || apply pat_suffix_safe
                            || apply pat_label_safe.
  repeat split; reflexivity.
Qed.

Lemma extractors_ignore_padding_witness :
  FallbackScraper._parse_price (Some (py "  " ++ py "Now ₹1,200 only" ++ [nbsp; 0x0A]))
  = 1200%Q.
Proof.
  rewrite (proj1 (extractors_ignore_padding (py "  ") (py "Now ₹1,200 only")
                    [nbsp; 0x0A] ltac:(repeat constructor) ltac:(repeat constructor))).
  reflexivity.
Defined.

(** ** The values the extractors can return *)

Lemma extract_matches_not_year (ms : list (list N)) (v : Q) :
  ScraperService.extract_matches ms = Some v -> ~ is_year v.
Proof.
  induction ms as [|m ms IH]; cbn [ScraperService.extract_matches]; [discriminate|].
  destruct (float_of _) as [val|]; [|exact IH].
  destruct (Qltb 50 val && Qneqb val 2023 && Qneqb val 2024 && Qneqb val 2025)
    eqn:E; [|exact IH].
  intros [= <-].
  apply andb_true_iff in E as [E H25]. apply andb_true_iff in E as [E H24].
  apply andb_true_iff in E as [_ H23].
  apply Qneqb_true in H23, H24, H25. unfold is_year. tauto.
Qed.

Lemma extract_price_values (text : list N) :
  ScraperService._extract_price text = 0%Q \/
  ((50 < ScraperService._extract_price text)%Q /\
   ~ is_year (ScraperService._extract_price text)).
Proof.
  unfold ScraperService._extract_price, ScraperService.patterns.
  destruct text as [|c text]; [now left|].
  cbn [ScraperService.extract_patterns].
  destruct (ScraperService.extract_matches (findall pat_prefix _)) as [v|] eqn:E1.
  - right. split; [eapply extract_matches_above, E1
                  | eapply extract_matches_not_year, E1].
  - destruct (ScraperService.extract_matches (findall pat_label _)) as [v|] eqn:E2;
      [|now left].
    right. split; [eapply extract_matches_above, E2
                  | eapply extract_matches_not_year, E2].
Qed.

(** X2: the generic extractor answers 0 or a value strictly between 49 and
    10^7; the page-inspection variant answers 0 or a value above 50 that
    is none of 2023, 2024, 2025; neither answers a negative value. *)
Theorem extractor_values (text : list N) :
  (FallbackScraper._parse_price (Some text) = 0%Q \/
   plausible (FallbackScraper._parse_price (Some text))) /\
  (ScraperService._extract_price text = 0%Q \/
   ((50 < ScraperService._extract_price text)%Q /\
    ~ is_year (ScraperService._extract_price text))) /\
  (0 <= FallbackScraper._parse_price (Some text))%Q /\
  (0 <= ScraperService._extract_price text)%Q.
Proof.
  assert (Hp := parse_price_zero_or_plausible (Some text)).
  assert (He := extract_price_values text).
  split; [exact Hp|]. split; [exact He|]. split.
  - destruct Hp as [->|[H _]]; [apply Qle_refl|].
    apply Qlt_le_weak. eapply Qlt_trans; [|exact H]. reflexivity.
  - destruct He as [->|[H _]]; [apply Qle_refl|].
    apply Qlt_le_weak. eapply Qlt_trans; [|exact H]. reflexivity.
Qed.

(** ** Marketplace identification *)

(** X3: the fallback identifier does not see the case of the url; when it
    names a marketplace, the fragment of that entry occurs in the
    lower-cased url and no fragment of an earlier entry does; it answers
    None exactly when no fragment of the table occurs. *)
Theorem identify_marketplace_first_match (u : list N) :
  (forall u', lower u' = lower u ->
     FallbackScraper._identify_marketplace u'
     = FallbackScraper._identify_marketplace u) /\
  (forall name,
     FallbackScraper._identify_marketplace u = Some name ->
     exists before fragment after,
       FallbackScraper.marketplace_table = before ++ (fragment, name) :: after /\
       contains fragment (lower u) = true /\
       Forall (fun e => contains (fst e) (lower u) = false) before) /\
  (FallbackScraper._identify_marketplace u = None <->
   Forall (fun e => contains (fst e) (lower u) = false)
          FallbackScraper.marketplace_table).
Proof.
  split; [|split].
  - intros u' Hu. now apply identify_marketplace_case.
  - intros name. apply first_fragment_some.
  - apply first_fragment_none.
Qed.

Lemma starts_with_lower (f u : list N) :
  starts_with f u = true -> starts_with (lower f) (lower u) = true.
Proof.
  revert u. induction f as [|a f IH]; intros [|b u]; cbn; try easy.
  intros [Hab Hf]%andb_true_iff. apply N.eqb_eq in Hab. subst b.
  rewrite N.eqb_refl. now apply IH.
Qed.

Lemma contains_lower (f u : list N) :
  contains f u = true -> contains (lower f) (lower u) = true.
Proof.
  induction u as [|b u IH].
  - cbn [contains lower List.map]. rewrite !orb_false_r.
    apply (starts_with_lower f []).
  - cbn [contains lower List.map]. fold (lower u).
    intros [H|H]%orb_true_iff; apply orb_true_iff.
    + left. now apply (starts_with_lower f (b :: u)).
    + right. now apply IH.
Qed.

(** X4: a url that the chain of the primary adapter calls Amazon is called
    Amazon by the fallback identifier as well; on a url in lower case the
    two agree on Amazon and on Flipkart in both directions. *)
Theorem identifiers_agree (u : list N) :
  (ScraperService.identify u = py "Amazon" ->
   FallbackScraper._identify_marketplace u = Some (py "Amazon")) /\
  (lower u = u ->
   (ScraperService.identify u = py "Amazon" <->
    FallbackScraper._identify_marketplace u = Some (py "Amazon")) /\
   (ScraperService.identify u = py "Flipkart" <->
    FallbackScraper._identify_marketplace u = Some (py "Flipkart"))).
Proof.
  split.
  - unfold ScraperService.identify, FallbackScraper._identify_marketplace.
    destruct (contains (py "amazon.in") u) eqn:Ea.
    + intros _. apply contains_lower in Ea.
      cbn [FallbackScraper.marketplace_table FallbackScraper.first_fragment].
      change (lower (py "amazon.in")) with (py "amazon.in") in Ea. now rewrite Ea.
    + repeat (match goal with |- context [if ?b then _ else _] => destruct b end);
        intros H; vm_compute in H; discriminate.
  - intros Hu.
    unfold ScraperService.identify, FallbackScraper._identify_marketplace.
    rewrite Hu.
    cbn [FallbackScraper.marketplace_table FallbackScraper.first_fragment].
    destruct (contains (py "amazon.in") u);
      [split; split; intros H; try reflexivity; vm_compute in H; discriminate|].
    destruct (contains (py "flipkart.com") u);
      [split; split; intros H; try reflexivity; vm_compute in H; discriminate|].
    split; split; intros H;
      repeat (match type of H with context [if ?b then _ else _] => destruct b end);
      vm_compute in H; discriminate.
Qed.

Lemma identifiers_agree_witness :
  ScraperService.identify (py "https://www.flipkart.com/tv/p/1") = py "Flipkart" <->
  FallbackScraper._identify_marketplace (py "https://www.flipkart.com/tv/p/1")
  = Some (py "Flipkart").
Proof.
  apply (proj2 (identifiers_agree (py "https://www.flipkart.com/tv/p/1"))).
  reflexivity.
Defined.

(** ** The records of each scraper *)

Lemma positive_price_plausible (text : option (list N)) :
  Qltb 0 (FallbackScraper._parse_price text) = true ->
  plausible (FallbackScraper._parse_price text).
Proof.
  intros H%Qltb_lt.
  destruct (parse_price_zero_or_plausible text) as [H0|Hp]; [|exact Hp].
  rewrite H0 in H. now apply Qlt_irrefl in H.
Qed.

Lemma nonpositive_price_zero (text : option (list N)) :
  Qltb 0 (FallbackScraper._parse_price text) = false ->
  FallbackScraper._parse_price text = 0%Q.
Proof.
  intros H%Qltb_ge.
  destruct (parse_price_zero_or_plausible text) as [H0|[Hp _]]; [exact H0|].
  exfalso. apply (Qlt_irrefl 0). eapply Qlt_le_trans; [|exact H].
  eapply Qlt_trans; [|exact Hp]. reflexivity.
Qed.

Lemma amazon_loop_records now items products :
  Forall (direct_record (py "Amazon") (py "https://www.amazon.in")) products ->
  Forall (direct_record (py "Amazon") (py "https://www.amazon.in"))
         (fst (FallbackScraper.amazon_loop now items products)) /\
  (length (fst (FallbackScraper.amazon_loop now items products))
   <= length products + length items)%nat.
Proof.
  revert products. induction items as [|[item|e] items IH]; intros products Hp;
    cbn [FallbackScraper.amazon_loop fst length]; [split; [assumption|lia]| |split; [assumption|lia]].
  destruct (negb (truthy (amz_title item)));
    [destruct (IH products Hp); split; [assumption|lia]|].
  destruct (Qltb 0 _) eqn:E; [|destruct (IH products Hp); split; [assumption|lia]].
  match goal with |- context [FallbackScraper.amazon_loop now items ?acc] =>
    destruct (IH acc) as [H1 H2] end.
  - apply Forall_app. split; [assumption|]. constructor; [|constructor].
    unfold direct_record. cbn [marketplace currency in_stock price description
                                 images url original_price discount_percentage].
    repeat split; try apply positive_price_plausible; try assumption.
    + destruct (truthy (amz_img item)); eexists; (split; [reflexivity|cbn; lia]).
    + destruct (amz_link item) as [[|c l]|]; cbn [truthy default from_option id];
        [now left| |now left].
      right. exists (c :: l). split; [discriminate|reflexivity].
  - split; [exact H1|]. rewrite length_app in H2. cbn [length] in H2. lia.
Qed.

Lemma flipkart_loop_records now cards count products :
  Forall (direct_record (py "Flipkart") (py "https://www.flipkart.com")) products ->
  Forall (direct_record (py "Flipkart") (py "https://www.flipkart.com"))
         (fst (FallbackScraper.flipkart_loop now cards count products)) /\
  (length (fst (FallbackScraper.flipkart_loop now cards count products))
   <= length products + (4 - count))%nat.
Proof.
  revert count products.
  induction cards as [|[card|e] cards IH]; intros count products Hp;
    cbn [FallbackScraper.flipkart_loop]; [split; [assumption|cbn; lia]|..];
    (destruct (4 <=? count)%nat eqn:Ec; [split; [assumption|cbn; lia]|]);
    [|split; [assumption|cbn; lia]].
  apply Nat.leb_gt in Ec.
  destruct (negb (truthy (fk_price_text card))); [now apply IH|].
  destruct (fk_link_tag card) as [attrib_href|]; [|now apply IH].
  destruct (Qltb 0 _) eqn:E; [|now apply IH].
  match goal with |- context [FallbackScraper.flipkart_loop now cards _ ?acc] =>
    destruct (IH (S count) acc) as [H1 H2] end.
  - apply Forall_app. split; [assumption|]. constructor; [|constructor].
    unfold direct_record. cbn [marketplace currency in_stock price description
                                 images url original_price discount_percentage].
    repeat split; try apply positive_price_plausible; try assumption.
    + destruct (truthy (fk_img card)); eexists; (split; [reflexivity|cbn; lia]).
    + destruct (default [] attrib_href) as [|c l] eqn:El; [now left|].
      right. exists (c :: l). split; [discriminate|reflexivity].
  - split; [exact H1|]. rewrite length_app in H2. cbn [length] in H2. lia.
Qed.

Lemma scrape_amazon_ok_records (w : World) (q : list N) (log : Log) products :
  snd (FallbackScraper.scrape_amazon w q log) = Ok products ->
  (length products <= 4)%nat /\
  Forall (direct_record (py "Amazon") (py "https://www.amazon.in")) products.
Proof.
  unfold FallbackScraper.scrape_amazon. cbn [snd].
  destruct (get_amazon w q) as [response|e];
    [|intros [= <-]; split; [cbn; lia | constructor]].
  destruct (negb (status_code response =? 200)%Z);
    [intros [= <-]; split; [cbn; lia | constructor]|].
  destruct (parsed response) as [items|e];
    [|intros [= <-]; split; [cbn; lia | constructor]].
  rewrite loop_end_products. intros [= <-].
  destruct (amazon_loop_records (utcnow w (log ++ [HttpGet FallbackScraper.amazon_base_url (py "k") q]))
              (firstn 4 items) []) as [H1 H2]; [constructor|].
  split; [|exact H1]. rewrite length_take in H2. cbn [length] in H2. lia.
Qed.

(** X5: on every world the Amazon scraper returns at most 4 records; each
    is named Amazon, in INR, in stock, with a price strictly between 49
    and 10^7, at most one image, no description, and a url that is empty
    or the site prefix followed by a non-empty link. *)
Theorem scrape_amazon_records (w : World) (q : list N) (log : Log) :
  exists products,
    snd (FallbackScraper.scrape_amazon w q log) = Ok products /\
    (length products <= 4)%nat /\
    Forall (direct_record (py "Amazon") (py "https://www.amazon.in")) products.
Proof.
  destruct (scrape_amazon_returns w q log) as [products H].
  exists products. rewrite H. split; [reflexivity|].
  apply (scrape_amazon_ok_records w q log). now rewrite H.
Qed.

Lemma scrape_flipkart_ok_records (w : World) (q : list N) (log : Log) products :
  snd (FallbackScraper.scrape_flipkart w q log) = Ok products ->
  (length products <= 4)%nat /\
  Forall (direct_record (py "Flipkart") (py "https://www.flipkart.com")) products.
Proof.
  unfold FallbackScraper.scrape_flipkart. cbn [snd].
  destruct (get_flipkart w q) as [response|e];
    [|intros [= <-]; split; [cbn; lia | constructor]].
  destruct (negb (status_code response =? 200)%Z);
    [intros [= <-]; split; [cbn; lia | constructor]|].
  destruct (parsed response) as [cards|e];
    [|intros [= <-]; split; [cbn; lia | constructor]].
  rewrite loop_end_products. intros [= <-].
  destruct (flipkart_loop_records (utcnow w (log ++ [HttpGet FallbackScraper.flipkart_base_url (py "q") q]))
              cards 0 []) as [H1 H2]; [constructor|].
  split; [|exact H1]. cbn [length] in H2. lia.
Qed.

(** X6: on every world the Flipkart scraper returns at most 4 records,
    however many cards qualify; each is named Flipkart, in INR, in stock,
    with a price strictly between 49 and 10^7, at most one image, no
    description, and a url that is empty or the site prefix followed by a
    non-empty link. *)
Theorem scrape_flipkart_records (w : World) (q : list N) (log : Log) :
  exists products,
    snd (FallbackScraper.scrape_flipkart w q log) = Ok products /\
    (length products <= 4)%nat /\
    Forall (direct_record (py "Flipkart") (py "https://www.flipkart.com")) products.
Proof.
  destruct (scrape_flipkart_returns w q log) as [products H].
  exists products. rewrite H. split; [reflexivity|].
  apply (scrape_flipkart_ok_records w q log). now rewrite H.
Qed.

Lemma identify_marketplace_name (u name : list N) :
  FallbackScraper._identify_marketplace u = Some name ->
  name <> [] /\ name ∈ marketplace_names /\ name <> py "Online Store".
Proof.
  unfold FallbackScraper._identify_marketplace.
  cbn [FallbackScraper.marketplace_table FallbackScraper.first_fragment].
  repeat (match goal with |- context [if ?b then _ else _] => destruct b end);
    intros [= <-]; (split; [discriminate|]); (split; [|discriminate]);
    unfold marketplace_names; rewrite !elem_of_cons; tauto.
Qed.

Lemma search_engine_loop_records now results products :
  Forall engine_record products ->
  Forall engine_record (fst (FallbackScraper.search_engine_loop now results products)) /\
  (length (fst (FallbackScraper.search_engine_loop now results products))
   <= length products + length results)%nat.
Proof.
  revert products. induction results as [|res results IH]; intros products Hp;
    cbn [FallbackScraper.search_engine_loop fst length]; [split; [assumption|lia]|].
  destruct (title_tag res) as [tag|];
    [|destruct (IH products Hp); split; [assumption|lia]].
  destruct (href tag) as [link|]; [|split; [assumption|cbn; lia]].
  set (p := FallbackScraper._parse_price _).
  destruct (FallbackScraper._identify_marketplace link) as [name|] eqn:Hmk.
  - apply identify_marketplace_name in Hmk as Hname. destruct Hname as [Hne _].
    destruct name as [|c name]; [congruence|].
    cbn [truthy orb default from_option id].
    match goal with |- context [FallbackScraper.search_engine_loop now results ?acc] =>
      destruct (IH acc) as [H1 H2] end.
    + apply Forall_app. split; [assumption|]. constructor; [|constructor].
      unfold engine_record. cbn [marketplace currency in_stock price description
                                   images url original_price discount_percentage].
      do 6 (split; [reflexivity|]). split; [apply parse_price_zero_or_plausible|].
      left. split; [exact Hmk | discriminate].
    + split; [exact H1|]. rewrite length_app in H2. cbn [length] in H2. lia.
  - cbn [truthy orb].
    destruct (Qltb 0 p) eqn:E;
      [|destruct (IH products Hp); split; [assumption|lia]].
    match goal with |- context [FallbackScraper.search_engine_loop now results ?acc] =>
      destruct (IH acc) as [H1 H2] end.
    + apply Forall_app. split; [assumption|]. constructor; [|constructor].
      unfold engine_record. cbn [marketplace currency in_stock price description
                                   images url original_price discount_percentage].
      do 6 (split; [reflexivity|]). split; [apply parse_price_zero_or_plausible|].
      right. split; [reflexivity|]. split; [exact Hmk|].
      now apply positive_price_plausible.
    + split; [exact H1|]. rewrite length_app in H2. cbn [length] in H2. lia.
Qed.

Lemma scrape_search_engine_ok_records (w : World) (q : list N) (log : Log) products :
  snd (FallbackScraper.scrape_search_engine w q log) = Ok products ->
  (length products <= 12)%nat /\ Forall engine_record products.
Proof.
  unfold FallbackScraper.scrape_search_engine. cbn [snd].
  destruct (post_search_engine w _) as [resp|e];
    [|intros [= <-]; split; [cbn; lia | constructor]].
  destruct (negb (status_code resp =? 200)%Z);
    [intros [= <-]; split; [cbn; lia | constructor]|].
  destruct (parsed resp) as [results|e];
    [|intros [= <-]; split; [cbn; lia | constructor]].
  rewrite loop_end_products. intros [= <-].
  match goal with |- context [FallbackScraper.search_engine_loop ?now _ _] =>
    destruct (search_engine_loop_records now (firstn 12 results) []) as [H1 H2];
      [constructor|] end.
  split; [|exact H1]. rewrite length_take in H2. cbn [length] in H2. lia.
Qed.

(** X7: on every world the search engine aggregator returns at most 12
    records, in INR, in stock, without images or description, with price 0
    or strictly between 49 and 10^7; a record either carries the name the
    identifier gives to its link, or is named "Online Store", has a link
    the identifier does not know and a price above 49. *)
Theorem scrape_search_engine_records (w : World) (q : list N) (log : Log) :
  exists products,
    snd (FallbackScraper.scrape_search_engine w q log) = Ok products /\
    (length products <= 12)%nat /\
    Forall engine_record products.
Proof.
  destruct (scrape_search_engine_returns w q log) as [products H].
  exists products. rewrite H. split; [reflexivity|].
  apply (scrape_search_engine_ok_records w q log). now rewrite H.
Qed.

Lemma search_engine_loop_stops now before bad after tag products :
  title_tag bad = Some tag -> href tag = None ->
  fst (FallbackScraper.search_engine_loop now (before ++ bad :: after) products)
  = fst (FallbackScraper.search_engine_loop now before products).
Proof.
  intros Hbad Hhref. revert products.
  induction before as [|res before IH]; intros products.
  - rewrite app_nil_l. cbn [FallbackScraper.search_engine_loop].
    now rewrite Hbad, Hhref.
  - rewrite <- app_comm_cons. cbn [FallbackScraper.search_engine_loop].
    destruct (title_tag res) as [t|]; [|apply IH].
    destruct (href t) as [link|]; [|reflexivity].
    match goal with |- context [if ?b then _ else _] => destruct b end; apply IH.
Qed.

(** X8: a search engine result whose anchor has no href ends the scan:
    the records of the results before it are returned, the results after
    it are not looked at, and no exception leaves the aggregator. *)
Theorem search_engine_missing_href (w : World) (q : list N) (log : Log)
        (resp : Response (list ResultTag))
        (before after : list ResultTag) (bad : ResultTag) (tag : TitleTag) :
  post_search_engine w (q ++ py " price india buy online") = Ok resp ->
  status_code resp = 200%Z ->
  parsed resp = Ok (before ++ bad :: after) ->
  (length before < 12)%nat ->
  title_tag bad = Some tag -> href tag = None ->
  snd (FallbackScraper.scrape_search_engine w q log)
  = Ok (fst (FallbackScraper.search_engine_loop
               (utcnow w (log ++ [post_event q])) before [])).
Proof.
  intros Hpost Hstatus Hparsed Hlen Hbad Hhref.
  unfold FallbackScraper.scrape_search_engine. cbn [snd].
  rewrite Hpost, Hstatus, Hparsed. cbn [Z.eqb Pos.eqb negb].
  rewrite loop_end_products. unfold post_event. f_equal.
  rewrite take_app_ge by lia.
  destruct (12 - length before)%nat as [|n] eqn:En; [lia|].
  rewrite firstn_cons. now apply (search_engine_loop_stops _ _ _ _ tag).
Qed.

(** ** Deduplication *)

Lemma keep_first_id (earlier : list (list N)) (l : list PriceRecord) :
  NoDup (url <$> l) -> (forall r, r ∈ l -> url r ∉ earlier) ->
  keep_first earlier l = l.
Proof.
  revert earlier. induction l as [|x l IH]; intros earlier Hnd Hfresh;
    [reflexivity|].
  cbn [keep_first]. rewrite fmap_cons in Hnd. apply NoDup_cons in Hnd as [Hx Hnd].
  rewrite bool_decide_eq_false_2 by (apply Hfresh; left).
  f_equal. apply IH; [exact Hnd|].
  intros r Hr. rewrite not_elem_of_cons. split.
  - intros Heq. apply Hx. rewrite <- Heq. now apply list_elem_of_fmap_2.
  - apply Hfresh. now right.
Qed.

Lemma keep_first_urls (earlier : list (list N)) (l : list PriceRecord) u :
  u ∈ url <$> l -> u ∈ earlier \/ u ∈ url <$> keep_first earlier l.
Proof.
  revert earlier. induction l as [|x l IH]; intros earlier; cbn [keep_first].
  - rewrite fmap_nil. now intros ?%elem_of_nil.
  - rewrite fmap_cons, elem_of_cons. case_bool_decide as Hx.
    + intros [->|Hu]; [now left | now apply IH].
    + rewrite fmap_cons, elem_of_cons. intros [->|Hu]; [right; now left|].
      destruct (IH (url x :: earlier) Hu) as [[->|H]%elem_of_cons|H]; tauto.
Qed.

Lemma deduplicate_length (results : list PriceRecord) :
  (length (FallbackScraper.deduplicate results) <= length results)%nat.
Proof.
  rewrite deduplicate_keep_first. apply sublist_length, keep_first_sublist.
Qed.

(** X9: deduplicating twice is deduplicating once; a sequence whose urls
    are already distinct is returned as it is; no url is lost and none is
    invented; the result is never longer than the candidates. *)
Theorem deduplicate_keeps_urls (results : list PriceRecord) :
  FallbackScraper.deduplicate (FallbackScraper.deduplicate results)
  = FallbackScraper.deduplicate results /\
  (NoDup (url <$> results) -> FallbackScraper.deduplicate results = results) /\
  (forall u, u ∈ url <$> FallbackScraper.deduplicate results <-> u ∈ url <$> results) /\
  (length (FallbackScraper.deduplicate results) <= length results)%nat.
Proof.
  rewrite !deduplicate_keep_first. split; [|split; [|split]].
  - apply keep_first_id; [apply keep_first_NoDup|]. intros r _. apply not_elem_of_nil.
  - intros Hnd. apply keep_first_id; [exact Hnd|]. intros r _. apply not_elem_of_nil.
  - intros u. split.
    + intros (r & -> & Hr)%list_elem_of_fmap. apply list_elem_of_fmap_2.
      eapply elem_of_sublist; [exact Hr | apply keep_first_sublist].
    + intros Hu. destruct (keep_first_urls [] results u Hu) as [H|H]; [|exact H].
      now apply elem_of_nil in H.
  - apply sublist_length, keep_first_sublist.
Qed.

Lemma deduplicate_keeps_urls_witness :
  FallbackScraper.deduplicate
    [ {| marketplace := py "Amazon"; price := 100; currency := py "INR";
         url := py "A"; description := None; images := None;
         last_updated := 0%Z; in_stock := true;
         original_price := None; discount_percentage := None |};
      {| marketplace := py "Flipkart"; price := 90; currency := py "INR";
         url := py "B"; description := None; images := None;
         last_updated := 0%Z; in_stock := true;
         original_price := None; discount_percentage := None |} ]
  = [ {| marketplace := py "Amazon"; price := 100; currency := py "INR";
         url := py "A"; description := None; images := None;
         last_updated := 0%Z; in_stock := true;
         original_price := None; discount_percentage := None |};
      {| marketplace := py "Flipkart"; price := 90; currency := py "INR";
         url := py "B"; description := None; images := None;
         last_updated := 0%Z; in_stock := true;
         original_price := None; discount_percentage := None |} ].
Proof.
  apply (proj1 (proj2 (deduplicate_keeps_urls _))).
  cbn. repeat constructor; rewrite ?elem_of_cons, ?elem_of_nil;
    intros H; decompose [or] H; try discriminate; assumption.
Defined.

Lemma keep_first_same_url (u : list N) (l : list PriceRecord) :
  Forall (fun r => url r = u) l -> keep_first [u] l = [].
Proof.
  induction 1 as [|r l Hr _ IH]; [reflexivity|]. cbn [keep_first].
  rewrite bool_decide_eq_true_2 by (rewrite Hr; left). exact IH.
Qed.

(** ** The size and the order of the fallback result *)

(** X10: on every world the fallback orchestrator returns at most 12
    records: escalation happens only below 2 aggregator results, which
    leaves room for at most 1 + 4 + 4. *)
Theorem fallback_search_at_most_12 (w : World) (q : list N) (log : Log) :
  exists out,
    snd (FallbackScraper.search w q log) = Ok out /\ (length out <= 12)%nat.
Proof.
  destruct (fallback_search_run w q log) as (agg & amz & fk & Ha & Hz & Hf & ->).
  apply (f_equal snd), scrape_search_engine_ok_records in Ha as [La _].
  apply (f_equal snd), scrape_amazon_ok_records in Hz as [Lz _].
  apply (f_equal snd), scrape_flipkart_ok_records in Hf as [Lf _].
  destruct (Nat.ltb_spec (length agg) 2) as [Hlt|Hge];
    eexists; (split; [reflexivity|]);
    match goal with |- (length (FallbackScraper.deduplicate ?l) <= _)%nat =>
      pose proof (deduplicate_length l) as Hd end.
  - rewrite !length_app in Hd. lia.
  - lia.
Qed.

(** X11: escalation is decided on the aggregator's count before
    deduplication: when the aggregator gives two or more results that all
    carry the same url, the orchestrator returns the first of them alone
    and makes no request to a marketplace. *)
Theorem duplicates_do_not_escalate (w : World) (q : list N) (log : Log)
        (r : PriceRecord) (more : list PriceRecord) :
  snd (FallbackScraper.scrape_search_engine w q log) = Ok (r :: more) ->
  more <> [] ->
  Forall (fun r' => url r' = url r) more ->
  FallbackScraper.search w q log = (log ++ [post_event q], Ok [r]).
Proof.
  intros Hagg Hmore Hsame.
  destruct (fallback_search_run w q log) as (agg & amz & fk & Ha & _ & _ & ->).
  rewrite Ha in Hagg. cbn [snd] in Hagg. injection Hagg as ->.
  destruct more as [|r2 more]; [congruence|]. cbn [length Nat.ltb Nat.leb].
  rewrite deduplicate_keep_first.
  change (keep_first [] (r :: r2 :: more))
    with (if bool_decide (url r ∈ [])
          then keep_first [] (r2 :: more)
          else r :: keep_first [url r] (r2 :: more)).
  rewrite bool_decide_eq_false_2 by apply not_elem_of_nil.
  now rewrite keep_first_same_url.
Qed.

Lemma duplicates_do_not_escalate_witness :
  exists r,
    FallbackScraper.search world_same_link (py "tv") []
    = ([post_event (py "tv")], Ok [r]) /\ price r = 45990%Q.
Proof.
  eexists. split.
  - eapply (duplicates_do_not_escalate world_same_link (py "tv") []);
      [vm_compute; reflexivity | discriminate | repeat constructor].
  - reflexivity.
Defined.

Lemma search_engine_missing_href_witness :
  exists r,
    snd (FallbackScraper.scrape_search_engine world_missing_href (py "tv") [])
    = Ok [r] /\ url r = py "https://www.amazon.in/dp/x".
Proof.
  eexists. split.
  - rewrite (search_engine_missing_href world_missing_href (py "tv") [] _
               [result_tag "TV ₹45,990" "https://www.amazon.in/dp/x"]
               [result_tag "TV Rs. 44,000" "https://www.flipkart.com/tv"]
               {| title_tag := Some {| get_text := py "TV Rs. 100"; href := None |};
                  snippet_tag := None |}
               {| get_text := py "TV Rs. 100"; href := None |}
               eq_refl eq_refl eq_refl);
      [vm_compute; reflexivity | cbn; lia | reflexivity | reflexivity].
  - reflexivity.
Defined.

(** ** Fields every record has *)

Lemma identify_names (u : list N) :
  ScraperService.identify u ∈ marketplace_names.
Proof.
  unfold ScraperService.identify, marketplace_names.
  repeat (match goal with |- context [if ?b then _ else _] => destruct b end);
    rewrite !elem_of_cons; tauto.
Qed.

Lemma parse_results_common now items l :
  ScraperService._parse_results now items = Ok l -> Forall common_fields l.
Proof.
  revert l. induction items as [|[item|e] items IH]; intros l;
    cbn [ScraperService._parse_results]; [intros [= <-]; constructor| |discriminate].
  destruct (ScraperService._parse_results now items) as [snapshots|e];
    [|discriminate].
  intros [= <-]. constructor; [|now apply IH].
  unfold common_fields. cbn [currency marketplace original_price discount_percentage].
  repeat split. apply identify_names.
Qed.

Lemma direct_record_common name base r :
  name ∈ marketplace_names -> direct_record name base r -> common_fields r.
Proof.
  intros Hn (Hm & Hc & _ & _ & _ & _ & _ & Ho & Hd).
  unfold common_fields. rewrite Hm. tauto.
Qed.

Lemma engine_record_common r : engine_record r -> common_fields r.
Proof.
  intros (Hc & _ & _ & _ & Ho & Hd & _ & Hm). unfold common_fields.
  repeat split; try assumption.
  destruct Hm as [[Hm _]|[-> _]].
  - now apply identify_marketplace_name in Hm as (_ & Hin & _).
  - unfold marketplace_names. rewrite !elem_of_cons. tauto.
Qed.

(** X12: on every world and on either tier, each record the top-level
    search returns is in INR, carries one of the seven marketplace names
    (never an empty one), and has no original price and no discount. *)
Theorem search_records_common_fields (w : World) (q : list N) (log : Log) :
  exists out,
    snd (ScraperService.search_products w q log) = Ok out /\
    Forall common_fields out /\
    Forall (fun r => marketplace r <> []) out.
Proof.
  assert (Hgoal : exists out,
             snd (ScraperService.search_products w q log) = Ok out /\
             Forall common_fields out).
  { destruct (ScraperService.strategy_firecrawl w q log) as [log0 r0] eqn:Hs0.
    destruct (search_products_run w q log)
      as (primary & log1 & Hs & _ & _ & _ & ->).
    destruct primary as [|r primary].
    - destruct (fallback_search_run w q log1) as (agg & amz & fk & Ha & Hz & Hf & ->).
      apply (f_equal snd), scrape_search_engine_ok_records in Ha as [_ Ha].
      apply (f_equal snd), scrape_amazon_ok_records in Hz as [_ Hz].
      apply (f_equal snd), scrape_flipkart_ok_records in Hf as [_ Hf].
      assert (Ca : Forall common_fields agg)
        by (eapply Forall_impl; [exact Ha | apply engine_record_common]).
      assert (Cz : Forall common_fields amz).
      { eapply Forall_impl; [exact Hz|]. intros r. apply direct_record_common.
        unfold marketplace_names. rewrite !elem_of_cons. tauto. }
      assert (Cf : Forall common_fields fk).
      { eapply Forall_impl; [exact Hf|]. intros r. apply direct_record_common.
        unfold marketplace_names. rewrite !elem_of_cons. tauto. }
      destruct (length agg <? 2)%nat; eexists; (split; [reflexivity|]);
        apply Forall_forall; intros r Hr%deduplicate_elem_of.
      + rewrite !elem_of_app in Hr. destruct Hr as [[Hr|Hr]|Hr];
          eapply Forall_forall in Hr; eauto.
      + eapply Forall_forall in Hr; eauto.
    - eexists. split; [reflexivity|].
      unfold ScraperService.strategy_firecrawl in Hs.
      destruct (app w); [|discriminate].
      unfold try_except, bind, emit, lift, ret in Hs.
      destruct (app_search w _) as [fc|e]; [|discriminate].
      destruct (items_of fc) as [|i items] eqn:Hi; unfold items_of in Hi;
        rewrite Hi in Hs; [discriminate|].
      destruct (ScraperService._parse_results _ (i :: items)) as [l|e] eqn:Hp;
        [|discriminate].
      injection Hs as _ <-. eapply parse_results_common, Hp. }
  destruct Hgoal as (out & Hout & Hc). exists out. repeat split; try assumption.
  eapply Forall_impl; [exact Hc|]. intros r (_ & Hm & _) Hnil. rewrite Hnil in Hm.
  unfold marketplace_names in Hm. rewrite !elem_of_cons, elem_of_nil in Hm.
  decompose [or] Hm; discriminate || contradiction.
Qed.

(** ** The primary tier *)

Lemma parse_results_items now (items : list FirecrawlItem) :
  exists l,
    ScraperService._parse_results now (Ok <$> items) = Ok l /\
    Forall2 record_of_item items l.
Proof.
  induction items as [|item items (l & Hl & IH)];
    [exists []; split; [reflexivity|constructor]|].
  rewrite fmap_cons. cbn [ScraperService._parse_results]. rewrite Hl.
  eexists. split; [reflexivity|]. constructor; [|exact IH].
  unfold record_of_item.
  cbn [url marketplace price in_stock description images original_price
       discount_percentage].
  repeat split. now destruct (fc_description item) as [[|c d]|].
Qed.

Lemma parse_results_raise now before e after :
  exists e', ScraperService._parse_results now (before ++ Raise e :: after) = Raise e'.
Proof.
  induction before as [|[item|e0] before (e' & IH)].
  - exists e. reflexivity.
  - exists e'. rewrite <- app_comm_cons. cbn [ScraperService._parse_results].
    now rewrite IH.
  - exists e0. reflexivity.
Qed.

Lemma search_products_primary (w : World) (q : list N) (log : Log) :
  app w = true ->
  ScraperService.search_products w q log
  = match app_search w (q ++ py " price buy online amazon.in flipkart.com") with
    | Raise _ => FallbackScraper.search w q (log ++ [firecrawl_event q])
    | Ok fc =>
      match items_of fc with
      | [] => FallbackScraper.search w q (log ++ [firecrawl_event q])
      | items =>
        match ScraperService._parse_results
                (utcnow w (log ++ [firecrawl_event q])) items with
        | Ok [] | Raise _ => FallbackScraper.search w q (log ++ [firecrawl_event q])
        | Ok l => (log ++ [firecrawl_event q], Ok l)
        end
      end
    end.
Proof.
  intros Happ.
  assert (Hfb : forall l,
             try_except
               (let* fallback_results := FallbackScraper.search w q in
                ret ([] ++ fallback_results)) (fun _ => ret []) l
             = FallbackScraper.search w q l).
  { intros l. unfold try_except, bind, ret.
    destruct (fallback_search_run w q l) as (agg & amz & fk & _ & _ & _ & ->).
    now destruct (length agg <? 2)%nat. }
  unfold ScraperService.search_products, ScraperService.strategy_firecrawl.
  rewrite Happ. unfold bind at 1. unfold try_except at 1. unfold bind at 1.
  unfold emit at 1. unfold firecrawl_event. unfold bind at 1. unfold lift at 1.
  destruct (app_search w _) as [fc|e]; [|apply Hfb].
  fold (items_of fc). destruct (items_of fc) as [|i items]; [apply Hfb|].
  unfold lift.
  destruct (ScraperService._parse_results _ (i :: items)) as [[|r l]|e];
    [apply Hfb | reflexivity | apply Hfb].
Qed.

(** X13: with a credential, when the hosted search answers with
    well-formed items, the top-level search returns one record per item,
    in the order of the items and none left out, whatever their url or
    price, after the one hosted call and nothing else; each record has the
    url, name, price, stock mark, description and images read from its
    item (nothing is said of the time it carries). *)
Theorem primary_returns_every_item (w : World) (q : list N) (log : Log)
        (fc : FirecrawlResult) (items : list FirecrawlItem) :
  app w = true ->
  app_search w (q ++ py " price buy online amazon.in flipkart.com") = Ok fc ->
  items_of fc = Ok <$> items ->
  items <> [] ->
  exists l,
    ScraperService.search_products w q log = (log ++ [firecrawl_event q], Ok l) /\
    Forall2 record_of_item items l /\
    length l = length items.
Proof.
  intros Happ Hfc Hitems Hne.
  rewrite search_products_primary, Hfc, Hitems by exact Happ.
  destruct (parse_results_items (utcnow w (log ++ [firecrawl_event q])) items)
    as (l & Hp & Hl).
  exists l. apply Forall2_length in Hl as Hlen.
  destruct items as [|i items]; [congruence|].
  destruct l as [|r l]; [discriminate|]. rewrite fmap_cons in *.
  rewrite Hp. repeat split; [exact Hl | now symmetry].
Qed.

Lemma primary_returns_every_item_witness :
  exists r1 r2,
    ScraperService.search_products world_primary_twice (py "tv") []
    = ([firecrawl_event (py "tv")], Ok [r1; r2]).
Proof.
  destruct (primary_returns_every_item world_primary_twice (py "tv") [] _
              [firecrawl_item "https://www.amazon.in/dp/x" "Sony Bravia ₹45,990";
               firecrawl_item "https://www.amazon.in/dp/x" "Sony Bravia ₹45,990"]
              eq_refl eq_refl eq_refl) as (l & Hl & _ & Hlen).
  - discriminate.
  - destruct l as [|r1 [|r2 [|r3 l]]]; try discriminate. now exists r1, r2.
Defined.

(** X14: one malformed item in the hosted answer discards the whole
    answer, well-formed items included: the top-level search is then the
    run of the fallback orchestrator after the hosted call. *)
Theorem malformed_item_discards_primary (w : World) (q : list N) (log : Log)
        (fc : FirecrawlResult) before (e : Exn) after :
  app w = true ->
  app_search w (q ++ py " price buy online amazon.in flipkart.com") = Ok fc ->
  items_of fc = before ++ Raise e :: after ->
  ScraperService.search_products w q log
  = FallbackScraper.search w q (log ++ [firecrawl_event q]).
Proof.
  intros Happ Hfc Hitems.
  rewrite search_products_primary, Hfc, Hitems by exact Happ.
  destruct (parse_results_raise (utcnow w (log ++ [firecrawl_event q])) before e after)
    as [e' Hr].
  destruct (before ++ Raise e :: after); [reflexivity|]. now rewrite Hr.
Qed.

Lemma malformed_item_discards_primary_witness :
  exists r1 r2,
    snd (ScraperService.search_products world_primary_malformed (py "tv") [])
    = Ok [r1; r2] /\
    marketplace r1 = py "Flipkart" /\ marketplace r2 = py "Croma".
Proof.
  rewrite (malformed_item_discards_primary world_primary_malformed (py "tv") [] _
             [Ok (firecrawl_item "https://www.amazon.in/dp/x" "Sony Bravia ₹45,990")]
             TypeError [] eq_refl eq_refl eq_refl).
  do 2 eexists. split; [vm_compute; reflexivity|]. split; reflexivity.
Defined.

(** X15: the primary tier is skipped without a trace when no credential is
    configured: the top-level search is the run of the fallback
    orchestrator on the same log; with a credential, a hosted call that
    raises or answers with no item leaves only its call in the log before
    the same fallback run. *)
Theorem primary_tier_degrades (w : World) (q : list N) (log : Log) :
  (app w = false ->
   ScraperService.search_products w q log = FallbackScraper.search w q log) /\
  (app w = true ->
   (forall e, app_search w (q ++ py " price buy online amazon.in flipkart.com")
              = Raise e ->
      ScraperService.search_products w q log
      = FallbackScraper.search w q (log ++ [firecrawl_event q])) /\
   (forall fc, app_search w (q ++ py " price buy online amazon.in flipkart.com")
               = Ok fc -> items_of fc = [] ->
      ScraperService.search_products w q log
      = FallbackScraper.search w q (log ++ [firecrawl_event q]))).
Proof.
  split.
  - intros Happ.
    destruct (search_products_run w q log)
      as (primary & log1 & _ & Hlog & _ & Hoff & ->).
    rewrite (Hoff Happ). rewrite Happ in Hlog. now subst log1.
  - intros Happ. split.
    + intros e He. now rewrite search_products_primary, He.
    + intros fc Hfc Hi. now rewrite search_products_primary, Hfc, Hi.
Qed.

Lemma primary_tier_degrades_witness :
  ScraperService.search_products world_three_links (py "tv") []
  = FallbackScraper.search world_three_links (py "tv") [].
Proof.
  apply (proj1 (primary_tier_degrades world_three_links (py "tv") [])).
  reflexivity.
Defined.

(** ** The search handler *)

Lemma lstrip_all_space (s : list N) : all_space s -> lstrip s = [].
Proof.
  induction 1 as [|c s Hc _ IH]; [reflexivity|]. cbn [lstrip]. now rewrite Hc.
Qed.

Lemma lstrip_nil_all_space (s : list N) : lstrip s = [] -> all_space s.
Proof.
  induction s as [|c s IH]; [constructor|]. cbn [lstrip].
  destruct (is_space c) eqn:Hc; [|discriminate].
  intros H. constructor; [exact Hc | now apply IH].
Qed.

(** X16: the handler raises IndexError exactly on a product name that is
    empty or made of white space, and then before any request is made; on
    every other name it answers. *)
Theorem blank_name_raises_before_any_request (w : World) (name : list N) (log : Log) :
  (all_space name -> main_simple.search w name log = (log, Raise IndexError)) /\
  (~ all_space name ->
   exists log' resp, main_simple.search w name log = (log', Ok resp)).
Proof.
  unfold main_simple.search, main_simple.first_word, bind, lift, ret. split.
  - intros H. now rewrite (lstrip_all_space name H).
  - intros H. destruct (lstrip name) as [|c t] eqn:E;
      [destruct H; now apply lstrip_nil_all_space|].
    destruct (search_products_surfaced w name log) as (out & Hout & _).
    destruct (ScraperService.search_products w name log) as [log' r].
    cbn [snd] in Hout. subst r. eauto.
Qed.

Lemma blank_name_raises_before_any_request_witness :
  main_simple.search world_end_to_end (py "  ") [] = ([], Raise IndexError).
Proof.
  apply (proj1 (blank_name_raises_before_any_request world_end_to_end (py "  ") [])).
  repeat constructor.
Defined.

Lemma take_word_spec (t : list N) :
  Forall (fun c => is_space c = false) (main_simple.take_word t) /\
  exists rest, t = main_simple.take_word t ++ rest /\ blank_start rest.
Proof.
  induction t as [|c t (Hw & rest & Ht & Hr)]; cbn [main_simple.take_word].
  - split; [constructor|]. now exists [].
  - destruct (is_space c) eqn:Hc.
    + split; [constructor|]. now exists (c :: t).
    + split; [now constructor|]. exists rest. split; [|exact Hr].
      cbn. now rewrite <- Ht.
Qed.

(** X17: the brand is the first word of the product name: it is not
    empty, holds no white space, and the name is white space, then the
    brand, then the end of the name or white space. *)
Theorem brand_is_first_word (name brand : list N) :
  main_simple.first_word name = Ok brand ->
  brand <> [] /\
  Forall (fun c => is_space c = false) brand /\
  exists ws rest,
    name = ws ++ brand ++ rest /\ all_space ws /\ blank_start rest.
Proof.
  unfold main_simple.first_word.
  destruct (lstrip_split name) as (ws & Hname & Hws).
  pose proof (lstrip_clean name) as Hclean.
  destruct (lstrip name) as [|c t] eqn:E; [discriminate|]. intros [= <-].
  destruct (take_word_spec (c :: t)) as (Hw & rest & Ht & Hr).
  cbn [clean_start] in Hclean. split; [|split; [exact Hw|]].
  - cbn [main_simple.take_word]. now rewrite Hclean.
  - exists ws, rest. split; [|split; assumption].
    change (name = ws ++ main_simple.take_word (c :: t) ++ rest).
    now rewrite <- Ht.
Qed.

Lemma brand_is_first_word_witness :
  exists ws rest,
    py "  Sony Bravia TV" = ws ++ py "Sony" ++ rest /\ all_space ws /\ blank_start rest.
Proof.
  apply (brand_is_first_word (py "  Sony Bravia TV") (py "Sony") eq_refl).
Defined.

Lemma adapt_first_minimum (real_prices : list PriceRecord)
      (snaps : list main_simple.PriceSnapshot)
      (best : option main_simple.PriceSnapshot) (min_price : option Q) :
  best_is_first_minimum snaps best ->
  min_price = main_simple.snap_price <$> best ->
  best_is_first_minimum (fst (main_simple.adapt real_prices snaps best min_price))
                        (snd (main_simple.adapt real_prices snaps best min_price)).
Proof.
  revert snaps best min_price.
  induction real_prices as [|p rest IH]; intros snaps best min_price Hb Hm;
    [exact Hb|].
  cbn [main_simple.adapt].
  set (snapshot := main_simple.make_snapshot p).
  assert (Hprice : main_simple.snap_price snapshot = price p) by reflexivity.
  destruct (Qltb 0 (price p) && main_simple.below (price p) min_price) eqn:E.
  - apply andb_true_iff in E as [Hpos Hlow]. apply Qltb_lt in Hpos.
    apply IH; [|reflexivity].
    destruct best as [b|]; subst min_price;
      cbn [fmap option_fmap option_map main_simple.below] in Hlow;
      apply Qltb_lt in Hlow.
    + destruct Hb as ([_ Hfin] & before & after & -> & Hbefore & Hafter).
      split; [split; rewrite Hprice;
              [exact Hpos | eapply Qlt_trans; [exact Hlow | exact Hfin]]|].
      exists (before ++ b :: after), []. split; [reflexivity|].
      split; [|intros s Hs; now apply elem_of_nil in Hs].
      intros s Hs Hs0. rewrite Hprice.
      apply elem_of_app in Hs as [Hs|[->|Hs]%elem_of_cons].
      * eapply Qlt_trans; [exact Hlow|]. now apply Hbefore.
      * exact Hlow.
      * eapply Qlt_le_trans; [exact Hlow|]. now apply Hafter.
    + split; [split; rewrite Hprice; assumption|].
      exists snaps, []. split; [reflexivity|].
      split; [|intros s Hs; now apply elem_of_nil in Hs].
      intros s Hs Hs0. rewrite Hprice.
      destruct (Qlt_le_dec (main_simple.snap_price s) float_overflow)
        as [Hfin|Hinf]; [now destruct (Hb s Hs)|].
      eapply Qlt_le_trans; [exact Hlow | exact Hinf].
  - apply IH; [|exact Hm].
    destruct best as [b|].
    + destruct Hb as (Hpos & before & after & -> & Hbefore & Hafter).
      split; [exact Hpos|]. exists before, (after ++ [snapshot]).
      split; [now rewrite <- app_assoc|]. split; [exact Hbefore|].
      intros s [Hs|Hs%list_elem_of_singleton]%elem_of_app Hs0; [now apply Hafter|].
      subst s min_price. rewrite Hprice in *.
      apply Qltb_lt in Hs0. rewrite Hs0 in E.
      cbn [fmap option_fmap option_map main_simple.below andb] in E.
      now apply Qltb_ge in E.
    + intros s [Hs|Hs%list_elem_of_singleton]%elem_of_app; [now apply Hb|].
      subst s min_price. unfold priced. rewrite Hprice.
      cbn [fmap option_fmap option_map main_simple.below] in E.
      intros [H0%Qltb_lt Hfin%Qltb_lt]. rewrite H0, Hfin in E. discriminate.
Qed.

(** X18: whatever the records, the best price of the response is the
    earliest snapshot among those of least positive price that did not
    overflow: a tie goes to the record that came first, a price that reads
    as [inf] is never chosen, and there is no best price exactly when no
    snapshot has a positive price below that bound; and every snapshot is
    reported in stock, without images and without description, whatever
    the record said. *)
Theorem best_price_is_first_minimum (w : World) (name brand : list N)
        (real_prices : list PriceRecord) :
  let resp := main_simple.respond w name brand real_prices in
  best_is_first_minimum (main_simple.prices resp) (main_simple.best_price resp) /\
  (main_simple.best_price resp = None <->
   Forall (fun s => ~ priced s) (main_simple.prices resp)) /\
  Forall (fun s => main_simple.snap_in_stock s = true /\
                   main_simple.snap_images s = [] /\
                   main_simple.snap_description s = None)
         (main_simple.prices resp).
Proof.
  cbn zeta. destruct (respond_spec w name brand real_prices) as (Hp & _ & _).
  assert (Hfirst : best_is_first_minimum
                     (main_simple.prices (main_simple.respond w name brand real_prices))
                     (main_simple.best_price (main_simple.respond w name brand real_prices))).
  { unfold main_simple.respond.
    pose proof (adapt_first_minimum real_prices [] None None) as H.
    destruct (main_simple.adapt real_prices [] None None) as [snaps best].
    cbn [fst snd main_simple.prices main_simple.best_price] in *.
    apply H; [|reflexivity]. intros s Hs. now apply elem_of_nil in Hs. }
  split; [exact Hfirst|]. split.
  - destruct (main_simple.best_price _) as [b|].
    + split; [discriminate|]. intros Hall. exfalso.
      destruct Hfirst as (Hb & before & after & Heq & _).
      rewrite Heq in Hall. apply Forall_app in Hall as [_ Hall].
      apply Forall_cons in Hall as [Hall _]. now apply Hall.
    + split; [|reflexivity]. intros _. apply Forall_forall. exact Hfirst.
  - rewrite Hp. apply Forall_fmap, Forall_forall. intros r _. now cbn.
Qed.

Lemma is_space_lower_char (c : N) : is_space (lower_char c) = is_space c.
Proof.
  unfold lower_char.
  destruct ((0x41 <=? c) && (c <=? 0x5A)) eqn:E; [|reflexivity].
  apply andb_true_iff in E as [H1 H2]. apply N.leb_le in H1, H2.
  assert (Hc : is_space c = false).
  { apply not_true_is_false. intros H%is_space_points. cbn [existsb space_points] in H.
    rewrite !orb_true_iff, !N.eqb_eq in H. lia. }
  rewrite Hc. apply not_true_is_false. intros H%is_space_points.
  cbn [existsb space_points] in H. rewrite !orb_true_iff, !N.eqb_eq in H. lia.
Qed.

Lemma lower_lstrip (s : list N) : lower (lstrip s) = lstrip (lower s).
Proof.
  induction s as [|c s IH]; [reflexivity|].
  cbn [lstrip lower List.map]. rewrite is_space_lower_char.
  destruct (is_space c); [exact IH | reflexivity].
Qed.

Lemma lower_take_word (s : list N) :
  lower (main_simple.take_word s) = main_simple.take_word (lower s).
Proof.
  induction s as [|c s IH]; [reflexivity|].
  cbn [main_simple.take_word lower List.map]. rewrite is_space_lower_char.
  destruct (is_space c); [reflexivity|]. cbn [List.map]. f_equal. exact IH.
Qed.

Lemma first_word_lower (name brand : list N) :
  main_simple.first_word name = Ok brand ->
  lower brand = main_simple.take_word (lstrip (lower name)).
Proof.
  unfold main_simple.first_word. destruct (lstrip name) as [|c t] eqn:E;
    [discriminate|].
  intros H. assert (Hb : brand = main_simple.take_word (c :: t)) by congruence.
  rewrite Hb, lower_take_word, <- E, lower_lstrip. reflexivity.
Qed.

(** X19: the product identifier has at most 16 characters and does not
    see the case of the product name: two names that differ only by the
    case of their ASCII letters get the same identifier, their brands
    being read from them. *)
Theorem flash_pid_ignores_case (w : World) (name name' brand brand' : list N) :
  lower name = lower name' ->
  main_simple.first_word name = Ok brand ->
  main_simple.first_word name' = Ok brand' ->
  main_simple.generate_flash_pid w name brand
  = main_simple.generate_flash_pid w name' brand' /\
  (length (main_simple.generate_flash_pid w name brand) <= 16)%nat.
Proof.
  intros Hn Hb Hb'. apply first_word_lower in Hb, Hb'.
  unfold main_simple.generate_flash_pid. split.
  - now rewrite Hb, Hb', Hn.
  - rewrite length_take. lia.
Qed.

Lemma flash_pid_ignores_case_witness :
  main_simple.generate_flash_pid offline (py "Sony Bravia TV") (py "Sony")
  = main_simple.generate_flash_pid offline (py "SONY bravia tv") (py "SONY").
Proof.
  apply (flash_pid_ignores_case offline (py "Sony Bravia TV") (py "SONY bravia tv")
           (py "Sony") (py "SONY") eq_refl eq_refl eq_refl).
Defined.

(** ** Page inspection *)

Lemma parse_page_run (pw : PageWorld) (url : list N) (log : PageLog) :
  exists r,
    FallbackScraper.parse_page pw url log = (log ++ [PageGet url], Ok r) /\
    (r = None <-> page_failed (get_page pw (length log) url)) /\
    (forall info, r = Some info ->
       page_info_ok url info /\
       (pi_price info = 0%Q \/ plausible (pi_price info)) /\
       strip (pi_title info) = pi_title info) /\
    (forall resp sel,
       get_page pw (length log) url = Ok resp -> page_status resp = 200%Z ->
       page_selector resp = Ok sel ->
       exists info,
         r = Some info /\
         pi_price info
         = if Qeq_bool (FallbackScraper._parse_price (first_price_text sel)) 0
           then FallbackScraper._parse_price (Some (firstn 5000 (page_text resp)))
           else FallbackScraper._parse_price (first_price_text sel)).
Proof.
  unfold FallbackScraper.parse_page, page_failed.
  destruct (get_page pw (length log) url) as [resp|e].
  2: { exists None. split; [reflexivity|]. split; [easy|]. split; [easy|].
       intros resp sel [=]. }
  destruct (Z.eqb_spec (page_status resp) 200) as [Hs|Hs]; cbn [negb].
  2: { exists None. split; [reflexivity|]. split; [split; [now left|easy]|].
       split; [easy|]. intros resp' sel' [= <-] Hs'. contradiction. }
  destruct (page_selector resp) as [sel|e] eqn:Hsel.
  2: { exists None. split; [reflexivity|]. split; [split; [right; eauto|easy]|].
       split; [easy|]. intros resp' sel' [= <-] _ H. congruence. }
  eexists. split; [reflexivity|]. split; [|split].
  - split; [discriminate|]. intros [H|[e H]]; congruence.
  - intros info [= <-]. cbn [pi_url pi_currency pi_price pi_title].
    fold (first_price_text sel).
    set (p := if Qeq_bool _ 0 then _ else _).
    assert (Hp : p = 0%Q \/ plausible p).
    { subst p. destruct (Qeq_bool _ 0); apply parse_price_zero_or_plausible. }
    split; [|split; [exact Hp | apply strip_idempotent]].
    unfold page_info_ok. cbn [pi_url pi_currency pi_price]. fold (first_price_text sel).
    fold p. repeat split.
    destruct Hp as [->|[H _]]; [apply Qle_refl|].
    apply Qlt_le_weak. eapply Qlt_trans; [|exact H]. reflexivity.
  - intros resp' sel' [= <-] _ H. assert (sel' = sel) by congruence. subst sel'.
    eexists. split; reflexivity.
Qed.

(** X20: the local page parser never raises and makes exactly one fetch;
    it answers None exactly when the request raises, the status is not
    200 or the parser raises on the body; otherwise its record echoes the
    url, is in INR, has a trimmed title and a price that is 0 or strictly
    between 49 and 10^7. *)
Theorem parse_page_never_raises (pw : PageWorld) (url : list N) (log : PageLog) :
  exists r,
    FallbackScraper.parse_page pw url log = (log ++ [PageGet url], Ok r) /\
    (r = None <-> page_failed (get_page pw (length log) url)) /\
    (forall info, r = Some info ->
       page_info_ok url info /\
       (pi_price info = 0%Q \/ plausible (pi_price info)) /\
       strip (pi_title info) = pi_title info).
Proof.
  destruct (parse_page_run pw url log) as (r & H1 & H2 & H3 & _). eauto.
Qed.

Lemma parse_page_never_raises_witness :
  exists info,
    snd (FallbackScraper.parse_page page_world_hosted (py "https://www.amazon.in/dp/x") [])
    = Ok (Some info) /\
    pi_title info = py "Sony Bravia" /\ strip (pi_title info) = pi_title info.
Proof.
  destruct (parse_page_never_raises page_world_hosted (py "https://www.amazon.in/dp/x") [])
    as (r & Hrun & _ & Hinfo).
  destruct r as [info|]; [|vm_compute in Hrun; discriminate].
  exists info. rewrite Hrun. split; [reflexivity|].
  destruct (Hinfo info eq_refl) as (_ & _ & Hstrip). split; [|exact Hstrip].
  vm_compute in Hrun. now injection Hrun as <-.
Defined.

(** X21: on a page that answers, the price comes from the text of the
    first price selector that is not empty, and from it alone among the
    selectors; when that text holds no price the first 5000 characters of
    the body are scanned, and what follows them is never read. *)
Theorem parse_page_price_source (pw pw' : PageWorld) (url : list N)
        (log log' : PageLog) (resp resp' : PageResponse) (sel sel' : PageSelectors) :
  get_page pw (length log) url = Ok resp ->
  get_page pw' (length log') url = Ok resp' ->
  page_status resp = 200%Z -> page_status resp' = 200%Z ->
  page_selector resp = Ok sel -> page_selector resp' = Ok sel' ->
  first_price_text sel = first_price_text sel' ->
  firstn 5000 (page_text resp) = firstn 5000 (page_text resp') ->
  exists info info',
    snd (FallbackScraper.parse_page pw url log) = Ok (Some info) /\
    snd (FallbackScraper.parse_page pw' url log') = Ok (Some info') /\
    pi_price info = pi_price info' /\
    (FallbackScraper._parse_price (first_price_text sel) <> 0%Q ->
     pi_price info = FallbackScraper._parse_price (first_price_text sel)).
Proof.
  intros Hg Hg' Hs Hs' Hsel Hsel' Hfirst Hbody.
  destruct (parse_page_run pw url log) as (r & Hrun & _ & _ & Hprice).
  destruct (parse_page_run pw' url log') as (r' & Hrun' & _ & _ & Hprice').
  destruct (Hprice resp sel Hg Hs Hsel) as (info & -> & Hp).
  destruct (Hprice' resp' sel' Hg' Hs' Hsel') as (info' & -> & Hp').
  exists info, info'. rewrite Hrun, Hrun'. repeat split.
  - rewrite Hp, Hp', Hfirst, Hbody. reflexivity.
  - intros Hne. rewrite Hp.
    destruct (parse_price_zero_or_plausible (first_price_text sel)) as [H0|[H49 _]];
      [congruence|].
    destruct (Qeq_bool _ 0) eqn:E; [|reflexivity].
    apply Qeq_bool_iff in E. rewrite E in H49. vm_compute in H49. discriminate.
Qed.

Lemma parse_page_price_source_witness :
  exists info,
    snd (FallbackScraper.parse_page page_world_hosted (py "https://www.amazon.in/dp/x") [])
    = Ok (Some info) /\
    pi_price info = 45990%Q.
Proof.
  destruct (parse_page_price_source page_world_hosted page_world_hosted
              (py "https://www.amazon.in/dp/x") [] [] _ _ _ _
              eq_refl eq_refl eq_refl eq_refl eq_refl eq_refl eq_refl eq_refl)
    as (info & _ & Hrun & _ & _ & Hprice).
  exists info. split; [exact Hrun|]. rewrite Hprice; [reflexivity|].
  vm_compute. discriminate.
Defined.

Lemma scrape_page_run (w : World) (pw : PageWorld) (url : list N) (log : PageLog) :
  exists log1 r,
    ScraperService.scrape_page w pw url log = (log1, Ok r) /\
    (forall d, r = Some d -> page_info_ok url d) /\
    (r = None ->
     exists mid,
       log1 = log ++ mid ++ [PageGet url] /\
       page_failed (get_page pw (length (log ++ mid)) url)).
Proof.
  assert (Hlocal : forall mid,
             exists r,
               FallbackScraper.parse_page pw url (log ++ mid)
               = (log ++ mid ++ [PageGet url], Ok r) /\
               (forall d, r = Some d -> page_info_ok url d) /\
               (r = None -> exists mid',
                   log ++ mid ++ [PageGet url] = log ++ mid' ++ [PageGet url] /\
                   page_failed (get_page pw (length (log ++ mid')) url))).
  { intros mid. destruct (parse_page_run pw url (log ++ mid)) as (r & Hr & Hn & Hi & _).
    exists r. rewrite Hr, <- app_assoc. split; [reflexivity|]. split.
    - intros d Hd. now apply Hi.
    - intros Hnone. exists mid. split; [reflexivity|]. now apply Hn. }
  unfold ScraperService.scrape_page. destruct (app w).
  - destruct (app_scrape_url pw (length log) url) as [[data|]|e].
    + do 2 eexists. split; [reflexivity|]. split; [|discriminate].
      intros d [= <-]. unfold page_info_ok. cbn [pi_url pi_currency pi_price].
      repeat split.
      destruct (extract_price_zero_or_above
                  (firstn 2000 (default [] (py_or (Some (default [] (sd_markdown data)))
                                                (Some (default [] (sd_content data)))))))
        as [->|H]; [apply Qle_refl|].
      apply Qlt_le_weak. eapply Qlt_trans; [|exact H]. reflexivity.
    + destruct (Hlocal [FirecrawlScrape url]) as (r & Hr & H). rewrite Hr. eauto.
    + destruct (Hlocal [FirecrawlScrape url]) as (r & Hr & H). rewrite Hr. eauto.
  - destruct (Hlocal []) as (r & Hr & H). rewrite app_nil_r in Hr. rewrite Hr.
    cbn [app] in *. eauto.
Qed.

(** X22: with a credential and a hosted answer, the page record comes
    from the hosted text alone, without any fetch of the page, even when
    that text holds no price: its price is 0 or above 50 and none of 2023,
    2024, 2025.  Without a credential, and when the hosted call raises or
    answers nothing, the record is that of the local parser. *)
Theorem scrape_page_tiers (w : World) (pw : PageWorld) (url : list N) (log : PageLog) :
  (app w = true ->
   forall data, app_scrape_url pw (length log) url = Ok (Some data) ->
   exists info,
     ScraperService.scrape_page w pw url log
     = (log ++ [FirecrawlScrape url], Ok (Some info)) /\
     page_info_ok url info /\
     (pi_price info = 0%Q \/
      ((50 < pi_price info)%Q /\ ~ is_year (pi_price info)))) /\
  (app w = true ->
   (app_scrape_url pw (length log) url = Ok None \/
    exists e, app_scrape_url pw (length log) url = Raise e) ->
   ScraperService.scrape_page w pw url log
   = FallbackScraper.parse_page pw url (log ++ [FirecrawlScrape url])) /\
  (app w = false ->
   ScraperService.scrape_page w pw url log = FallbackScraper.parse_page pw url log).
Proof.
  unfold ScraperService.scrape_page. split; [|split]; intros ->.
  - intros data ->. eexists. split; [reflexivity|].
    cbn [pi_price]. split; [|apply extract_price_values].
    unfold page_info_ok. cbn [pi_url pi_currency pi_price]. repeat split.
    match goal with |- (0 <= ScraperService._extract_price ?t)%Q =>
      destruct (extract_price_zero_or_above t) as [->|H] end; [apply Qle_refl|].
    apply Qlt_le_weak. eapply Qlt_trans; [|exact H]. reflexivity.
  - now intros [->|[e ->]].
  - reflexivity.
Qed.

Lemma scrape_page_tiers_witness :
  exists info,
    ScraperService.scrape_page world_primary_upper page_world_hosted
      (py "https://www.amazon.in/dp/x") []
    = ([FirecrawlScrape (py "https://www.amazon.in/dp/x")], Ok (Some info)) /\
    pi_price info = 0%Q.
Proof.
  destruct (proj1 (scrape_page_tiers world_primary_upper page_world_hosted
                     (py "https://www.amazon.in/dp/x") []) eq_refl _ eq_refl)
    as (info & Hrun & _ & _).
  exists info. split; [exact Hrun|].
  vm_compute in Hrun. now injection Hrun as <-.
Defined.

(** X23: the inspect handler never raises and never answers with the
    "could not scrape" dict: it answers with a record for the url asked,
    or with null, and with null only after two fetches of the page that
    both gave nothing. *)
Theorem inspect_url_answers (w : World) (pw : PageWorld) (url : list N) (log : PageLog) :
  exists log' r,
    main_simple.inspect_url w pw url log = (log', Ok r) /\
    r <> main_simple.CouldNotScrape /\
    (forall d, r = main_simple.Data d -> page_info_ok url d) /\
    (r = main_simple.Null ->
     exists mid,
       log' = log ++ mid ++ [PageGet url; PageGet url] /\
       page_failed (get_page pw (length (log ++ mid)) url) /\
       page_failed (get_page pw (S (length (log ++ mid))) url)).
Proof.
  unfold main_simple.inspect_url.
  destruct (scrape_page_run w pw url log) as (log1 & r1 & -> & Hd & Hn).
  destruct r1 as [d|].
  - do 2 eexists. split; [reflexivity|]. split; [discriminate|].
    split; [|discriminate]. intros d' [= <-]. now apply Hd.
  - destruct (Hn eq_refl) as (mid & -> & Hfail1).
    destruct (parse_page_run pw url (log ++ mid ++ [PageGet url]))
      as (r2 & -> & Hnone & Hinfo & _).
    destruct r2 as [d|].
    + do 2 eexists. split; [reflexivity|]. split; [discriminate|].
      split; [|discriminate]. intros d' [= <-]. now apply Hinfo.
    + do 2 eexists. split; [reflexivity|]. split; [discriminate|].
      split; [discriminate|]. intros _. exists mid. split; [|split].
      * now rewrite <- !app_assoc.
      * exact Hfail1.
      * pose proof (proj1 Hnone eq_refl) as H.
        rewrite !length_app in *. cbn [length] in *.
        now replace (length log + (length mid + 1))%nat
          with (S (length log + length mid)) in H by lia.
Qed.

Lemma inspect_url_answers_witness :
  exists d,
    main_simple.inspect_url world_primary_upper page_world_retry
      (py "https://www.amazon.in/dp/x") []
    = ([FirecrawlScrape (py "https://www.amazon.in/dp/x");
        PageGet (py "https://www.amazon.in/dp/x");
        PageGet (py "https://www.amazon.in/dp/x")], Ok (main_simple.Data d)) /\
    pi_price d = 41000%Q /\
    page_info_ok (py "https://www.amazon.in/dp/x") d.
Proof.
  destruct (inspect_url_answers world_primary_upper page_world_retry
              (py "https://www.amazon.in/dp/x") [])
    as (log' & r & Hrun & _ & Hd & _).
  pose proof Hrun as Hval. vm_compute in Hval.
  injection Hval as Hlog Hr. subst log' r.
  eexists. split; [exact Hrun|]. split; [reflexivity|]. now apply Hd.
Defined.

(** ** The order of the fallback result *)

(** X24: the fallback result is the deduplication of the aggregator's
    records followed, on escalation, by Amazon's and then Flipkart's, each
    scraper being run once; hence the aggregator's first record, when
    there is one, is the first record of the result, and it is the one
    kept for its url whatever a direct scraper found for the same url. *)
Theorem fallback_result_order (w : World) (q : list N) (log : Log) :
  exists agg amz fk out,
    snd (FallbackScraper.scrape_search_engine w q log) = Ok agg /\
    snd (FallbackScraper.scrape_amazon w q (log ++ [post_event q; Sleep])) = Ok amz /\
    snd (FallbackScraper.scrape_flipkart w q
           (log ++ [post_event q; Sleep; amazon_event q; Sleep])) = Ok fk /\
    snd (FallbackScraper.search w q log) = Ok out /\
    out = FallbackScraper.deduplicate
            (if (length agg <? 2)%nat then agg ++ amz ++ fk else agg) /\
    (forall r rest, agg = r :: rest ->
       head out = Some r /\ find (has_url (url r)) out = Some r).
Proof.
  destruct (fallback_search_run w q log) as (agg & amz & fk & Ha & Hz & Hf & Hrun).
  exists agg, amz, fk,
    (FallbackScraper.deduplicate
       (if (length agg <? 2)%nat then agg ++ amz ++ fk else agg)).
  rewrite Ha, Hz, Hf, Hrun. do 3 (split; [reflexivity|]).
  split; [destruct (length agg <? 2)%nat; [now rewrite <- app_assoc | reflexivity]|].
  split; [reflexivity|].
  intros r rest ->. rewrite !deduplicate_keep_first.
  assert (Hhead : forall l, head (keep_first [] (r :: l)) = Some r
                            /\ find (has_url (url r)) (keep_first [] (r :: l)) = Some r).
  { intros l. cbn [keep_first].
    rewrite bool_decide_eq_false_2 by apply not_elem_of_nil.
    split; [reflexivity|]. cbn [find]. unfold has_url at 1.
    now rewrite bool_decide_eq_true_2. }
  destruct (length (r :: rest) <? 2)%nat.
  - rewrite <- app_comm_cons. apply Hhead.
  - apply Hhead.
Qed.
